(** * Twilio <-> OpenAI Realtime media-stream relay: a shallow embedding

    This development embeds the per-call relay of [main_2.py]
    ([handle_media_stream] with its nested coroutines
    [receive_from_twilio], [send_to_twilio], [handle_speech_started_event]
    and [send_mark]) and states the properties of the design document
    against it.

    Conventions of the embedding.
    - A decoded JSON document is a value of [json]; Python's [None] is
      [JNull].  JSON numbers are integers on both protocols, so floats are
      left out.
    - The closure cells of [handle_media_stream] that the nested coroutines
      share are the fields of one record, [session].
    - A coroutine body is a computation in a small state / output /
      exception monad [M]: an exception keeps the state reached and the
      messages already sent, as in Python.
    - The handling of one received message is one atomic step; the two
      relay loops are interleaved message by message.
    - A [send] on a connection appends to the output trace; transport
      failures of a send are outside the model.

    Besides the relay, the HTTP handlers of [main_2.py] that keep the
    registry of calls ([make_outbound_call], [call_status_callback],
    [initialize_session] and the opening of [handle_media_stream]) and the
    handler of [elevenlabs.py] are embedded, in the modules [Calls] and
    [ElevenLabs]; what the AI backend, the telephony provider and the
    speech API answer is an argument of each handler. *)

From Stdlib Require Import ZArith NArith List String Ascii Bool Lia.
From Stdlib Require Import Strings.Byte.
Import ListNotations.

Set Warnings "-register-all".
Local Open Scope string_scope.
Local Open Scope list_scope.

(* ================================================================== *)
(** * Base64, as [base64.b64encode] / [base64.b64decode] compute it      *)
(* ================================================================== *)

Module Base64.

Local Open Scope N_scope.

(** The 64-character alphabet of RFC 4648, section 4. *)
Definition table_b2a (n : N) : ascii :=
  if n <? 26 then ascii_of_N (65 + n)
  else if n <? 52 then ascii_of_N (71 + n)
  else if n <? 62 then ascii_of_N (n - 4)
  else if n =? 62 then "+"%char
  else "/"%char.

(** The inverse table; [None] for a character outside the alphabet. *)
Definition table_a2b (c : ascii) : option N :=
  let n := N_of_ascii c in
  if (65 <=? n) && (n <=? 90) then Some (n - 65)
  else if (97 <=? n) && (n <=? 122) then Some (n - 71)
  else if (48 <=? n) && (n <=? 57) then Some (n + 4)
  else if n =? 43 then Some 62
  else if n =? 47 then Some 63
  else None.

Definition BASE64_PAD : ascii := "="%char.

(** A byte from the low eight bits of a number (a store into an
    [unsigned char]). *)
Definition byte_of_N (n : N) : byte :=
  match Byte.of_N (n mod 256) with
  | Some b => b
  | None => x00
  end.

(** The four sextets of a three-byte group. *)
Definition sext1 (x : N) : N := N.shiftr x 2.
Definition sext2 (x y : N) : N := N.lor (N.shiftl (N.land x 3) 4) (N.shiftr y 4).
Definition sext3 (y z : N) : N := N.lor (N.shiftl (N.land y 15) 2) (N.shiftr z 6).
Definition sext4 (z : N) : N := N.land z 63.

Definition pad1 : string := String BASE64_PAD EmptyString.
Definition pad2 : string := String BASE64_PAD pad1.

(** [binascii.b2a_base64(data, newline=False)]: three bytes give four
    characters; a final group of one or two bytes is padded with [=]. *)
Fixpoint b2a_base64 (bin : list byte) : string :=
  match bin with
  | [] => EmptyString
  | [a] =>
      let x := Byte.to_N a in
      String (table_b2a (sext1 x)) (String (table_b2a (sext2 x 0)) pad2)
  | [a; b] =>
      let x := Byte.to_N a in
      let y := Byte.to_N b in
      String (table_b2a (sext1 x))
        (String (table_b2a (sext2 x y))
           (String (table_b2a (sext3 y 0)) pad1))
  | a :: b :: c :: rest =>
      let x := Byte.to_N a in
      let y := Byte.to_N b in
      let z := Byte.to_N c in
      String (table_b2a (sext1 x))
        (String (table_b2a (sext2 x y))
           (String (table_b2a (sext3 y z))
              (String (table_b2a (sext4 z)) (b2a_base64 rest))))
  end.

(** [binascii.a2b_base64(data, strict_mode=False)] as CPython 3.11 and
    later compute it, character by character: [quad_pos] is the position inside the current quad,
    [leftchar] the bits not yet written, [pads] the run of [=] seen since
    the last alphabet character.  Characters outside the alphabet are
    skipped; a pad run that completes a quad ends the decoding; input that
    ends inside a quad is an error ([None], [binascii.Error]). *)
Fixpoint a2b_loop (ascii_data : string) (quad_pos : nat) (leftchar : N)
    (pads : nat) (bin_data : list byte) : option (list byte) :=
  match ascii_data with
  | EmptyString =>
      match quad_pos with
      | O => Some bin_data
      | _ => None
      end
  | String this_ch rest =>
      if Ascii.eqb this_ch BASE64_PAD then
        if Nat.leb 2 quad_pos then
          if Nat.leb 4 (quad_pos + S pads) then Some bin_data
          else a2b_loop rest quad_pos leftchar (S pads) bin_data
        else a2b_loop rest quad_pos leftchar pads bin_data
      else
        match table_a2b this_ch with
        | None => a2b_loop rest quad_pos leftchar pads bin_data
        | Some v =>
            match quad_pos with
            | O => a2b_loop rest 1 v 0 bin_data
            | 1%nat =>
                a2b_loop rest 2 (N.land v 15) 0
                  (bin_data ++
                   [byte_of_N (N.lor (N.shiftl leftchar 2) (N.shiftr v 4))])
            | 2%nat =>
                a2b_loop rest 3 (N.land v 3) 0
                  (bin_data ++
                   [byte_of_N (N.lor (N.shiftl leftchar 4) (N.shiftr v 2))])
            | _ =>
                a2b_loop rest 0 0 0
                  (bin_data ++ [byte_of_N (N.lor (N.shiftl leftchar 6) v)])
            end
        end
  end.

Definition a2b_base64 (ascii_data : string) : option (list byte) :=
  a2b_loop ascii_data 0 0 0 [].

(** Every character is ASCII ([str.encode('ascii')] succeeds). *)
Fixpoint is_ascii (s : string) : bool :=
  match s with
  | EmptyString => true
  | String c rest => (N_of_ascii c <? 128) && is_ascii rest
  end.

(** ** Canonical padded base64 text

    Quads of alphabet characters; the last quad may end in one or two
    pads, and then the bits of its last character that encode no data are
    zero. *)
Definition in_alphabet (c : ascii) : bool :=
  match table_a2b c with
  | Some _ => true
  | None => false
  end.

Definition val (c : ascii) : N :=
  match table_a2b c with
  | Some v => v
  | None => 0
  end.

Fixpoint canonical (s : string) : bool :=
  match s with
  | EmptyString => true
  | String c1 (String c2 (String c3 (String c4 rest))) =>
      in_alphabet c1 && in_alphabet c2 &&
      (if Ascii.eqb c4 BASE64_PAD then
         match rest with
         | EmptyString =>
             if Ascii.eqb c3 BASE64_PAD then N.land (val c2) 15 =? 0
             else in_alphabet c3 && (N.land (val c3) 3 =? 0)
         | _ => false
         end
       else in_alphabet c3 && in_alphabet c4 && canonical rest)
  | _ => false
  end.

End Base64.

(** ** Exhaustive checks

    The bit identities behind the two directions of the codec are decided
    by running them over all bytes and all sextets. *)
Module Base64Checks.
Import Base64.
Local Open Scope N_scope.

(** Checks over an initial segment of the naturals. *)
Fixpoint below (n : nat) (p : N -> bool) : bool :=
  match n with
  | O => true
  | S k => p (N.of_nat k) && below k p
  end.

(** The two tables agree on a sextet, and its character is ASCII and is
    not the pad. *)
Definition sym_ok (n : N) : bool :=
  negb (Ascii.eqb (table_b2a n) BASE64_PAD) &&
  (N_of_ascii (table_b2a n) <? 128) &&
  match table_a2b (table_b2a n) with
  | Some v => v =? n
  | None => false
  end.

(** A character of the alphabet is the character of its value. *)
Definition char_ok (n : N) : bool :=
  let c := ascii_of_N n in
  negb (in_alphabet c) ||
  ((val c <? 64) && Ascii.eqb (table_b2a (val c)) c).

(** The sextets of two neighbouring bytes, and what the decoder rebuilds
    from them. *)
Definition pair_ok (x y : N) : bool :=
  (sext1 x <? 64) && (sext2 x y <? 64) && (sext3 x y <? 64) &&
  (sext4 x <? 64) &&
  (N.lor (N.shiftl (sext1 x) 2) (N.shiftr (sext2 x y) 4) =? x) &&
  (N.land (sext2 x y) 15 =? N.shiftr y 4) &&
  (N.shiftr (sext3 x y) 2 =? N.land x 15) &&
  (N.land (sext3 x y) 3 =? N.shiftr y 6) &&
  (N.lor (N.shiftl (N.shiftr x 4) 4) (N.land x 15) =? x) &&
  (N.lor (N.shiftl (N.shiftr x 6) 6) (sext4 x) =? x).

(** The bytes a quad of sextets stands for. *)
Definition dec1 (v1 v2 : N) : N := N.lor (N.shiftl v1 2) (N.shiftr v2 4).
Definition dec2 (v2 v3 : N) : N :=
  N.lor (N.shiftl (N.land v2 15) 4) (N.shiftr v3 2).
Definition dec3 (v3 v4 : N) : N := N.lor (N.shiftl (N.land v3 3) 6) v4.

(** The bytes of two neighbouring sextets, and their sextets again. *)
Definition quad_ok (u v : N) : bool :=
  (dec1 u v <? 256) && (dec2 u v <? 256) && (dec3 u v <? 256) &&
  (sext1 (dec1 u v) =? u) &&
  (sext4 (dec3 u v) =? v) &&
  (N.land (dec1 u v) 3 =? N.shiftr v 4) &&
  (N.shiftr (dec2 u v) 4 =? N.land u 15) &&
  (N.land (dec2 u v) 15 =? N.shiftr v 2) &&
  (N.shiftr (dec3 u v) 6 =? N.land u 3) &&
  (N.lor (N.shiftl (N.shiftr v 4) 4) (N.land v 15) =? v) &&
  (N.lor (N.shiftl (N.shiftr v 2) 2) (N.land v 3) =? v).

End Base64Checks.

(* ================================================================== *)
(** * Python values and exceptions                                      *)
(* ================================================================== *)

(** A document as [json.loads] returns it.  An object keeps its members
    as an association list with distinct keys. *)
Inductive json : Type :=
| JNull
| JBool (b : bool)
| JInt (z : Z)
| JStr (s : string)
| JArr (items : list json)
| JObj (members : list (string * json)).

(** A text frame as it arrives on a connection: either it encodes a
    document, or [json.loads] rejects it. *)
Inductive wire : Type :=
| Undecodable
| Encodes (doc : json).

Inductive exn : Type :=
| JSONDecodeError
| KeyError (key : string)
| TypeError
| ValueError
| BinasciiError
| NameError (name : string).

(** Truth value of an object in a condition ([if x:]). *)
Definition truthy (v : json) : bool :=
  match v with
  | JNull => false
  | JBool b => b
  | JInt z => negb (Z.eqb z 0)
  | JStr s => negb (String.eqb s "")
  | JArr items => match items with [] => false | _ => true end
  | JObj members => match members with [] => false | _ => true end
  end.

(** [v == "literal"]. *)
Definition is_str (v : json) (literal : string) : bool :=
  match v with
  | JStr s => String.eqb s literal
  | _ => false
  end.

Fixpoint assoc (key : string) (members : list (string * json)) : option json :=
  match members with
  | [] => None
  | (k, v) :: rest => if String.eqb k key then Some v else assoc key rest
  end.

(** [d.get(key)] on a dict. *)
Definition dict_get (members : list (string * json)) (key : string) : json :=
  match assoc key members with
  | Some v => v
  | None => JNull
  end.

(** [key in d] on a dict. *)
Definition dict_contains (members : list (string * json)) (key : string) : bool :=
  match assoc key members with
  | Some _ => true
  | None => false
  end.

(** Whether an object can be a dict key ([x in some_dict]). *)
Definition hashable (v : json) : bool :=
  match v with
  | JArr _ | JObj _ => false
  | _ => true
  end.

(* ================================================================== *)
(** * The session and its monad                                         *)
(* ================================================================== *)

(** The variables of [handle_media_stream] (lines 147-151 and
    [openai_ws]) that the nested coroutines close over, and the two names
    that [receive_from_twilio] assigns without declaring them [nonlocal]:
    those are locals of that coroutine, distinct from the cells of the
    same name. *)
Record session : Type := mkSession {
  openai_ws_bound : bool;
  stream_sid : json;
  latest_media_timestamp : Z;
  last_assistant_item : json;
  mark_queue : list string;
  response_start_timestamp_twilio : option Z;
  rx_local_response_start_timestamp_twilio : option (option Z);
  rx_local_last_assistant_item : option json
}.

(** A message handed to one of the two connections. *)
Inductive out_msg : Type :=
| ToTwilio (doc : json)
| ToOpenAI (doc : json).

Inductive outcome (A : Type) : Type :=
| Return (a : A)
| Raise (e : exn).
Arguments Return {A} a.
Arguments Raise {A} e.

(** State, output trace and exceptions. *)
Definition M (A : Type) : Type := session -> outcome A * session * list out_msg.

Definition ret {A : Type} (a : A) : M A := fun st => (Return a, st, []).

Definition raise {A : Type} (e : exn) : M A := fun st => (Raise e, st, []).

Definition bind {A B : Type} (m : M A) (k : A -> M B) : M B :=
  fun st =>
    match m st with
    | (Return a, st1, out1) =>
        match k a st1 with
        | (r, st2, out2) => (r, st2, out1 ++ out2)
        end
    | (Raise e, st1, out1) => (Raise e, st1, out1)
    end.

Notation "x <- m ;; k" := (bind m (fun x => k))
  (at level 61, m at next level, right associativity).
Notation "m ;;; k" := (bind m (fun _ => k))
  (at level 61, right associativity).

Definition read {A : Type} (field : session -> A) : M A :=
  fun st => (Return (field st), st, []).

Definition update (f : session -> session) : M unit :=
  fun st => (Return tt, f st, []).

Definition emit (m : out_msg) : M unit := fun st => (Return tt, st, [m]).

(** A computation that touches neither the state nor the connections. *)
Definition lift {A : Type} (r : outcome A) : M A := fun st => (r, st, []).

(** [try: body / except Exception: print(...)]: the exception is
    swallowed, state and output stay as they were when it was raised. *)
Definition try_except_Exception (body : M unit) : M unit :=
  fun st =>
    match body st with
    | (Raise _, st1, out1) => (Return tt, st1, out1)
    | done => done
    end.

(** Assignments to the cells. *)
Definition set_openai_ws_bound (v : bool) (st : session) : session :=
  mkSession v (stream_sid st) (latest_media_timestamp st)
    (last_assistant_item st) (mark_queue st)
    (response_start_timestamp_twilio st)
    (rx_local_response_start_timestamp_twilio st)
    (rx_local_last_assistant_item st).

Definition set_stream_sid (v : json) (st : session) : session :=
  mkSession (openai_ws_bound st) v (latest_media_timestamp st)
    (last_assistant_item st) (mark_queue st)
    (response_start_timestamp_twilio st)
    (rx_local_response_start_timestamp_twilio st)
    (rx_local_last_assistant_item st).

Definition set_latest_media_timestamp (v : Z) (st : session) : session :=
  mkSession (openai_ws_bound st) (stream_sid st) v
    (last_assistant_item st) (mark_queue st)
    (response_start_timestamp_twilio st)
    (rx_local_response_start_timestamp_twilio st)
    (rx_local_last_assistant_item st).

Definition set_last_assistant_item (v : json) (st : session) : session :=
  mkSession (openai_ws_bound st) (stream_sid st) (latest_media_timestamp st)
    v (mark_queue st)
    (response_start_timestamp_twilio st)
    (rx_local_response_start_timestamp_twilio st)
    (rx_local_last_assistant_item st).

Definition set_mark_queue (v : list string) (st : session) : session :=
  mkSession (openai_ws_bound st) (stream_sid st) (latest_media_timestamp st)
    (last_assistant_item st) v
    (response_start_timestamp_twilio st)
    (rx_local_response_start_timestamp_twilio st)
    (rx_local_last_assistant_item st).

Definition set_response_start_timestamp_twilio (v : option Z) (st : session)
  : session :=
  mkSession (openai_ws_bound st) (stream_sid st) (latest_media_timestamp st)
    (last_assistant_item st) (mark_queue st) v
    (rx_local_response_start_timestamp_twilio st)
    (rx_local_last_assistant_item st).

(** Assignments to the locals of [receive_from_twilio]. *)
Definition set_rx_local_response_start_timestamp_twilio (v : option Z)
    (st : session) : session :=
  mkSession (openai_ws_bound st) (stream_sid st) (latest_media_timestamp st)
    (last_assistant_item st) (mark_queue st)
    (response_start_timestamp_twilio st) (Some v)
    (rx_local_last_assistant_item st).

Definition set_rx_local_last_assistant_item (v : json) (st : session)
  : session :=
  mkSession (openai_ws_bound st) (stream_sid st) (latest_media_timestamp st)
    (last_assistant_item st) (mark_queue st)
    (response_start_timestamp_twilio st)
    (rx_local_response_start_timestamp_twilio st) (Some v).

(** [json.loads(message)]. *)
Definition json_loads (message : wire) : outcome json :=
  match message with
  | Undecodable => Raise JSONDecodeError
  | Encodes doc => Return doc
  end.

(** [obj[key]] with a string key. *)
Definition subscript (obj : json) (key : string) : outcome json :=
  match obj with
  | JObj members =>
      match assoc key members with
      | Some v => Return v
      | None => Raise (KeyError key)
      end
  | _ => Raise TypeError
  end.

(** [base64.b64decode(x)] for a value taken from a document. *)
Definition b64decode (x : json) : outcome (list byte) :=
  match x with
  | JStr s =>
      if Base64.is_ascii s then
        match Base64.a2b_base64 s with
        | Some raw => Return raw
        | None => Raise BinasciiError
        end
      else Raise ValueError
  | _ => Raise TypeError
  end.

(** [base64.b64encode(raw).decode("utf-8")]. *)
Definition b64encode (raw : list byte) : string := Base64.b2a_base64 raw.

(** The free variable [openai_ws]: unbound until the first message was a
    start event. *)
Definition openai_ws : M unit :=
  bound <- read openai_ws_bound ;;
  if bound then ret tt else raise (NameError "openai_ws").

(* ================================================================== *)
(** * The relay coroutines of [handle_media_stream]                     *)
(* ================================================================== *)

Local Open Scope Z_scope.

(** The messages the relay builds (dict literals of the source). *)
Definition audio_append (payload : json) : json :=
  JObj [("type", JStr "input_audio_buffer.append"); ("audio", payload)].

Definition audio_delta (sid : json) (audio_payload : string) : json :=
  JObj [("event", JStr "media"); ("streamSid", sid);
        ("media", JObj [("payload", JStr audio_payload)])].

Definition truncate_event (item : json) (elapsed_time : Z) : json :=
  JObj [("type", JStr "conversation.item.truncate"); ("item_id", item);
        ("content_index", JInt 0); ("audio_end_ms", JInt elapsed_time)].

Definition clear_event (sid : json) : json :=
  JObj [("event", JStr "clear"); ("streamSid", sid)].

Definition mark_event (sid : json) : json :=
  JObj [("event", JStr "mark"); ("streamSid", sid);
        ("mark", JObj [("name", JStr "responsePart")])].

(** [send_mark(connection, stream_sid)], lines 276-284. *)
Definition send_mark (sid : json) : M unit :=
  if truthy sid then
    emit (ToTwilio (mark_event sid)) ;;;
    update (fun st => set_mark_queue (mark_queue st ++ ["responsePart"]) st)
  else ret tt.

(** [handle_speech_started_event()], lines 245-274. *)
Definition handle_speech_started_event : M unit :=
  queue <- read mark_queue ;;
  started <- read response_start_timestamp_twilio ;;
  match queue, started with
  | _ :: _, Some response_start =>
      latest <- read latest_media_timestamp ;;
      let elapsed_time := latest - response_start in
      item <- read last_assistant_item ;;
      (if truthy item
       then emit (ToOpenAI (truncate_event item elapsed_time))
       else ret tt) ;;;
      sid <- read stream_sid ;;
      emit (ToTwilio (clear_event sid)) ;;;
      update (set_mark_queue []) ;;;
      update (set_last_assistant_item JNull) ;;;
      update (set_response_start_timestamp_twilio None)
  | _, _ => ret tt
  end.

(** One iteration of the loop of [send_to_twilio], lines 205-241. *)
Definition send_to_twilio_body (openai_message : wire) : M unit :=
  response <- lift (json_loads openai_message) ;;
  (* response["type"] in LOG_EVENT_TYPES: the lookup may raise, the
     membership only decides a print *)
  type <- lift (subscript response "type") ;;
  let fields :=
    match response with
    | JObj members => members
    | _ => []
    end in
  (if is_str type "response.audio.delta" && dict_contains fields "delta"
   then
     delta <- lift (subscript response "delta") ;;
     raw <- lift (b64decode delta) ;;
     let audio_payload := b64encode raw in
     sid <- read stream_sid ;;
     emit (ToTwilio (audio_delta sid audio_payload)) ;;;
     started <- read response_start_timestamp_twilio ;;
     (match started with
      | None =>
          latest <- read latest_media_timestamp ;;
          update (set_response_start_timestamp_twilio (Some latest))
      | Some _ => ret tt
      end) ;;;
     (if truthy (dict_get fields "item_id")
      then
        item <- lift (subscript response "item_id") ;;
        update (set_last_assistant_item item)
      else ret tt) ;;;
     sid' <- read stream_sid ;;
     send_mark sid'
   else ret tt) ;;;
  (if is_str type "input_audio_buffer.speech_started"
   then
     item <- read last_assistant_item ;;
     if truthy item then handle_speech_started_event else ret tt
   else ret tt).

(** [send_to_twilio()]: the loop over the messages of the AI connection,
    inside [try / except Exception]. *)
Fixpoint send_to_twilio_loop (messages : list wire) : M unit :=
  match messages with
  | [] => ret tt
  | openai_message :: rest =>
      send_to_twilio_body openai_message ;;; send_to_twilio_loop rest
  end.

Definition send_to_twilio (messages : list wire) : M unit :=
  try_except_Exception (openai_ws ;;; send_to_twilio_loop messages).

Section Inbound.

(** [int(s)] for a [str] argument, [None] where it raises [ValueError].
    The conversion is a builtin of the language; the relay is embedded
    for whatever it computes. *)
Variable int_of_str : string -> option Z.

(** [int(x)]. *)
Definition py_int (x : json) : outcome Z :=
  match x with
  | JInt z => Return z
  | JBool b => Return (if b then 1 else 0)
  | JStr s =>
      match int_of_str s with
      | Some z => Return z
      | None => Raise ValueError
      end
  | _ => Raise TypeError
  end.

(** One iteration of the loop of [receive_from_twilio], lines 178-194.
    [openai_ws_open] is what [openai_ws.open] reports when the message is
    handled. *)
Definition receive_from_twilio_body (openai_ws_open : bool) (message : wire)
  : M unit :=
  data <- lift (json_loads message) ;;
  event <- lift (subscript data "event") ;;
  forward <-
    (if is_str event "media"
     then openai_ws ;;; ret openai_ws_open
     else ret false) ;;
  if forward then
    media <- lift (subscript data "media") ;;
    timestamp <- lift (subscript media "timestamp") ;;
    t <- lift (py_int timestamp) ;;
    update (set_latest_media_timestamp t) ;;;
    media' <- lift (subscript data "media") ;;
    payload <- lift (subscript media' "payload") ;;
    emit (ToOpenAI (audio_append payload))
  else if is_str event "start" then
    start <- lift (subscript data "start") ;;
    sid <- lift (subscript start "streamSid") ;;
    update (set_stream_sid sid) ;;;
    update (set_rx_local_response_start_timestamp_twilio None) ;;;
    update (set_latest_media_timestamp 0) ;;;
    update (set_rx_local_last_assistant_item JNull)
  else if is_str event "mark" then
    queue <- read mark_queue ;;
    match queue with
    | _ :: rest => update (set_mark_queue rest)
    | [] => ret tt
    end
  else ret tt.

(** [receive_from_twilio()]: the loop over the text frames of the
    telephony connection.  Its handler catches [WebSocketDisconnect] only,
    which no step of the body raises: any exception of the body leaves the
    loop and the coroutine. *)
Fixpoint receive_from_twilio (messages : list (bool * wire)) : M unit :=
  match messages with
  | [] => ret tt
  | (openai_ws_open, message) :: rest =>
      receive_from_twilio_body openai_ws_open message ;;;
      receive_from_twilio rest
  end.

(** ** The two loops under [asyncio.gather] *)

(** A message arriving on one of the two connections. *)
Inductive arrival : Type :=
| OnTwilio (openai_ws_open : bool) (message : wire)
| OnOpenAI (openai_message : wire).

(** The session with both coroutines: which loop is still running, the
    exception [receive_from_twilio] let escape (which [gather] re-raises
    out of [handle_media_stream]), and everything sent so far.  What
    becomes of [send_to_twilio] once an exception has escaped and the
    handler is gone is left open: its sends then depend on the transport,
    and a schedule is read up to that point. *)
Record relay : Type := mkRelay {
  sess : session;
  sent : list out_msg;
  rx_running : bool;
  tx_running : bool;
  escaped : option exn
}.

(** Both coroutines start; [send_to_twilio] ends at once, inside its
    handler, when [openai_ws] is unbound. *)
Definition gather (st : session) : relay :=
  mkRelay st [] true (openai_ws_bound st) None.

(** One arrival, handled by the loop that reads that connection if it is
    still running. *)
Definition deliver (r : relay) (a : arrival) : relay :=
  match a with
  | OnTwilio openai_ws_open message =>
      if rx_running r then
        match receive_from_twilio_body openai_ws_open message (sess r) with
        | (Return _, st, out) =>
            mkRelay st (sent r ++ out) true (tx_running r) (escaped r)
        | (Raise e, st, out) =>
            mkRelay st (sent r ++ out) false (tx_running r) (Some e)
        end
      else r
  | OnOpenAI openai_message =>
      if tx_running r then
        match send_to_twilio_body openai_message (sess r) with
        | (Return _, st, out) =>
            mkRelay st (sent r ++ out) (rx_running r) true (escaped r)
        | (Raise _, st, out) =>
            mkRelay st (sent r ++ out) (rx_running r) false (escaped r)
        end
      else r
  end.

Definition run (r : relay) (schedule : list arrival) : relay :=
  fold_left deliver schedule r.

(** ** Opening of [handle_media_stream], lines 147-171 *)

Definition initial_session : session :=
  mkSession false JNull 0 JNull [] None None None.

(** The first message, read with [receive_json] before the loops start.
    Connecting to the AI backend is taken to succeed. *)
Definition handle_media_stream_open (first : wire) : M unit :=
  data <- lift (json_loads first) ;;
  event <- lift (subscript data "event") ;;
  if is_str event "start" then
    start <- lift (subscript data "start") ;;
    sid <- lift (subscript start "streamSid") ;;
    update (set_stream_sid sid) ;;;
    let call_sid :=
      match start with
      | JObj members => dict_get members "callSid"
      | _ => JNull
      end in
    (* call_sid in active_calls *)
    (if hashable call_sid then ret tt else raise TypeError) ;;;
    update (set_openai_ws_bound true)
  else ret tt.

(** [handle_media_stream]: the first message, then both loops over a
    schedule of arrivals.  [None] when the opening raised. *)
Definition handle_media_stream (first : wire) (schedule : list arrival)
  : option relay :=
  match handle_media_stream_open first initial_session with
  | (Return _, st, _) => Some (run (gather st) schedule)
  | (Raise _, _, _) => None
  end.

End Inbound.

(** A conversion for the decimal strings the telephony leg sends:
    a non-empty run of ASCII digits. *)
Fixpoint digits_value (acc : Z) (s : string) : option Z :=
  match s with
  | EmptyString => Some acc
  | String c rest =>
      let n := Z.of_N (N_of_ascii c) in
      if (48 <=? n) && (n <=? 57)
      then digits_value (10 * acc + (n - 48)) rest
      else None
  end.

Definition int_of_digits (s : string) : option Z :=
  match s with
  | EmptyString => None
  | _ => digits_value 0 s
  end.

(* ================================================================== *)
(** * The effects of the handlers in closed form                        *)
(* ================================================================== *)

(** The session [handle_speech_started_event] leaves when its guard
    holds: lines 272-274. *)
Definition interrupted (st : session) : session :=
  set_response_start_timestamp_twilio None
    (set_last_assistant_item JNull (set_mark_queue [] st)).

(** The session after an audio delta was forwarded: lines 223-233 and
    [send_mark]. *)
Definition after_delta (members : list (string * json)) (st : session)
  : session :=
  let st1 :=
    match response_start_timestamp_twilio st with
    | None =>
        set_response_start_timestamp_twilio
          (Some (latest_media_timestamp st)) st
    | Some _ => st
    end in
  let st2 :=
    if truthy (dict_get members "item_id")
    then set_last_assistant_item (dict_get members "item_id") st1
    else st1 in
  if truthy (stream_sid st)
  then set_mark_queue (mark_queue st2 ++ ["responsePart"]) st2
  else st2.

(** The session after a start event: lines 187-191. *)
Definition after_start (sid : json) (st : session) : session :=
  set_rx_local_last_assistant_item JNull
    (set_latest_media_timestamp 0
       (set_rx_local_response_start_timestamp_twilio None
          (set_stream_sid sid st))).

(** The session after a mark event: lines 193-194. *)
Definition after_mark (st : session) : session :=
  match mark_queue st with
  | _ :: rest => set_mark_queue rest st
  | [] => st
  end.

(* ================================================================== *)
(** * Vocabulary of the properties                                      *)
(* ================================================================== *)

(** A text frame that decodes to an object with an ["event"] member. *)
Definition has_event_key (m : wire) : bool :=
  match m with
  | Encodes (JObj members) => dict_contains members "event"
  | _ => false
  end.

(** A media frame handed to the telephony connection. *)
Definition is_media_frame (m : out_msg) : bool :=
  match m with
  | ToTwilio (JObj members) => is_str (dict_get members "event") "media"
  | _ => false
  end.

(** An arrival that [send_to_twilio] forwards as audio: an audio delta
    whose payload decodes. *)
Definition is_audio_delta (a : arrival) : bool :=
  match a with
  | OnOpenAI (Encodes (JObj members)) =>
      is_str (dict_get members "type") "response.audio.delta" &&
      match assoc "delta" members with
      | Some (JStr s) =>
          Base64.is_ascii s &&
          match Base64.a2b_base64 s with
          | Some _ => true
          | None => false
          end
      | _ => false
      end
  | _ => false
  end.

(** A mark acknowledgment of the telephony leg. *)
Definition is_mark_ack (a : arrival) : bool :=
  match a with
  | OnTwilio _ (Encodes (JObj members)) =>
      is_str (dict_get members "event") "mark"
  | _ => false
  end.

(** A message of the telephony leg as an arrival. *)
Definition on_twilio (x : bool * wire) : arrival := OnTwilio (fst x) (snd x).

Definition count (p : arrival -> bool) (schedule : list arrival) : nat :=
  List.length (filter p schedule).

(** Length of the queue along a schedule of forwards and
    acknowledgments, from [queued] tokens: a forward adds a token, an
    acknowledgment removes one if there is one. *)
Fixpoint balance (queued : nat) (schedule : list arrival) : nat :=
  match schedule with
  | [] => queued
  | a :: rest =>
      if is_audio_delta a then balance (S queued) rest
      else if is_mark_ack a then balance (Nat.pred queued) rest
      else balance queued rest
  end.

(** Every acknowledgment of the schedule finds a token in the queue. *)
Fixpoint acks_in_time (queued : nat) (schedule : list arrival) : bool :=
  match schedule with
  | [] => true
  | a :: rest =>
      if is_audio_delta a then acks_in_time (S queued) rest
      else if is_mark_ack a then
        match queued with
        | O => false
        | S q => acks_in_time q rest
        end
      else acks_in_time queued rest
  end.

(** The session is in a state the relay can produce: the item recorded
    is [None] or an object that counts as true. *)
Definition item_recorded_or_none (st : session) : Prop :=
  last_assistant_item st = JNull \/ truthy (last_assistant_item st) = true.

(* ================================================================== *)
(** * Sample messages and sessions                                      *)
(* ================================================================== *)

Definition start_msg (sid : json) : list (string * json) :=
  [("event", JStr "start");
   ("start", JObj [("streamSid", sid); ("callSid", JStr "CA1")])].

Definition media_fields (ts payload : string) : list (string * json) :=
  [("timestamp", JStr ts); ("payload", JStr payload)].

Definition media_msg (ts payload : string) : list (string * json) :=
  [("event", JStr "media"); ("media", JObj (media_fields ts payload))].

Definition mark_msg : list (string * json) :=
  [("event", JStr "mark"); ("mark", JObj [("name", JStr "responsePart")])].

Definition stop_msg : list (string * json) := [("event", JStr "stop")].

Definition delta_msg (delta item : string) : list (string * json) :=
  [("type", JStr "response.audio.delta"); ("delta", JStr delta);
   ("item_id", JStr item)].

Definition speech_started_msg : list (string * json) :=
  [("type", JStr "input_audio_buffer.speech_started")].

Definition done_msg : list (string * json) := [("type", JStr "response.done")].

(** A stream was started and one frame was heard, nothing is playing. *)
Definition st_started : session :=
  mkSession true (JStr "SD1") 100 JNull [] None None None.

(** A response that began at 100 ms is playing and the clock is at
    650 ms. *)
Definition st_playing : session :=
  mkSession true (JStr "SD1") 650 (JStr "item1") ["responsePart"] (Some 100)
    None None.

(** [st_playing] after a start event for a second stream. *)
Definition st_restarted : session :=
  mkSession true (JStr "SD2") 0 (JStr "item1") ["responsePart"] (Some 100)
    (Some None) (Some JNull).

(** A stream was started whose start event carried no stream id. *)
Definition st_no_sid : session :=
  mkSession true JNull 0 JNull [] None None None.

Definition forward_ack_forward : list arrival :=
  [OnOpenAI (Encodes (JObj (delta_msg "AAAA" "item1")));
   OnTwilio true (Encodes (JObj mark_msg));
   OnOpenAI (Encodes (JObj (delta_msg "AAAA" "item1")))].

Definition ack_then_forward : list arrival :=
  [OnTwilio true (Encodes (JObj mark_msg));
   OnOpenAI (Encodes (JObj (delta_msg "AAAA" "item1")))].

(** The scenario of the design document: start, a frame at 100 ms, a
    delta, a frame at 650 ms, the caller speaks. *)
Definition barge_in_scenario : list arrival :=
  [OnTwilio true (Encodes (JObj (media_msg "100" "AAAA")));
   OnOpenAI (Encodes (JObj (delta_msg "AAAA" "item1")));
   OnTwilio true (Encodes (JObj (media_msg "650" "AAAA")));
   OnOpenAI (Encodes (JObj speech_started_msg))].

(* ================================================================== *)
(** * More vocabulary for the relay                                     *)
(* ================================================================== *)

(** A message handed to the telephony connection. *)
Definition is_to_twilio (m : out_msg) : bool :=
  match m with
  | ToTwilio _ => true
  | ToOpenAI _ => false
  end.

(** Whenever a mark is pending or an item is recorded, the start of the
    response is recorded too. *)
Definition start_recorded_while_playing (st : session) : Prop :=
  mark_queue st <> [] \/ last_assistant_item st <> JNull ->
  response_start_timestamp_twilio st <> None.

(** The audio payload of a media frame handed to the telephony
    connection. *)
Definition media_payload (m : out_msg) : list json :=
  match m with
  | ToTwilio (JObj members) =>
      if is_str (dict_get members "event") "media" then
        match dict_get members "media" with
        | JObj media => [dict_get media "payload"]
        | _ => []
        end
      else []
  | _ => []
  end.

(** The audio an [input_audio_buffer.append] hands to the AI
    connection. *)
Definition appended_audio (m : out_msg) : list json :=
  match m with
  | ToOpenAI (JObj members) =>
      if is_str (dict_get members "type") "input_audio_buffer.append"
      then [dict_get members "audio"]
      else []
  | _ => []
  end.

(** The audio of an arrival from the AI backend, encoded again, when the
    arrival is an audio delta that decodes. *)
Definition delta_audio (a : arrival) : list json :=
  match a with
  | OnOpenAI (Encodes (JObj members)) =>
      if is_str (dict_get members "type") "response.audio.delta" then
        match assoc "delta" members with
        | Some delta =>
            match b64decode delta with
            | Return raw => [JStr (b64encode raw)]
            | Raise _ => []
            end
        | None => []
        end
      else []
  | _ => []
  end.

(** The payload of an arrival from the telephony leg, when the arrival is
    a media frame received while the AI connection is open. *)
Definition frame_audio (a : arrival) : list json :=
  match a with
  | OnTwilio true (Encodes (JObj members)) =>
      if is_str (dict_get members "event") "media" then
        match dict_get members "media" with
        | JObj media =>
            match assoc "payload" media with
            | Some payload => [payload]
            | None => []
            end
        | _ => []
        end
      else []
  | _ => []
  end.

(* ================================================================== *)
(** * The HTTP handlers of [main_2.py] and the registry of calls        *)
(* ================================================================== *)

Module Calls.

(** A connection to the AI backend, by identity. *)
Definition conn : Type := nat.

(** An entry of [active_calls]:
    [{"openai_ws": openai_ws, "status": "initiating"}]. *)
Record call_entry : Type := mkEntry {
  entry_openai_ws : conn;
  entry_status : string
}.

(** [active_calls], a dict with the call sids as keys: an association
    list in which a key occurs once. *)
Definition registry : Type := list (string * call_entry).

(** [active_calls[sid]] / [sid in active_calls]. *)
Fixpoint lookup (sid : string) (calls : registry) : option call_entry :=
  match calls with
  | [] => None
  | (k, entry) :: rest => if String.eqb k sid then Some entry else lookup sid rest
  end.

(** [del active_calls[sid]]. *)
Fixpoint remove (sid : string) (calls : registry) : registry :=
  match calls with
  | [] => []
  | (k, entry) :: rest =>
      if String.eqb k sid then remove sid rest else (k, entry) :: remove sid rest
  end.

(** [active_calls[sid] = entry]. *)
Definition store (sid : string) (entry : call_entry) (calls : registry)
  : registry :=
  (sid, entry) :: remove sid calls.

(** What [twilio_client.calls.create] is asked for. *)
Record call_params : Type := mkParams {
  param_to : string;
  param_from : option string;
  param_url : string;
  param_record : bool;
  param_status_callback : string
}.

(** The process as the handlers see and change it: the registry, the
    connections [initialize_session] has written its [session.update] to
    (oldest first), the connections [close] was called on, and the calls
    asked of the telephony provider. *)
Record world : Type := mkWorld {
  active_calls : registry;
  session_updates : list conn;
  close_requests : list conn;
  call_requests : list call_params
}.

(** What the environment answers. *)
Inductive connect_result : Type :=
| Connects (openai_ws : conn)
| ConnectRaises.

Inductive create_result : Type :=
| Creates (call_sid : string)
| CreateRaises.

(** [OutboundCallRequest]. *)
Record call_request : Type := mkRequest {
  phone_number : string;
  callback_url : option string
}.

(** The replies of the handlers: [{"message": "Call initiated",
    "call_sid": ...}], the 500 reply [{"error": "Failed to initiate
    call: ..."}], and [{"status": "success"}]. *)
Inductive http_reply : Type :=
| CallInitiated (call_sid : string)
| FailedToInitiate
| StatusSuccess.

(** [initialize_session(openai_ws)], lines 294-309: one [session.update]
    with the fixed configuration (server VAD, g711 u-law both ways, the
    voice, the instructions, text and audio, temperature 0.8) is written
    to the connection.  [None] when the write raises. *)
Definition initialize_session (openai_ws : conn) (send_ok : bool) (w : world)
  : option world :=
  if send_ok
  then Some (mkWorld (active_calls w) (session_updates w ++ [openai_ws])
               (close_requests w) (call_requests w))
  else None.

(** The [url] argument of line 74: the callback url of the request if it
    is a non-empty string, the host of the application otherwise. *)
Definition outbound_handler_url (host : string) (request : call_request)
  : string :=
  match callback_url request with
  | Some url =>
      if String.eqb url "" then "https://" ++ host ++ "/outbound-call-handler"
      else "https://" ++ url ++ "/outbound-call-handler"
  | None => "https://" ++ host ++ "/outbound-call-handler"
  end.

(** [make_outbound_call], lines 54-90.  [host] is [app.state.host] and
    [twilio_phone_number] the configured caller number; [connect],
    [send_ok] and [create] are what the AI backend and the telephony
    provider answer.  Any exception ends in the 500 reply of the
    handler. *)
Definition make_outbound_call (host : string)
    (twilio_phone_number : option string) (request : call_request)
    (connect : connect_result) (send_ok : bool) (create : create_result)
    (w : world) : http_reply * world :=
  match connect with
  | ConnectRaises => (FailedToInitiate, w)
  | Connects openai_ws =>
      match initialize_session openai_ws send_ok w with
      | None => (FailedToInitiate, w)
      | Some w1 =>
          let params :=
            mkParams (phone_number request) twilio_phone_number
              (outbound_handler_url host request) true
              ("https://" ++ host ++ "/call-status") in
          let w2 :=
            mkWorld (active_calls w1) (session_updates w1)
              (close_requests w1) (call_requests w1 ++ [params]) in
          match create with
          | CreateRaises => (FailedToInitiate, w2)
          | Creates call_sid =>
              (CallInitiated call_sid,
               mkWorld
                 (store call_sid (mkEntry openai_ws "initiating")
                    (active_calls w2))
                 (session_updates w2) (close_requests w2) (call_requests w2))
          end
      end
  end.

(** [call_status in ["completed", "failed", "busy", "no-answer",
    "canceled"]]. *)
Definition is_final_status (call_status : option string) : bool :=
  match call_status with
  | Some s =>
      String.eqb s "completed" || String.eqb s "failed" ||
      String.eqb s "busy" || String.eqb s "no-answer" ||
      String.eqb s "canceled"
  | None => false
  end.

(** [call_status_callback], lines 121-138.  [call_sid] and [call_status]
    are what [form_data.get] returns when it is text, [None] otherwise.
    The [close] of the connection is inside [try / except: pass]: it is
    asked for, whatever comes of it. *)
Definition call_status_callback (call_sid call_status : option string)
    (w : world) : http_reply * world :=
  match call_sid with
  | Some sid =>
      match lookup sid (active_calls w) with
      | Some entry =>
          if is_final_status call_status then
            (StatusSuccess,
             mkWorld (remove sid (active_calls w)) (session_updates w)
               (close_requests w ++ [entry_openai_ws entry])
               (call_requests w))
          else (StatusSuccess, w)
      | None => (StatusSuccess, w)
      end
  | None => (StatusSuccess, w)
  end.

(** How the opening of [handle_media_stream] ends: with the session, the
    connection the relay will use if any, and the world; or with an
    exception. *)
Inductive opening : Type :=
| Opened (st : session) (openai_ws : option conn) (w : world)
| OpeningRaises (w : world).

(** The opening of [handle_media_stream] with the registry, lines
    147-171: a start event whose call sid is registered takes the
    connection of that call; any other start event opens a connection and
    initialises it; any other first message binds no connection. *)
Definition handle_media_stream_connect (first : wire)
    (connect : connect_result) (send_ok : bool) (w : world) : opening :=
  match json_loads first with
  | Raise _ => OpeningRaises w
  | Return data =>
      match subscript data "event" with
      | Raise _ => OpeningRaises w
      | Return event =>
          if is_str event "start" then
            match subscript data "start" with
            | Raise _ => OpeningRaises w
            | Return start =>
                match subscript start "streamSid" with
                | Raise _ => OpeningRaises w
                | Return sid =>
                    let st := set_stream_sid sid initial_session in
                    let call_sid :=
                      match start with
                      | JObj members => dict_get members "callSid"
                      | _ => JNull
                      end in
                    if hashable call_sid then
                      match
                        match call_sid with
                        | JStr s => lookup s (active_calls w)
                        | _ => None
                        end
                      with
                      | Some entry =>
                          Opened (set_openai_ws_bound true st)
                            (Some (entry_openai_ws entry)) w
                      | None =>
                          match connect with
                          | ConnectRaises => OpeningRaises w
                          | Connects openai_ws =>
                              match initialize_session openai_ws send_ok w with
                              | None => OpeningRaises w
                              | Some w1 =>
                                  Opened (set_openai_ws_bound true st)
                                    (Some openai_ws) w1
                              end
                          end
                      end
                    else OpeningRaises w
                end
            end
          else Opened initial_session None w
      end
  end.

(** A registry in which a key occurs once. *)
Fixpoint distinct_keys (calls : registry) : Prop :=
  match calls with
  | [] => True
  | (k, _) :: rest => lookup k rest = None /\ distinct_keys rest
  end.

End Calls.

(* ================================================================== *)
(** * The ElevenLabs variant, [elevenlabs.py]                           *)
(* ================================================================== *)

Module ElevenLabs.

(** What [requests.post] gives: a response with its status code and
    body, or an exception of the transport. *)
Inductive http_result : Type :=
| Response (status_code : Z) (content : list byte)
| RequestRaises.

Inductive tts_error : Type :=
| HTTPError (status_code : Z)
| RequestException.

(** [ElevenLabsClient.text_to_speech], lines 33-52, on the answer of the
    API: [raise_for_status] raises for the codes 400 to 599, any other
    response gives its body. *)
Definition text_to_speech (answer : http_result) : tts_error + list byte :=
  match answer with
  | RequestRaises => inl RequestException
  | Response status_code content =>
      if (400 <=? status_code) && (status_code <? 600)
      then inl (HTTPError status_code)
      else inr content
  end.

(** The frame of lines 103-109. *)
Definition audio_message (sid : json) (audio_content : list byte) : json :=
  JObj [("streamSid", sid); ("event", JStr "media");
        ("media", JObj [("payload", JStr (b64encode audio_content))])].

(** One iteration of the loop of [handle_media_stream], lines 91-113,
    from the current [stream_sid]: the outcome, the new [stream_sid] and
    the frames sent.  [answer] is what the API answers if it is asked.
    The inner handler swallows a failed synthesis. *)
Definition handle_message (answer : http_result) (message : wire)
    (stream_sid : json) : outcome unit * json * list json :=
  match json_loads message with
  | Raise e => (Raise e, stream_sid, [])
  | Return data =>
      match subscript data "event" with
      | Raise e => (Raise e, stream_sid, [])
      | Return event =>
          if is_str event "start" then
            match subscript data "start" with
            | Raise e => (Raise e, stream_sid, [])
            | Return start =>
                match subscript start "streamSid" with
                | Raise e => (Raise e, stream_sid, [])
                | Return sid =>
                    match text_to_speech answer with
                    | inr audio_content =>
                        (Return tt, sid, [audio_message sid audio_content])
                    | inl _ => (Return tt, sid, [])
                    end
                end
            end
          else (Return tt, stream_sid, [])
      end
  end.

(** The loop over the text frames of the connection, each with the
    answer the API has for it. *)
Fixpoint message_loop (messages : list (http_result * wire))
    (stream_sid : json) : outcome unit * json * list json :=
  match messages with
  | [] => (Return tt, stream_sid, [])
  | (answer, message) :: rest =>
      match handle_message answer message stream_sid with
      | (Return _, sid, out) =>
          match message_loop rest sid with
          | (r, sid', out') => (r, sid', out ++ out')
          end
      | (Raise e, sid, out) => (Raise e, sid, out)
      end
  end.

(** [handle_media_stream], lines 81-120: the loop inside
    [except Exception], from [stream_sid = None].  It gives the last
    [stream_sid] and the frames sent. *)
Definition handle_media_stream (messages : list (http_result * wire))
  : json * list json :=
  match message_loop messages JNull with
  | (_, sid, out) => (sid, out)
  end.

(** A message at which the loop raises. *)
Definition is_fatal (message : wire) : bool :=
  match json_loads message with
  | Raise _ => true
  | Return data =>
      match subscript data "event" with
      | Raise _ => true
      | Return event =>
          is_str event "start" &&
          match subscript data "start" with
          | Raise _ => true
          | Return start =>
              match subscript start "streamSid" with
              | Raise _ => true
              | Return _ => false
              end
          end
      end
  end.

End ElevenLabs.

(* ================================================================== *)
(** * More sample data                                                  *)
(* ================================================================== *)

(** The relay after a start event for SD1, a frame at 100 ms and a delta
    of item1. *)
Definition playing_schedule : list arrival :=
  [OnTwilio true (Encodes (JObj (media_msg "100" "AAAA")));
   OnOpenAI (Encodes (JObj (delta_msg "AAAA" "item1")))].

Definition relay_playing : relay :=
  mkRelay
    (mkSession true (JStr "SD1") 100 (JStr "item1") ["responsePart"]
       (Some 100) None None)
    [ToOpenAI (audio_append (JStr "AAAA"));
     ToTwilio (audio_delta (JStr "SD1") "AAAA");
     ToTwilio (mark_event (JStr "SD1"))]
    true true None.

(** item1 began at 100 ms, played to its end and had its mark
    acknowledged; the clock is at 5000 ms. *)
Definition st_played_out : session :=
  mkSession true (JStr "SD1") 5000 (JStr "item1") [] (Some 100) None None.

(** Two responses, the first one played to its end: start, a frame at
    100 ms, a delta of item1, its mark acknowledged, a frame at 5000 ms, a
    delta of item2, a frame at 5650 ms, the caller speaks. *)
Definition second_response_scenario : list arrival :=
  [OnTwilio true (Encodes (JObj (media_msg "100" "AAAA")));
   OnOpenAI (Encodes (JObj (delta_msg "AAAA" "item1")));
   OnTwilio true (Encodes (JObj mark_msg));
   OnTwilio true (Encodes (JObj (media_msg "5000" "AAAA")));
   OnOpenAI (Encodes (JObj (delta_msg "AAAA" "item2")));
   OnTwilio true (Encodes (JObj (media_msg "5650" "AAAA")));
   OnOpenAI (Encodes (JObj speech_started_msg))].

(** A delta whose payload is not base64 text, and what follows it. *)
Definition bad_delta : wire := Encodes (JObj (delta_msg "Q" "item1")).

Definition after_bad_delta : list arrival :=
  [OnTwilio true (Encodes (JObj (media_msg "650" "AAAA")));
   OnOpenAI (Encodes (JObj (delta_msg "AAAA" "item1")))].

Definition connected_msg : json := JObj [("event", JStr "connected")].

Definition start_fields (sid call_sid : string) : list (string * json) :=
  [("streamSid", JStr sid); ("callSid", JStr call_sid)].

Definition start_of_call (sid call_sid : string) : list (string * json) :=
  [("event", JStr "start"); ("start", JObj (start_fields sid call_sid))].

(** One outbound call CA1 on connection 7, placed and initialised. *)
Definition world_one_call : Calls.world :=
  Calls.mkWorld [("CA1", Calls.mkEntry 7%nat "initiating")] [7%nat] [] [].

Definition world_no_call : Calls.world := Calls.mkWorld [] [] [] [].

Definition sample_request : Calls.call_request :=
  Calls.mkRequest "+15550100" None.

Definition hello_bytes : list byte :=
  map byte_of_ascii (list_ascii_of_string "Hello").

(* ================================================================== *)
(** * Facts about base64                                                *)
(* ================================================================== *)

Module Base64Facts.
Import Base64 Base64Checks.
Local Open Scope N_scope.

Lemma below_spec (n : nat) (p : N -> bool) :
  below n p = true -> forall x, x < N.of_nat n -> p x = true.
Proof.
  induction n as [|k IH]; intros Hb x Hx.
  - lia.
  - cbn [below] in Hb. apply andb_prop in Hb. destruct Hb as [Hk Hrest].
    destruct (N.eq_dec x (N.of_nat k)) as [->|Hne]; [exact Hk|].
    apply IH; [exact Hrest | lia].
Qed.

Ltac split_checks H :=
  repeat (apply andb_prop in H;
          let H' := fresh "C" in destruct H as [H H']);
  repeat match goal with
         | C : (_ =? _) = true |- _ => apply N.eqb_eq in C
         | C : (_ <? _) = true |- _ => apply N.ltb_lt in C
         end.

Lemma byte_of_N_to_N (b : byte) : byte_of_N (Byte.to_N b) = b.
Proof.
  unfold byte_of_N.
  pose proof (Byte.to_N_bounded b) as Hb.
  rewrite N.mod_small by lia.
  now rewrite Byte.of_to_N.
Qed.

Lemma to_N_byte_of_N (n : N) : n < 256 -> Byte.to_N (byte_of_N n) = n.
Proof.
  intros Hn. unfold byte_of_N. rewrite N.mod_small by exact Hn.
  destruct (Byte.of_N n) as [b|] eqn:E.
  - now apply Byte.to_of_N.
  - apply Byte.of_N_None_iff in E. lia.
Qed.

Lemma to_N_lt (b : byte) : Byte.to_N b < 256.
Proof. pose proof (Byte.to_N_bounded b). lia. Qed.

(** ** The two tables are inverse on the alphabet *)

Lemma sym_ok_all : below 64 sym_ok = true.
Proof. vm_compute. reflexivity. Qed.

Lemma table_b2a_facts (n : N) :
  n < 64 ->
  Ascii.eqb (table_b2a n) BASE64_PAD = false /\
  (N_of_ascii (table_b2a n) <? 128) = true /\
  table_a2b (table_b2a n) = Some n.
Proof.
  intros Hn. pose proof (below_spec 64 sym_ok sym_ok_all n Hn) as H.
  unfold sym_ok in H.
  apply andb_prop in H. destruct H as [H Hinv].
  apply andb_prop in H. destruct H as [Hpad Hascii].
  apply negb_true_iff in Hpad.
  destruct (table_a2b (table_b2a n)) as [v|]; [|discriminate].
  apply N.eqb_eq in Hinv. subst v. auto.
Qed.

Lemma in_alphabet_b2a (n : N) :
  n < 64 -> in_alphabet (table_b2a n) = true /\ val (table_b2a n) = n.
Proof.
  intros Hn. destruct (table_b2a_facts n Hn) as (_ & _ & Hinv).
  unfold in_alphabet, val. now rewrite Hinv.
Qed.

Lemma char_ok_all : below 256 char_ok = true.
Proof. vm_compute. reflexivity. Qed.

Lemma in_alphabet_spec (c : ascii) :
  in_alphabet c = true -> val c < 64 /\ table_b2a (val c) = c.
Proof.
  intros Hc.
  pose proof (below_spec 256 char_ok char_ok_all (N_of_ascii c)
                (N_ascii_bounded c)) as H.
  unfold char_ok in H. rewrite ascii_N_embedding, Hc in H.
  cbn [negb orb] in H. apply andb_prop in H. destruct H as [Hlt Heq].
  apply N.ltb_lt in Hlt. apply Ascii.eqb_eq in Heq. auto.
Qed.

(** ** Sextets of bytes, and what the decoder rebuilds from them *)

Lemma pair_ok_all : below 256 (fun x => below 256 (pair_ok x)) = true.
Proof. vm_compute. reflexivity. Qed.

Lemma pair_facts (x y : N) :
  x < 256 -> y < 256 ->
  sext1 x < 64 /\ sext2 x y < 64 /\ sext3 x y < 64 /\ sext4 x < 64 /\
  N.lor (N.shiftl (sext1 x) 2) (N.shiftr (sext2 x y) 4) = x /\
  N.land (sext2 x y) 15 = N.shiftr y 4 /\
  N.shiftr (sext3 x y) 2 = N.land x 15 /\
  N.land (sext3 x y) 3 = N.shiftr y 6 /\
  N.lor (N.shiftl (N.shiftr x 4) 4) (N.land x 15) = x /\
  N.lor (N.shiftl (N.shiftr x 6) 6) (sext4 x) = x.
Proof.
  intros Hx Hy.
  assert (H : pair_ok x y = true).
  { apply (below_spec 256 (pair_ok x)); [|exact Hy].
    apply (below_spec 256 (fun x => below 256 (pair_ok x)) pair_ok_all x Hx). }
  unfold pair_ok in H. split_checks H. repeat split; assumption.
Qed.

Lemma zero_lt_256 : 0 < 256.
Proof. lia. Qed.

(** One alphabet character through the decoder. *)
Lemma a2b_loop_symbol (n : N) (rest : string) (quad_pos : nat)
    (leftchar : N) (pads : nat) (out : list byte) :
  n < 64 ->
  a2b_loop (String (table_b2a n) rest) quad_pos leftchar pads out =
  match quad_pos with
  | O => a2b_loop rest 1 n 0 out
  | 1%nat =>
      a2b_loop rest 2 (N.land n 15) 0
        (out ++ [byte_of_N (N.lor (N.shiftl leftchar 2) (N.shiftr n 4))])
  | 2%nat =>
      a2b_loop rest 3 (N.land n 3) 0
        (out ++ [byte_of_N (N.lor (N.shiftl leftchar 4) (N.shiftr n 2))])
  | _ =>
      a2b_loop rest 0 0 0
        (out ++ [byte_of_N (N.lor (N.shiftl leftchar 6) n)])
  end.
Proof.
  intros Hn. destruct (table_b2a_facts n Hn) as (Hpad & _ & Hinv).
  cbn [a2b_loop]. rewrite Hpad, Hinv. reflexivity.
Qed.

(** A full quad gives back its three bytes. *)
Lemma a2b_loop_quad (a b c : byte) (rest : string) (out : list byte) :
  a2b_loop
    (String (table_b2a (sext1 (Byte.to_N a)))
       (String (table_b2a (sext2 (Byte.to_N a) (Byte.to_N b)))
          (String (table_b2a (sext3 (Byte.to_N b) (Byte.to_N c)))
             (String (table_b2a (sext4 (Byte.to_N c))) rest))))
    0 0 0 out
  = a2b_loop rest 0 0 0 (out ++ [a; b; c]).
Proof.
  destruct (pair_facts _ _ (to_N_lt a) (to_N_lt b))
    as (A1 & A2 & _ & _ & EA & LA & _).
  destruct (pair_facts _ _ (to_N_lt b) (to_N_lt c))
    as (_ & _ & B3 & _ & _ & _ & SB & LB & EB & _).
  destruct (pair_facts _ _ (to_N_lt c) (to_N_lt c))
    as (_ & _ & _ & C4 & _ & _ & _ & _ & _ & EC).
  rewrite !a2b_loop_symbol by assumption.
  rewrite EA, LA, SB, EB, LB, EC.
  rewrite !byte_of_N_to_N, <- !app_assoc. reflexivity.
Qed.

(** The padded final groups. *)
Lemma a2b_loop_tail1 (a : byte) (out : list byte) :
  a2b_loop
    (String (table_b2a (sext1 (Byte.to_N a)))
       (String (table_b2a (sext2 (Byte.to_N a) 0)) pad2))
    0 0 0 out
  = Some (out ++ [a]).
Proof.
  destruct (pair_facts _ _ (to_N_lt a) zero_lt_256)
    as (A1 & A2 & _ & _ & EA & _).
  rewrite !a2b_loop_symbol by assumption.
  rewrite EA, byte_of_N_to_N. reflexivity.
Qed.

Lemma a2b_loop_tail2 (a b : byte) (out : list byte) :
  a2b_loop
    (String (table_b2a (sext1 (Byte.to_N a)))
       (String (table_b2a (sext2 (Byte.to_N a) (Byte.to_N b)))
          (String (table_b2a (sext3 (Byte.to_N b) 0)) pad1)))
    0 0 0 out
  = Some (out ++ [a; b]).
Proof.
  destruct (pair_facts _ _ (to_N_lt a) (to_N_lt b))
    as (A1 & A2 & _ & _ & EA & LA & _).
  destruct (pair_facts _ _ (to_N_lt b) zero_lt_256)
    as (_ & _ & B3 & _ & _ & _ & SB & _ & EB & _).
  rewrite !a2b_loop_symbol by assumption.
  rewrite EA, LA, SB, EB.
  rewrite !byte_of_N_to_N, <- !app_assoc. reflexivity.
Qed.

(** Induction on a list of bytes, three at a time. *)
Lemma bytes_ind3 (P : list byte -> Prop) :
  P [] ->
  (forall a, P [a]) ->
  (forall a b, P [a; b]) ->
  (forall a b c rest, P rest -> P (a :: b :: c :: rest)) ->
  forall bin, P bin.
Proof.
  intros H0 H1 H2 H3.
  assert (H : forall bin, P bin /\ (forall a, P (a :: bin)) /\
                          (forall a b, P (a :: b :: bin))).
  { induction bin as [|c rest IH].
    - repeat split; auto.
    - destruct IH as (IH0 & IH1 & IH2). repeat split; auto. }
  intros bin. apply H.
Qed.

(** Decoding what the encoder wrote gives the bytes back. *)
Lemma a2b_loop_b2a (bin out : list byte) :
  a2b_loop (b2a_base64 bin) 0 0 0 out = Some (out ++ bin).
Proof.
  revert out. induction bin as [|a|a b|a b c rest IH] using bytes_ind3;
    intros out.
  - cbn. now rewrite app_nil_r.
  - apply a2b_loop_tail1.
  - apply a2b_loop_tail2.
  - cbn [b2a_base64]. cbv zeta. rewrite a2b_loop_quad, IH.
    now rewrite <- app_assoc.
Qed.

Lemma a2b_b2a (bin : list byte) : a2b_base64 (b2a_base64 bin) = Some bin.
Proof. unfold a2b_base64. now rewrite a2b_loop_b2a. Qed.

(** What the encoder writes is ASCII. *)
Lemma is_ascii_b2a (bin : list byte) : is_ascii (b2a_base64 bin) = true.
Proof.
  induction bin as [|a|a b|a b c rest IH] using bytes_ind3.
  - reflexivity.
  - destruct (pair_facts _ _ (to_N_lt a) zero_lt_256) as (A1 & A2 & _).
    destruct (table_b2a_facts _ A1) as (_ & T1 & _).
    destruct (table_b2a_facts _ A2) as (_ & T2 & _).
    cbn [b2a_base64 is_ascii]. cbv zeta. rewrite T1, T2. reflexivity.
  - destruct (pair_facts _ _ (to_N_lt a) (to_N_lt b)) as (A1 & A2 & _).
    destruct (pair_facts _ _ (to_N_lt b) zero_lt_256) as (_ & _ & B3 & _).
    destruct (table_b2a_facts _ A1) as (_ & T1 & _).
    destruct (table_b2a_facts _ A2) as (_ & T2 & _).
    destruct (table_b2a_facts _ B3) as (_ & T3 & _).
    cbn [b2a_base64 is_ascii]. cbv zeta. rewrite T1, T2, T3. reflexivity.
  - destruct (pair_facts _ _ (to_N_lt a) (to_N_lt b)) as (A1 & A2 & _).
    destruct (pair_facts _ _ (to_N_lt b) (to_N_lt c)) as (_ & _ & B3 & _).
    destruct (pair_facts _ _ (to_N_lt c) (to_N_lt c))
      as (_ & _ & _ & C4 & _).
    destruct (table_b2a_facts _ A1) as (_ & T1 & _).
    destruct (table_b2a_facts _ A2) as (_ & T2 & _).
    destruct (table_b2a_facts _ B3) as (_ & T3 & _).
    destruct (table_b2a_facts _ C4) as (_ & T4 & _).
    cbn [b2a_base64 is_ascii]. cbv zeta. rewrite T1, T2, T3, T4. exact IH.
Qed.

(** Whatever the encoder writes is canonical. *)
Lemma canonical_b2a (bin : list byte) : canonical (b2a_base64 bin) = true.
Proof.
  induction bin as [|a|a b|a b c rest IH] using bytes_ind3.
  - reflexivity.
  - destruct (pair_facts _ _ (to_N_lt a) zero_lt_256)
      as (A1 & A2 & _ & _ & _ & LA & _).
    cbn [b2a_base64 canonical pad1 pad2]. cbv zeta.
    destruct (in_alphabet_b2a _ A1) as [-> _].
    destruct (in_alphabet_b2a _ A2) as [-> ->].
    rewrite LA. reflexivity.
  - destruct (pair_facts _ _ (to_N_lt a) (to_N_lt b)) as (A1 & A2 & _).
    destruct (pair_facts _ _ (to_N_lt b) zero_lt_256)
      as (_ & _ & B3 & _ & _ & _ & _ & LB & _).
    destruct (table_b2a_facts _ B3) as (P3 & _).
    cbn [b2a_base64 canonical pad1]. cbv zeta.
    destruct (in_alphabet_b2a _ A1) as [-> _].
    destruct (in_alphabet_b2a _ A2) as [-> _].
    destruct (in_alphabet_b2a _ B3) as [-> ->].
    rewrite P3, LB. reflexivity.
  - destruct (pair_facts _ _ (to_N_lt a) (to_N_lt b)) as (A1 & A2 & _).
    destruct (pair_facts _ _ (to_N_lt b) (to_N_lt c)) as (_ & _ & B3 & _).
    destruct (pair_facts _ _ (to_N_lt c) (to_N_lt c))
      as (_ & _ & _ & C4 & _).
    destruct (table_b2a_facts _ C4) as (P4 & _).
    cbn [b2a_base64 canonical]. cbv zeta.
    destruct (in_alphabet_b2a _ A1) as [-> _].
    destruct (in_alphabet_b2a _ A2) as [-> _].
    destruct (in_alphabet_b2a _ B3) as [-> _].
    destruct (in_alphabet_b2a _ C4) as [-> _].
    rewrite P4. exact IH.
Qed.

(** ** Canonical text is exactly what the encoder writes *)

Lemma quad_ok_all : below 64 (fun u => below 64 (quad_ok u)) = true.
Proof. vm_compute. reflexivity. Qed.

Lemma quad_facts (u v : N) :
  u < 64 -> v < 64 ->
  dec1 u v < 256 /\ dec2 u v < 256 /\ dec3 u v < 256 /\
  sext1 (dec1 u v) = u /\
  sext4 (dec3 u v) = v /\
  N.land (dec1 u v) 3 = N.shiftr v 4 /\
  N.shiftr (dec2 u v) 4 = N.land u 15 /\
  N.land (dec2 u v) 15 = N.shiftr v 2 /\
  N.shiftr (dec3 u v) 6 = N.land u 3 /\
  N.lor (N.shiftl (N.shiftr v 4) 4) (N.land v 15) = v /\
  N.lor (N.shiftl (N.shiftr v 2) 2) (N.land v 3) = v.
Proof.
  intros Hu Hv.
  assert (H : quad_ok u v = true).
  { apply (below_spec 64 (quad_ok u)); [|exact Hv].
    apply (below_spec 64 (fun u => below 64 (quad_ok u)) quad_ok_all u Hu). }
  unfold quad_ok in H. split_checks H. repeat split; assumption.
Qed.

Section Sextets.
Variables u v w : N.
Hypothesis Hu : u < 64.
Hypothesis Hv : v < 64.
Hypothesis Hw : w < 64.

Lemma sext2_dec : sext2 (dec1 u v) (dec2 v w) = v.
Proof.
  destruct (quad_facts u v Hu Hv)
    as (_ & _ & _ & _ & _ & L & _ & _ & _ & E & _).
  destruct (quad_facts v w Hv Hw) as (_ & _ & _ & _ & _ & _ & R & _).
  unfold sext2. now rewrite L, R.
Qed.

Lemma sext3_dec : sext3 (dec2 u v) (dec3 v w) = v.
Proof.
  destruct (quad_facts u v Hu Hv)
    as (_ & _ & _ & _ & _ & _ & _ & L & _ & _ & E).
  destruct (quad_facts v w Hv Hw)
    as (_ & _ & _ & _ & _ & _ & _ & _ & R & _).
  unfold sext3. now rewrite L, R.
Qed.

Lemma sext2_dec_tail : N.land v 15 = 0 -> sext2 (dec1 u v) 0 = v.
Proof.
  intros Hz.
  destruct (quad_facts u v Hu Hv)
    as (_ & _ & _ & _ & _ & L & _ & _ & _ & E & _).
  unfold sext2. rewrite L. rewrite Hz in E. exact E.
Qed.

Lemma sext3_dec_tail : N.land v 3 = 0 -> sext3 (dec2 u v) 0 = v.
Proof.
  intros Hz.
  destruct (quad_facts u v Hu Hv)
    as (_ & _ & _ & _ & _ & _ & _ & L & _ & _ & E).
  unfold sext3. rewrite L. rewrite Hz in E. exact E.
Qed.
End Sextets.

Lemma canonical_image_bounded (n : nat) :
  forall s, (String.length s <= n)%nat -> canonical s = true ->
  exists bin, b2a_base64 bin = s.
Proof.
  induction n as [|n IH]; intros s Hlen Hc.
  - destruct s; [exists []; reflexivity | cbn in Hlen; lia].
  - destruct s as [|c1 [|c2 [|c3 [|c4 rest]]]]; try discriminate Hc.
    + exists []. reflexivity.
    + cbn [canonical] in Hc.
      apply andb_prop in Hc. destruct Hc as [Hc Htail].
      apply andb_prop in Hc. destruct Hc as [A1 A2].
      destruct (in_alphabet_spec c1 A1) as (L1 & T1).
      destruct (in_alphabet_spec c2 A2) as (L2 & T2).
      destruct (quad_facts (val c1) (val c2) L1 L2) as (D1 & _ & _ & S1 & _).
      destruct (Ascii.eqb c4 BASE64_PAD) eqn:E4.
      * destruct rest; [|discriminate Htail].
        apply Ascii.eqb_eq in E4. subst c4.
        destruct (Ascii.eqb c3 BASE64_PAD) eqn:E3.
        -- apply Ascii.eqb_eq in E3. subst c3. apply N.eqb_eq in Htail.
           exists [byte_of_N (dec1 (val c1) (val c2))].
           cbn [b2a_base64]. cbv zeta. rewrite to_N_byte_of_N by exact D1.
           rewrite S1, sext2_dec_tail by assumption.
           rewrite T1, T2. reflexivity.
        -- apply andb_prop in Htail. destruct Htail as [A3 Z3].
           apply N.eqb_eq in Z3.
           destruct (in_alphabet_spec c3 A3) as (L3 & T3).
           destruct (quad_facts (val c2) (val c3) L2 L3) as (_ & D2 & _).
           exists [byte_of_N (dec1 (val c1) (val c2));
                   byte_of_N (dec2 (val c2) (val c3))].
           cbn [b2a_base64]. cbv zeta. rewrite !to_N_byte_of_N by assumption.
           rewrite S1, sext2_dec, sext3_dec_tail by assumption.
           rewrite T1, T2, T3. reflexivity.
      * apply andb_prop in Htail. destruct Htail as [Htail Hrest].
        apply andb_prop in Htail. destruct Htail as [A3 A4].
        destruct (in_alphabet_spec c3 A3) as (L3 & T3).
        destruct (in_alphabet_spec c4 A4) as (L4 & T4).
        destruct (quad_facts (val c2) (val c3) L2 L3) as (_ & D2 & _).
        destruct (quad_facts (val c3) (val c4) L3 L4)
          as (_ & _ & D3 & _ & S4 & _).
        destruct (IH rest) as [bin Hbin]; [cbn in Hlen; lia | exact Hrest |].
        exists (byte_of_N (dec1 (val c1) (val c2)) ::
                byte_of_N (dec2 (val c2) (val c3)) ::
                byte_of_N (dec3 (val c3) (val c4)) :: bin).
        cbn [b2a_base64]. cbv zeta. rewrite !to_N_byte_of_N by assumption.
        rewrite S1, sext2_dec, sext3_dec, S4 by assumption.
        rewrite T1, T2, T3, T4, Hbin. reflexivity.
Qed.

Lemma canonical_image (s : string) :
  canonical s = true -> exists bin, b2a_base64 bin = s.
Proof. apply (canonical_image_bounded (String.length s)). lia. Qed.

(** Decode-then-encode is the identity on canonical text. *)
Lemma b2a_a2b_canonical (s : string) :
  canonical s = true ->
  is_ascii s = true /\
  exists raw, a2b_base64 s = Some raw /\ b2a_base64 raw = s.
Proof.
  intros Hc. destruct (canonical_image s Hc) as [bin <-]. split.
  - apply is_ascii_b2a.
  - exists bin. split; [apply a2b_b2a | reflexivity].
Qed.

(** Canonical text is exactly the text that decode-then-encode leaves as
    it is. *)
Lemma canonical_iff (s : string) :
  canonical s = true <->
  exists raw, a2b_base64 s = Some raw /\ b2a_base64 raw = s.
Proof.
  split.
  - intros Hc. destruct (b2a_a2b_canonical s Hc) as (_ & raw & Hr & Hb).
    exists raw. auto.
  - intros (raw & _ & <-). apply canonical_b2a.
Qed.

End Base64Facts.

(* ================================================================== *)
(** * Equations of the coroutine bodies                                 *)
(* ================================================================== *)

Ltac run_M :=
  unfold bind, read, update, emit, ret, raise, lift; cbn.

Lemma bind_skip {B : Type} (m : M unit) (k : M B) (st : session) :
  m st = (Return tt, st, []) -> (m ;;; k) st = k st.
Proof.
  intros H. unfold bind. rewrite H. destruct (k st) as [[r st'] out].
  reflexivity.
Qed.

Lemma bind_raise {A B : Type} (m : M A) (k : A -> M B) (st st' : session)
    (e : exn) (out : list out_msg) :
  m st = (Raise e, st', out) -> bind m k st = (Raise e, st', out).
Proof. intros H. unfold bind. rewrite H. reflexivity. Qed.

Lemma is_str_true (v : json) (literal : string) :
  is_str v literal = true -> v = JStr literal.
Proof.
  destruct v; try discriminate. cbn. intros H.
  apply String.eqb_eq in H. now subst.
Qed.

Lemma dict_get_str members key literal :
  is_str (dict_get members key) literal = true ->
  assoc key members = Some (JStr literal).
Proof.
  intros H. apply is_str_true in H. unfold dict_get in H.
  destruct (assoc key members); [now subst | discriminate].
Qed.

(** ** [handle_speech_started_event] *)

Lemma handle_speech_started_event_fires (st : session) (T0 : Z) :
  mark_queue st <> [] ->
  response_start_timestamp_twilio st = Some T0 ->
  handle_speech_started_event st =
    (Return tt, interrupted st,
     (if truthy (last_assistant_item st)
      then [ToOpenAI (truncate_event (last_assistant_item st)
                        (latest_media_timestamp st - T0))]
      else [])
     ++ [ToTwilio (clear_event (stream_sid st))]).
Proof.
  intros Hq Hs. unfold handle_speech_started_event. run_M.
  destruct (mark_queue st) as [|m q] eqn:Eq; [contradiction|].
  rewrite Hs. run_M.
  destruct (truthy (last_assistant_item st)); reflexivity.
Qed.

Lemma handle_speech_started_event_idle (st : session) :
  mark_queue st = [] \/ response_start_timestamp_twilio st = None ->
  handle_speech_started_event st = (Return tt, st, []).
Proof.
  intros H. unfold handle_speech_started_event. run_M.
  destruct H as [H|H]; rewrite H.
  - reflexivity.
  - destruct (mark_queue st); reflexivity.
Qed.

(** ** [send_to_twilio] *)

Lemma send_to_twilio_body_speech_started (st : session) members :
  assoc "type" members = Some (JStr "input_audio_buffer.speech_started") ->
  send_to_twilio_body (Encodes (JObj members)) st =
    if truthy (last_assistant_item st)
    then handle_speech_started_event st
    else (Return tt, st, []).
Proof.
  intros Ht. unfold send_to_twilio_body.
  unfold bind, read, update, emit, ret, raise, lift.
  cbn -[handle_speech_started_event]. rewrite Ht.
  cbn -[handle_speech_started_event].
  destruct (truthy (last_assistant_item st)).
  - destruct (handle_speech_started_event st) as [[r st'] out]. reflexivity.
  - reflexivity.
Qed.

Lemma send_to_twilio_body_delta (st : session) members s raw :
  assoc "type" members = Some (JStr "response.audio.delta") ->
  assoc "delta" members = Some (JStr s) ->
  Base64.is_ascii s = true ->
  Base64.a2b_base64 s = Some raw ->
  send_to_twilio_body (Encodes (JObj members)) st =
    (Return tt, after_delta members st,
     ToTwilio (audio_delta (stream_sid st) (b64encode raw)) ::
     (if truthy (stream_sid st)
      then [ToTwilio (mark_event (stream_sid st))]
      else [])).
Proof.
  intros Ht Hd Ha Hr. unfold send_to_twilio_body, after_delta, send_mark.
  unfold dict_contains, dict_get.
  run_M. rewrite Ht. cbn. rewrite Hd. cbn. rewrite Ha, Hr. cbn.
  destruct st as [bound sid lmt lai mq rst l1 l2]. cbn.
  destruct rst as [t|]; cbn;
    destruct (assoc "item_id" members) as [item|]; cbn;
    try destruct (truthy item); cbn;
    destruct (truthy sid); reflexivity.
Qed.

(** Any other event type of the AI backend changes nothing. *)
Lemma send_to_twilio_body_other (st : session) members type :
  assoc "type" members = Some type ->
  is_str type "response.audio.delta" = false ->
  is_str type "input_audio_buffer.speech_started" = false ->
  send_to_twilio_body (Encodes (JObj members)) st = (Return tt, st, []).
Proof.
  intros Ht H1 H2. unfold send_to_twilio_body. run_M.
  rewrite Ht. cbn. rewrite H1, H2. reflexivity.
Qed.

(** Every way one message of the AI backend can change the session. *)
Lemma send_to_twilio_body_shape (m : wire) (st : session) :
  let st' := snd (fst (send_to_twilio_body m st)) in
  st' = st \/ (exists members, st' = after_delta members st) \/
  st' = interrupted st.
Proof.
  destruct m as [|doc]; [left; reflexivity|].
  destruct doc as [ | | | | |members]; try (left; reflexivity).
  destruct (assoc "type" members) as [type|] eqn:Et.
  2:{ left. unfold send_to_twilio_body. run_M. rewrite Et. reflexivity. }
  destruct (is_str type "response.audio.delta") eqn:Ed.
  - apply is_str_true in Ed. subst type.
    destruct (assoc "delta" members) as [d|] eqn:Edelta.
    + destruct (b64decode d) as [raw|e] eqn:Edec.
      * right. left. exists members.
        destruct d as [ | | |s| | ]; try discriminate.
        unfold b64decode in Edec.
        destruct (Base64.is_ascii s) eqn:Ea; [|discriminate].
        destruct (Base64.a2b_base64 s) as [raw'|] eqn:Er; [|discriminate].
        rewrite (send_to_twilio_body_delta st members s raw' Et Edelta Ea Er).
        reflexivity.
      * left. unfold send_to_twilio_body, dict_contains. run_M.
        rewrite Et. cbn. rewrite Edelta. cbn. rewrite Edec. reflexivity.
    + left. unfold send_to_twilio_body, dict_contains. run_M.
      rewrite Et. cbn. rewrite Edelta. reflexivity.
  - destruct (is_str type "input_audio_buffer.speech_started") eqn:Es.
    + apply is_str_true in Es. subst type.
      rewrite (send_to_twilio_body_speech_started st members Et).
      destruct (truthy (last_assistant_item st)); [|left; reflexivity].
      destruct (mark_queue st) as [|mk q] eqn:Eq.
      { left. rewrite handle_speech_started_event_idle; auto. }
      destruct (response_start_timestamp_twilio st) as [t0|] eqn:Er.
      * right. right.
        rewrite (handle_speech_started_event_fires st t0);
          [reflexivity | | exact Er].
        rewrite Eq. discriminate.
      * left. rewrite handle_speech_started_event_idle; auto.
    + left. rewrite (send_to_twilio_body_other st members type Et Ed Es).
      reflexivity.
Qed.

(** The first delta of a response records the clock of the telephony
    leg; later deltas of the same response keep the recorded value. *)
Lemma delta_records_response_start (st : session) members :
  response_start_timestamp_twilio (after_delta members st) =
    match response_start_timestamp_twilio st with
    | None => Some (latest_media_timestamp st)
    | Some T0 => Some T0
    end.
Proof.
  unfold after_delta.
  destruct (response_start_timestamp_twilio st) eqn:E;
    destruct (truthy (dict_get members "item_id"));
    destruct (truthy (stream_sid st)); cbn; try rewrite E; reflexivity.
Qed.

Lemma mark_queue_after_delta members (st : session) :
  truthy (stream_sid st) = true ->
  mark_queue (after_delta members st) = mark_queue st ++ ["responsePart"] /\
  stream_sid (after_delta members st) = stream_sid st.
Proof.
  intros H. unfold after_delta. rewrite H.
  destruct (response_start_timestamp_twilio st);
    destruct (truthy (dict_get members "item_id")); split; reflexivity.
Qed.

Lemma mark_queue_after_mark (st : session) :
  List.length (mark_queue (after_mark st))
  = Nat.pred (List.length (mark_queue st)) /\
  stream_sid (after_mark st) = stream_sid st.
Proof.
  unfold after_mark. destruct (mark_queue st) eqn:E; cbn.
  - rewrite E. auto.
  - auto.
Qed.

(** ** [receive_from_twilio] *)

Section InboundFacts.

Variable int_of_str : string -> option Z.

Lemma receive_media_open (st : session) members media ts t payload :
  openai_ws_bound st = true ->
  assoc "event" members = Some (JStr "media") ->
  assoc "media" members = Some (JObj media) ->
  assoc "timestamp" media = Some ts ->
  py_int int_of_str ts = Return t ->
  assoc "payload" media = Some payload ->
  receive_from_twilio_body int_of_str true (Encodes (JObj members)) st =
    (Return tt, set_latest_media_timestamp t st,
     [ToOpenAI (audio_append payload)]).
Proof.
  intros Hb He Hm Hts Ht Hp. unfold receive_from_twilio_body, openai_ws.
  run_M. rewrite He. cbn. rewrite Hb. cbn. rewrite Hm. cbn.
  rewrite Hts. cbn. rewrite Ht. cbn. rewrite Hp. reflexivity.
Qed.

Lemma receive_media_closed (st : session) members :
  openai_ws_bound st = true ->
  assoc "event" members = Some (JStr "media") ->
  receive_from_twilio_body int_of_str false (Encodes (JObj members)) st =
    (Return tt, st, []).
Proof.
  intros Hb He. unfold receive_from_twilio_body, openai_ws.
  run_M. rewrite He. cbn. rewrite Hb. reflexivity.
Qed.

Lemma receive_start (st : session) openai_ws_open members start sid :
  assoc "event" members = Some (JStr "start") ->
  assoc "start" members = Some (JObj start) ->
  assoc "streamSid" start = Some sid ->
  receive_from_twilio_body int_of_str openai_ws_open
    (Encodes (JObj members)) st =
    (Return tt, after_start sid st, []).
Proof.
  intros He Hs Hsid. unfold receive_from_twilio_body.
  run_M. rewrite He. cbn. rewrite Hs. cbn. rewrite Hsid. reflexivity.
Qed.

Lemma receive_mark (st : session) openai_ws_open members :
  assoc "event" members = Some (JStr "mark") ->
  receive_from_twilio_body int_of_str openai_ws_open
    (Encodes (JObj members)) st =
    (Return tt, after_mark st, []).
Proof.
  intros He. unfold receive_from_twilio_body, after_mark.
  run_M. rewrite He. cbn. destruct (mark_queue st); reflexivity.
Qed.

(** An event kind the loop has no branch for changes nothing. *)
Lemma receive_other (st : session) openai_ws_open members event :
  assoc "event" members = Some event ->
  is_str event "media" = false ->
  is_str event "start" = false ->
  is_str event "mark" = false ->
  receive_from_twilio_body int_of_str openai_ws_open
    (Encodes (JObj members)) st = (Return tt, st, []).
Proof.
  intros He H1 H2 H3. unfold receive_from_twilio_body.
  run_M. rewrite He. cbn. rewrite H1. cbn. rewrite H2, H3. reflexivity.
Qed.

(** A frame that does not decode to an object with an event member
    raises before anything is changed or sent. *)
Lemma receive_malformed (st : session) openai_ws_open (m : wire) :
  has_event_key m = false ->
  exists e,
    receive_from_twilio_body int_of_str openai_ws_open m st =
      (Raise e, st, []).
Proof.
  intros H. unfold receive_from_twilio_body.
  destruct m as [|doc].
  - exists JSONDecodeError. reflexivity.
  - destruct doc as [ | b | z | s | items | members];
      try (exists TypeError; reflexivity).
    cbn in H. unfold dict_contains in H.
    exists (KeyError "event"). run_M.
    destruct (assoc "event" members); [discriminate | reflexivity].
Qed.

(** Every way one message of the telephony leg can change the session. *)
Lemma receive_from_twilio_body_shape openai_ws_open (m : wire)
    (st : session) :
  let st' :=
    snd (fst (receive_from_twilio_body int_of_str openai_ws_open m st)) in
  st' = st \/ (exists t, st' = set_latest_media_timestamp t st) \/
  (exists sid, st' = after_start sid st) \/ st' = after_mark st.
Proof.
  destruct m as [|doc]; [left; reflexivity|].
  destruct doc as [ | | | | |members]; try (left; reflexivity).
  destruct (assoc "event" members) as [event|] eqn:Ee.
  2:{ left. unfold receive_from_twilio_body. run_M. rewrite Ee.
      reflexivity. }
  unfold receive_from_twilio_body, openai_ws. run_M. rewrite Ee. cbn.
  destruct (is_str event "media") eqn:Em.
  - cbn. destruct (openai_ws_bound st); cbn; [|left; reflexivity].
    destruct openai_ws_open; cbn.
    + destruct (assoc "media" members) as [media|]; cbn;
        [|left; reflexivity].
      destruct (subscript media "timestamp") as [ts|]; cbn;
        [|left; reflexivity].
      destruct (py_int int_of_str ts) as [t|]; cbn; [|left; reflexivity].
      right. left. exists t.
      destruct (subscript media "payload"); reflexivity.
    + apply is_str_true in Em. subst event. left. reflexivity.
  - cbn. destruct (is_str event "start") eqn:Es.
    + destruct (assoc "start" members) as [start|]; cbn;
        [|left; reflexivity].
      destruct (subscript start "streamSid") as [sid|]; cbn;
        [|left; reflexivity].
      right. right. left. exists sid. reflexivity.
    + destruct (is_str event "mark").
      * right. right. right. unfold after_mark.
        destruct (mark_queue st); reflexivity.
      * left. reflexivity.
Qed.

(** ** The relay under [asyncio.gather] *)

Lemma deliver_audio_delta (r : relay) (a : arrival) :
  tx_running r = true ->
  is_audio_delta a = true ->
  exists members out,
    deliver int_of_str r a =
      mkRelay (after_delta members (sess r)) (sent r ++ out)
        (rx_running r) true (escaped r).
Proof.
  intros Htx Ha. destruct a as [|m]; [discriminate|].
  destruct m as [|doc]; [discriminate|].
  destruct doc as [ | | | | |members]; try discriminate.
  cbn [is_audio_delta] in Ha. apply andb_prop in Ha. destruct Ha as [Ht Hd].
  apply dict_get_str in Ht.
  destruct (assoc "delta" members) as [d|] eqn:Ed; [|discriminate].
  destruct d as [ | | |s| | ]; try discriminate.
  apply andb_prop in Hd. destruct Hd as [Has Hdec].
  destruct (Base64.a2b_base64 s) as [raw|] eqn:Er; [|discriminate].
  exists members. eexists. unfold deliver. rewrite Htx.
  rewrite (send_to_twilio_body_delta (sess r) members s raw Ht Ed Has Er).
  reflexivity.
Qed.

Lemma deliver_mark_ack (r : relay) (a : arrival) :
  rx_running r = true ->
  is_mark_ack a = true ->
  deliver int_of_str r a =
    mkRelay (after_mark (sess r)) (sent r) true (tx_running r) (escaped r).
Proof.
  intros Hrx Ha. destruct a as [o m|]; [|discriminate].
  destruct m as [|doc]; [discriminate|].
  destruct doc as [ | | | | |members]; try discriminate.
  cbn [is_mark_ack] in Ha. apply dict_get_str in Ha.
  unfold deliver. rewrite Hrx.
  rewrite (receive_mark (sess r) o members Ha).
  now rewrite app_nil_r.
Qed.

(** The interleaved relay agrees with the two loops of the source. *)

Lemma run_rx_ended (messages : list (bool * wire)) (r : relay) :
  rx_running r = false ->
  run int_of_str r (map on_twilio messages) = r.
Proof.
  intros H. induction messages as [|[o m] rest IH]; [reflexivity|].
  unfold run. cbn [map fold_left on_twilio fst snd deliver]. rewrite H.
  exact IH.
Qed.

Lemma run_tx_ended (messages : list wire) (r : relay) :
  tx_running r = false ->
  run int_of_str r (map OnOpenAI messages) = r.
Proof.
  intros H. induction messages as [|m rest IH]; [reflexivity|].
  unfold run. cbn [map fold_left deliver]. rewrite H. exact IH.
Qed.

(** With only the telephony leg delivering, the relay does what the loop
    of [receive_from_twilio] does. *)
Lemma run_receive_from_twilio (messages : list (bool * wire)) :
  forall st out0 tx esc,
    run int_of_str (mkRelay st out0 true tx esc) (map on_twilio messages) =
    match receive_from_twilio int_of_str messages st with
    | (Return _, st', out) => mkRelay st' (out0 ++ out) true tx esc
    | (Raise e, st', out) => mkRelay st' (out0 ++ out) false tx (Some e)
    end.
Proof.
  induction messages as [|[o m] rest IH]; intros st out0 tx esc.
  - cbn. now rewrite app_nil_r.
  - unfold run. cbn [map fold_left on_twilio fst snd deliver rx_running sess
                     sent tx_running escaped receive_from_twilio].
    unfold bind.
    destruct (receive_from_twilio_body int_of_str o m st)
      as [[[u|e] st1] out1].
    + change (fold_left (deliver int_of_str) ?l ?x) with (run int_of_str x l).
      rewrite IH.
      destruct (receive_from_twilio int_of_str rest st1) as [[[u'|e'] st2] out2];
        now rewrite app_assoc.
    + change (fold_left (deliver int_of_str) ?l ?x) with (run int_of_str x l).
      apply run_rx_ended. reflexivity.
Qed.

(** With only the AI connection delivering, the relay does what
    [send_to_twilio] does. *)
Lemma run_send_to_twilio_loop (messages : list wire) :
  forall st out0 rx esc,
    run int_of_str (mkRelay st out0 rx true esc) (map OnOpenAI messages) =
    match send_to_twilio_loop messages st with
    | (Return _, st', out) => mkRelay st' (out0 ++ out) rx true esc
    | (Raise _, st', out) => mkRelay st' (out0 ++ out) rx false esc
    end.
Proof.
  induction messages as [|m rest IH]; intros st out0 rx esc.
  - cbn. now rewrite app_nil_r.
  - unfold run. cbn [map fold_left deliver rx_running sess
                     sent tx_running escaped send_to_twilio_loop].
    unfold bind.
    destruct (send_to_twilio_body m st) as [[[u|e] st1] out1].
    + change (fold_left (deliver int_of_str) ?l ?x) with (run int_of_str x l).
      rewrite IH.
      destruct (send_to_twilio_loop rest st1) as [[[u'|e'] st2] out2];
        now rewrite app_assoc.
    + change (fold_left (deliver int_of_str) ?l ?x) with (run int_of_str x l).
      apply run_tx_ended. reflexivity.
Qed.

Lemma run_send_to_twilio (messages : list wire) (st : session) :
  let r := run int_of_str (gather st) (map OnOpenAI messages) in
  send_to_twilio messages st = (Return tt, sess r, sent r).
Proof.
  cbn zeta. unfold gather, send_to_twilio, try_except_Exception, openai_ws.
  unfold bind at 1. unfold bind at 1. unfold read. 
  destruct (openai_ws_bound st) eqn:Eb.
  - rewrite run_send_to_twilio_loop. unfold ret.
    destruct (send_to_twilio_loop messages st) as [[[[]|e] st'] out];
      reflexivity.
  - rewrite run_tx_ended by reflexivity. reflexivity.
Qed.
(** The queue follows [balance] along a schedule of forwards and
    acknowledgments. *)
Lemma run_balance (schedule : list arrival) :
  forall r,
    rx_running r = true -> tx_running r = true ->
    truthy (stream_sid (sess r)) = true ->
    forallb (fun a => is_audio_delta a || is_mark_ack a) schedule = true ->
    List.length (mark_queue (sess (run int_of_str r schedule)))
    = balance (List.length (mark_queue (sess r))) schedule.
Proof.
  induction schedule as [|a rest IH]; intros r Hrx Htx Hsid Hall.
  - reflexivity.
  - cbn [forallb] in Hall. apply andb_prop in Hall.
    destruct Hall as [Ha Hrest].
    unfold run. cbn [fold_left balance]. fold (run int_of_str).
    destruct (is_audio_delta a) eqn:Ed.
    + destruct (deliver_audio_delta r a Htx Ed) as (members & out & ->).
      destruct (mark_queue_after_delta members (sess r) Hsid) as [Hq Hs].
      change (fold_left (deliver int_of_str) rest ?x)
        with (run int_of_str x rest).
      rewrite IH; cbn [rx_running tx_running sess];
        [ | assumption || reflexivity ..| | assumption ].
      * rewrite Hq, length_app. cbn. f_equal. lia.
      * now rewrite Hs.
    + cbn [orb] in Ha. rewrite Ha.
      rewrite (deliver_mark_ack r a Hrx Ha).
      destruct (mark_queue_after_mark (sess r)) as [Hq Hs].
      change (fold_left (deliver int_of_str) rest ?x)
        with (run int_of_str x rest).
      rewrite IH; cbn [rx_running tx_running sess];
        [ | assumption || reflexivity ..| | assumption ].
      * now rewrite Hq.
      * now rewrite Hs.
Qed.

(** ** What the relay can record as the item in flight *)

Lemma deliver_item_recorded_or_none (r : relay) (a : arrival) :
  item_recorded_or_none (sess r) ->
  item_recorded_or_none (sess (deliver int_of_str r a)).
Proof.
  intros Hinv. destruct a as [o m|m]; unfold deliver.
  - destruct (rx_running r); [|exact Hinv].
    pose proof (receive_from_twilio_body_shape o m (sess r)) as Hshape.
    destruct (receive_from_twilio_body int_of_str o m (sess r))
      as [[[u|e] st'] out]; cbn [snd fst] in Hshape; cbn [sess];
      destruct Hshape as [->|[[t ->]|[[sid ->]| ->]]]; try exact Hinv;
      unfold after_mark; destruct (mark_queue (sess r)); exact Hinv.
  - destruct (tx_running r); [|exact Hinv].
    pose proof (send_to_twilio_body_shape m (sess r)) as Hshape.
    destruct (send_to_twilio_body m (sess r)) as [[[u|e] st'] out];
      cbn [snd fst] in Hshape; cbn [sess];
      destruct Hshape as [->|[[members ->]| ->]]; try exact Hinv;
      try (left; reflexivity);
      unfold item_recorded_or_none, after_delta;
      destruct (response_start_timestamp_twilio (sess r));
      destruct (truthy (dict_get members "item_id")) eqn:Ei;
      destruct (truthy (stream_sid (sess r))); cbn;
      solve [exact Hinv | right; exact Ei].
Qed.

Lemma run_item_recorded_or_none (schedule : list arrival) :
  forall r,
    item_recorded_or_none (sess r) ->
    item_recorded_or_none (sess (run int_of_str r schedule)).
Proof.
  induction schedule as [|a rest IH]; intros r Hinv; [exact Hinv|].
  unfold run. cbn [fold_left]. apply IH.
  apply deliver_item_recorded_or_none. exact Hinv.
Qed.

(** In every session [handle_media_stream] reaches, the recorded item is
    [None] or counts as true: there the test [if last_assistant_item:]
    is the test that an item is recorded. *)
Lemma handle_media_stream_item_recorded_or_none (first : wire)
    (schedule : list arrival) (r : relay) :
  handle_media_stream int_of_str first schedule = Some r ->
  item_recorded_or_none (sess r).
Proof.
  unfold handle_media_stream. intros H.
  destruct (handle_media_stream_open first initial_session)
    as [[[u|e] st] out] eqn:Eopen; [|discriminate].
  injection H as <-. apply run_item_recorded_or_none.
  unfold gather. cbn [sess]. left.
  revert Eopen. unfold handle_media_stream_open. run_M.
  destruct first as [|doc]; cbn; [discriminate|].
  destruct (subscript doc "event") as [event|]; cbn; [|discriminate].
  destruct (is_str event "start"); cbn.
  - destruct (subscript doc "start") as [start|]; cbn; [|discriminate].
    destruct (subscript start "streamSid") as [sid|]; cbn; [|discriminate].
    destruct (hashable _); cbn; [|discriminate].
    intros H. injection H. intros. subst st. reflexivity.
  - intros H. injection H. intros. subst st. reflexivity.
Qed.

End InboundFacts.

(** ** Counting along a schedule *)

Lemma ack_is_not_delta (a : arrival) :
  is_mark_ack a = true -> is_audio_delta a = false.
Proof. destruct a; [reflexivity | discriminate]. Qed.

Lemma balance_bounds (schedule : list arrival) :
  forall queued,
    forallb (fun a => is_audio_delta a || is_mark_ack a) schedule = true ->
    (queued + count is_audio_delta schedule
     <= balance queued schedule + count is_mark_ack schedule)%nat /\
    (balance queued schedule <= queued + count is_audio_delta schedule)%nat /\
    (acks_in_time queued schedule = true ->
     balance queued schedule + count is_mark_ack schedule
     = queued + count is_audio_delta schedule)%nat.
Proof.
  unfold count.
  induction schedule as [|a rest IH]; intros queued Hall.
  - cbn. repeat split; lia.
  - cbn [forallb] in Hall. apply andb_prop in Hall.
    destruct Hall as [Ha Hrest].
    cbn [balance acks_in_time filter].
    destruct (is_audio_delta a) eqn:Ed.
    + destruct (is_mark_ack a) eqn:Em.
      { apply ack_is_not_delta in Em. congruence. }
      destruct (IH (S queued) Hrest) as (L & U & E).
      cbn [List.length]. repeat split; try lia.
      intros Hin. specialize (E Hin). lia.
    + cbn [orb] in Ha. rewrite Ha. cbn [List.length].
      destruct (IH (Nat.pred queued) Hrest) as (L & U & E).
      repeat split; try lia.
      destruct queued as [|q]; [discriminate|]. cbn [Nat.pred] in *.
      intros Hin. specialize (E Hin). lia.
Qed.

(* ================================================================== *)
(** * The interruption path                                             *)
(* ================================================================== *)

(** C1. When [response_start_timestamp_twilio] holds T0 (recorded at the
    first audio delta of the response in flight, see
    [delta_records_response_start]) and a speech-started event is handled
    while an item is recorded, the mark queue is non-empty and
    [latest_media_timestamp] is T1, the relay sends exactly one message to
    the AI connection: the truncate instruction for the recorded item,
    with content index 0 and [audio_end_ms] equal to T1 - T0. *)
Theorem truncation_offset_exact (st : session) members (item : json)
    (T0 T1 : Z) :
  assoc "type" members = Some (JStr "input_audio_buffer.speech_started") ->
  response_start_timestamp_twilio st = Some T0 ->
  last_assistant_item st = item ->
  truthy item = true ->
  mark_queue st <> [] ->
  latest_media_timestamp st = T1 ->
  send_to_twilio_body (Encodes (JObj members)) st =
    (Return tt, interrupted st,
     [ToOpenAI
        (JObj [("type", JStr "conversation.item.truncate");
               ("item_id", item);
               ("content_index", JInt 0);
               ("audio_end_ms", JInt (T1 - T0))]);
      ToTwilio (clear_event (stream_sid st))]).
Proof.
  intros Ht Hs Hi Hty Hq Hl.
  rewrite (send_to_twilio_body_speech_started st members Ht).
  rewrite Hi, Hty.
  rewrite (handle_speech_started_event_fires st T0 Hq Hs).
  rewrite Hi, Hty, Hl. reflexivity.
Qed.

Lemma truncation_offset_exact_witness :
  send_to_twilio_body (Encodes (JObj speech_started_msg)) st_playing =
    (Return tt, interrupted st_playing,
     [ToOpenAI
        (JObj [("type", JStr "conversation.item.truncate");
               ("item_id", JStr "item1");
               ("content_index", JInt 0);
               ("audio_end_ms", JInt 550)]);
      ToTwilio (clear_event (JStr "SD1"))]).
Proof.
  apply (truncation_offset_exact st_playing speech_started_msg
           (JStr "item1") 100 650); try reflexivity.
  discriminate.
Defined.

(** The scenario of the design document, from the first message on: the
    response start is captured as 100, one mark is sent, and the caller's
    speech at 650 truncates item1 at 550 and clears stream SD1. *)
Example barge_in_end_to_end :
  handle_media_stream int_of_digits (Encodes (JObj (start_msg (JStr "SD1"))))
    barge_in_scenario =
  Some
    (mkRelay
       (mkSession true (JStr "SD1") 650 JNull [] None None None)
       [ToOpenAI
          (JObj [("type", JStr "input_audio_buffer.append");
                 ("audio", JStr "AAAA")]);
        ToTwilio
          (JObj [("event", JStr "media"); ("streamSid", JStr "SD1");
                 ("media", JObj [("payload", JStr "AAAA")])]);
        ToTwilio
          (JObj [("event", JStr "mark"); ("streamSid", JStr "SD1");
                 ("mark", JObj [("name", JStr "responsePart")])]);
        ToOpenAI
          (JObj [("type", JStr "input_audio_buffer.append");
                 ("audio", JStr "AAAA")]);
        ToOpenAI
          (JObj [("type", JStr "conversation.item.truncate");
                 ("item_id", JStr "item1");
                 ("content_index", JInt 0);
                 ("audio_end_ms", JInt 550)]);
        ToTwilio (JObj [("event", JStr "clear"); ("streamSid", JStr "SD1")])]
       true true None).
Proof. reflexivity. Qed.

(** C3. The interruption path taken twice in a row, the first time with
    an item recorded, a non-empty mark queue and a response start
    recorded.  The first pass sends two messages and no more: to the AI
    connection the [conversation.item.truncate] of the recorded item, at
    content index 0 and at the time elapsed since the response start, and
    to the telephony connection the [clear] event of the current stream;
    it leaves the mark queue empty and both the item and the response
    start unset.  The second pass sends nothing and changes nothing,
    whether it enters through the speech-started event or through the
    handler itself. *)
Theorem interruption_twice (st : session) members (T0 : Z) :
  assoc "type" members = Some (JStr "input_audio_buffer.speech_started") ->
  truthy (last_assistant_item st) = true ->
  mark_queue st <> [] ->
  response_start_timestamp_twilio st = Some T0 ->
  exists st1,
    send_to_twilio_body (Encodes (JObj members)) st =
      (Return tt, st1,
       [ToOpenAI
          (JObj [("type", JStr "conversation.item.truncate");
                 ("item_id", last_assistant_item st);
                 ("content_index", JInt 0);
                 ("audio_end_ms", JInt (latest_media_timestamp st - T0))]);
        ToTwilio
          (JObj [("event", JStr "clear");
                 ("streamSid", stream_sid st)])]) /\
    mark_queue st1 = [] /\
    last_assistant_item st1 = JNull /\
    response_start_timestamp_twilio st1 = None /\
    stream_sid st1 = stream_sid st /\
    latest_media_timestamp st1 = latest_media_timestamp st /\
    send_to_twilio_body (Encodes (JObj members)) st1 = (Return tt, st1, []) /\
    handle_speech_started_event st1 = (Return tt, st1, []).
Proof.
  intros Ht Hty Hq Hs. exists (interrupted st).
  rewrite (send_to_twilio_body_speech_started st members Ht), Hty.
  rewrite (handle_speech_started_event_fires st T0 Hq Hs), Hty.
  split; [reflexivity|]. split; [reflexivity|]. split; [reflexivity|].
  split; [reflexivity|]. split; [reflexivity|]. split; [reflexivity|].
  split.
  - rewrite (send_to_twilio_body_speech_started _ members Ht). reflexivity.
  - apply handle_speech_started_event_idle. left. reflexivity.
Qed.

Lemma interruption_twice_witness :
  exists st1,
    send_to_twilio_body (Encodes (JObj speech_started_msg)) st_playing =
      (Return tt, st1,
       [ToOpenAI
          (JObj [("type", JStr "conversation.item.truncate");
                 ("item_id", JStr "item1");
                 ("content_index", JInt 0);
                 ("audio_end_ms", JInt 550)]);
        ToTwilio
          (JObj [("event", JStr "clear"); ("streamSid", JStr "SD1")])]) /\
    mark_queue st1 = [] /\
    last_assistant_item st1 = JNull /\
    response_start_timestamp_twilio st1 = None /\
    stream_sid st1 = JStr "SD1" /\
    latest_media_timestamp st1 = 650 /\
    send_to_twilio_body (Encodes (JObj speech_started_msg)) st1 =
      (Return tt, st1, []) /\
    handle_speech_started_event st1 = (Return tt, st1, []).
Proof.
  apply (interruption_twice st_playing speech_started_msg 100);
    try reflexivity.
  discriminate.
Defined.

(** An AI message that is not a forwarded audio delta leaves the session
    as it is or interrupts it. *)
Lemma send_to_twilio_body_not_delta (m : wire) (st : session) :
  is_audio_delta (OnOpenAI m) = false ->
  let st' := snd (fst (send_to_twilio_body m st)) in
  st' = st \/ st' = interrupted st.
Proof.
  intros Hnd. cbn zeta.
  destruct m as [|doc]; [left; reflexivity|].
  destruct doc as [ | | | | |fields]; try (left; reflexivity).
  destruct (assoc "type" fields) as [type|] eqn:Et.
  2:{ left. unfold send_to_twilio_body. run_M. rewrite Et. reflexivity. }
  destruct (is_str type "response.audio.delta") eqn:Ed.
  - left. pose proof (is_str_true _ _ Ed) as ->.
    cbn [is_audio_delta] in Hnd. unfold dict_get in Hnd. rewrite Et in Hnd.
    cbn [is_str] in Hnd. rewrite String.eqb_refl in Hnd. cbn [andb] in Hnd.
    unfold send_to_twilio_body, dict_contains. run_M. rewrite Et. cbn.
    destruct (assoc "delta" fields) as [d|]; cbn; [|reflexivity].
    destruct d as [ | | |s| | ]; cbn; try reflexivity.
    destruct (Base64.is_ascii s); cbn; [|reflexivity].
    destruct (Base64.a2b_base64 s); cbn; [discriminate Hnd | reflexivity].
  - destruct (is_str type "input_audio_buffer.speech_started") eqn:Es.
    + pose proof (is_str_true _ _ Es) as ->.
      rewrite (send_to_twilio_body_speech_started st fields Et).
      destruct (truthy (last_assistant_item st)); [|left; reflexivity].
      destruct (mark_queue st) as [|mk q] eqn:Eq.
      { left. rewrite handle_speech_started_event_idle; auto. }
      destruct (response_start_timestamp_twilio st) as [t0|] eqn:Er.
      * right.
        rewrite (handle_speech_started_event_fires st t0);
          [reflexivity | rewrite Eq; discriminate | exact Er].
      * left. rewrite handle_speech_started_event_idle; auto.
    + left. rewrite (send_to_twilio_body_other st fields type Et Ed Es).
      reflexivity.
Qed.

Section Claims.

Variable int_of_str : string -> option Z.

(** The first delta of a response at clock T0, then a frame stamped T1,
    then the caller speaks: the truncate instruction carries T1 - T0. *)
Lemma truncation_offset_after_first_delta (st : session)
    delta s raw item frame media ts payload speech (T0 T1 : Z) :
  openai_ws_bound st = true ->
  truthy (stream_sid st) = true ->
  response_start_timestamp_twilio st = None ->
  latest_media_timestamp st = T0 ->
  assoc "type" delta = Some (JStr "response.audio.delta") ->
  assoc "delta" delta = Some (JStr s) ->
  b64decode (JStr s) = Return raw ->
  assoc "item_id" delta = Some item ->
  truthy item = true ->
  assoc "event" frame = Some (JStr "media") ->
  assoc "media" frame = Some (JObj media) ->
  assoc "timestamp" media = Some ts ->
  py_int int_of_str ts = Return T1 ->
  assoc "payload" media = Some payload ->
  assoc "type" speech = Some (JStr "input_audio_buffer.speech_started") ->
  sent (run int_of_str (gather st)
          [OnOpenAI (Encodes (JObj delta));
           OnTwilio true (Encodes (JObj frame));
           OnOpenAI (Encodes (JObj speech))]) =
    [ToTwilio (audio_delta (stream_sid st) (b64encode raw));
     ToTwilio (mark_event (stream_sid st));
     ToOpenAI (audio_append payload);
     ToOpenAI (truncate_event item (T1 - T0));
     ToTwilio (clear_event (stream_sid st))].
Proof.
  intros Hb Hsid Hrst Hlmt Ht Hd Hdec Hitem Hty He Hm Hts Hint Hp Hs.
  assert (Hparts : Base64.is_ascii s = true /\
                   Base64.a2b_base64 s = Some raw).
  { unfold b64decode in Hdec.
    destruct (Base64.is_ascii s); [|discriminate].
    destruct (Base64.a2b_base64 s); [|discriminate].
    injection Hdec as ->. auto. }
  destruct Hparts as [Ha Hr].
  assert (Hget : dict_get delta "item_id" = item).
  { unfold dict_get. now rewrite Hitem. }
  set (st1 := after_delta delta st).
  assert (E1 : st1 =
    set_mark_queue (mark_queue st ++ ["responsePart"])
      (set_last_assistant_item item
         (set_response_start_timestamp_twilio (Some T0) st))).
  { unfold st1, after_delta. rewrite Hrst, Hget, Hty, Hsid, Hlmt.
    reflexivity. }
  unfold run, gather.
  cbn [fold_left deliver rx_running tx_running sess sent escaped].
  rewrite Hb.
  rewrite (send_to_twilio_body_delta st delta s raw Ht Hd Ha Hr).
  fold st1. rewrite Hsid.
  cbn [rx_running tx_running sess sent escaped].
  rewrite (receive_media_open int_of_str st1 frame media ts T1 payload);
    try assumption; [|rewrite E1; exact Hb].
  cbn [rx_running tx_running sess sent escaped].
  rewrite (send_to_twilio_body_speech_started _ speech Hs).
  assert (Hq : mark_queue (set_latest_media_timestamp T1 st1) <> []).
  { rewrite E1. cbn. destruct (mark_queue st); discriminate. }
  assert (Hstart :
    response_start_timestamp_twilio (set_latest_media_timestamp T1 st1)
    = Some T0).
  { rewrite E1. reflexivity. }
  rewrite (handle_speech_started_event_fires _ T0 Hq Hstart).
  rewrite E1. cbn. rewrite Hty. reflexivity.
Qed.

Lemma deliver_keeps_no_item (r : relay) (a : arrival) :
  last_assistant_item (sess r) = JNull ->
  is_audio_delta a = false ->
  last_assistant_item (sess (deliver int_of_str r a)) = JNull.
Proof.
  intros Hnone Hnd. destruct a as [o m|m]; unfold deliver.
  - destruct (rx_running r); [|exact Hnone].
    pose proof (receive_from_twilio_body_shape int_of_str o m (sess r))
      as Hshape.
    destruct (receive_from_twilio_body int_of_str o m (sess r))
      as [[[u|e] st'] out]; cbn [snd fst] in Hshape; cbn [sess];
      destruct Hshape as [->|[[t ->]|[[sid ->]| ->]]]; try exact Hnone;
      unfold after_mark; destruct (mark_queue (sess r)); exact Hnone.
  - destruct (tx_running r); [|exact Hnone].
    pose proof (send_to_twilio_body_not_delta m (sess r) Hnd) as Hshape.
    destruct (send_to_twilio_body m (sess r)) as [[[u|e] st'] out];
      cbn [snd fst] in Hshape; cbn [sess];
      destruct Hshape as [->| ->]; solve [exact Hnone | reflexivity].
Qed.

(** After an interruption, and until the next audio delta is forwarded,
    whatever arrives on either connection, a speech-started event sends
    nothing and changes nothing. *)
Lemma no_interruption_before_next_delta (between : list arrival) :
  forall (r : relay) members,
    last_assistant_item (sess r) = JNull ->
    forallb (fun a => negb (is_audio_delta a)) between = true ->
    assoc "type" members = Some (JStr "input_audio_buffer.speech_started") ->
    send_to_twilio_body (Encodes (JObj members))
      (sess (run int_of_str r between)) =
      (Return tt, sess (run int_of_str r between), []).
Proof.
  induction between as [|a rest IH]; intros r members Hnone Hall Ht.
  - cbn [run fold_left].
    rewrite (send_to_twilio_body_speech_started _ members Ht), Hnone.
    reflexivity.
  - cbn [forallb] in Hall. apply andb_prop in Hall.
    destruct Hall as [Ha Hrest]. apply negb_true_iff in Ha.
    unfold run. cbn [fold_left].
    apply (IH (deliver int_of_str r a) members); try assumption.
    apply deliver_keeps_no_item; assumption.
Qed.

(* ================================================================== *)
(** * The inbound relay                                                 *)
(* ================================================================== *)

(** C2, as the code has it.  Whatever the session was, a stream-start
    event sets [stream_sid] to the stream id of the event and
    [latest_media_timestamp] to 0, sends nothing, and leaves the mark
    queue as it was. *)
Theorem stream_start_effect (st : session) openai_ws_open members start sid :
  assoc "event" members = Some (JStr "start") ->
  assoc "start" members = Some (JObj start) ->
  assoc "streamSid" start = Some sid ->
  exists st',
    receive_from_twilio_body int_of_str openai_ws_open
      (Encodes (JObj members)) st = (Return tt, st', []) /\
    stream_sid st' = sid /\
    latest_media_timestamp st' = 0 /\
    mark_queue st' = mark_queue st.
Proof.
  intros He Hs Hsid. exists (after_start sid st).
  rewrite (receive_start int_of_str st openai_ws_open members start sid
             He Hs Hsid).
  split; [reflexivity|]. split; [reflexivity|]. split; reflexivity.
Qed.

(** C5, as the code has it.  For a media frame handled while the AI
    connection is open, [latest_media_timestamp] becomes the timestamp of
    the frame, whatever it was before, and the payload is appended to the
    input buffer of the AI connection; while the connection is not open
    the frame is dropped: nothing is sent, the loop goes on, and the
    session, [latest_media_timestamp] included, stays as it was. *)
Theorem media_frame_effect (st : session) members media ts (t : Z) payload :
  openai_ws_bound st = true ->
  assoc "event" members = Some (JStr "media") ->
  assoc "media" members = Some (JObj media) ->
  assoc "timestamp" media = Some ts ->
  py_int int_of_str ts = Return t ->
  assoc "payload" media = Some payload ->
  (exists st',
     receive_from_twilio_body int_of_str true (Encodes (JObj members)) st =
       (Return tt, st', [ToOpenAI (audio_append payload)]) /\
     latest_media_timestamp st' = t) /\
  receive_from_twilio_body int_of_str false (Encodes (JObj members)) st =
    (Return tt, st, []).
Proof.
  intros Hb He Hm Hts Ht Hp. split.
  - exists (set_latest_media_timestamp t st). split; [|reflexivity].
    exact (receive_media_open int_of_str st members media ts t payload
             Hb He Hm Hts Ht Hp).
  - exact (receive_media_closed int_of_str st members Hb He).
Qed.

(** C6, as the code has it.  A telephony message that cannot be decoded,
    or that decodes to something without an event member, raises in the
    loop of [receive_from_twilio]: the loop ends there, no later message
    is handled, nothing is changed or sent, and the exception leaves
    [handle_media_stream] through [asyncio.gather]. *)
Theorem malformed_message_ends_inbound_relay (st : session) openai_ws_open
    (m : wire) (rest : list (bool * wire)) :
  has_event_key m = false ->
  exists e,
    receive_from_twilio int_of_str ((openai_ws_open, m) :: rest) st =
      (Raise e, st, []) /\
    forall r, rx_running r = true -> sess r = st ->
      deliver int_of_str r (OnTwilio openai_ws_open m) =
        mkRelay st (sent r) false (tx_running r) (Some e).
Proof.
  intros H.
  destruct (receive_malformed int_of_str st openai_ws_open m H) as [e He].
  exists e. split.
  - cbn [receive_from_twilio]. apply bind_raise. exact He.
  - intros r Hr Hst. unfold deliver. rewrite Hr, Hst, He.
    now rewrite app_nil_r.
Qed.

(** C7, as the code has it.  A stop event of the telephony leg is handled
    like any event kind the loop has no branch for: it changes nothing,
    sends nothing, and the loop goes on with the messages that follow. *)
Theorem stop_event_is_ignored (st : session) openai_ws_open members
    (rest : list (bool * wire)) :
  assoc "event" members = Some (JStr "stop") ->
  receive_from_twilio_body int_of_str openai_ws_open
    (Encodes (JObj members)) st = (Return tt, st, []) /\
  receive_from_twilio int_of_str
    ((openai_ws_open, Encodes (JObj members)) :: rest) st =
  receive_from_twilio int_of_str rest st.
Proof.
  intros He.
  assert (Hbody :
    receive_from_twilio_body int_of_str openai_ws_open
      (Encodes (JObj members)) st = (Return tt, st, [])).
  { apply (receive_other int_of_str st openai_ws_open members (JStr "stop"));
      [exact He | reflexivity ..]. }
  split; [exact Hbody|].
  cbn [receive_from_twilio]. apply bind_skip. exact Hbody.
Qed.

(** Other missing members raise in the same way.  A media frame without
    its payload raises after the clock was set. *)
Example media_frame_without_media_member :
  receive_from_twilio_body int_of_str true
    (Encodes (JObj [("event", JStr "media")])) st_started =
    (Raise (KeyError "media"), st_started, []).
Proof. reflexivity. Qed.

Example media_frame_without_payload :
  receive_from_twilio_body int_of_str true
    (Encodes (JObj [("event", JStr "media");
                    ("media", JObj [("timestamp", JInt 650)])])) st_started =
    (Raise (KeyError "payload"), set_latest_media_timestamp 650 st_started,
     []).
Proof. reflexivity. Qed.

Example start_event_without_start_member :
  receive_from_twilio_body int_of_str true
    (Encodes (JObj [("event", JStr "start")])) st_started =
    (Raise (KeyError "start"), st_started, []).
Proof. reflexivity. Qed.

(* ================================================================== *)
(** * The mark queue                                                    *)
(* ================================================================== *)

(** C4, as the code has it.  From an empty mark queue and with a stream
    id set, after any interleaving of N forwarded audio deltas and M mark
    acknowledgments the queue holds between N - M and N tokens; it holds
    exactly N - M when every acknowledgment found a token in the queue.
    An acknowledgment that finds the queue empty changes nothing and
    sends nothing. *)
Theorem mark_queue_balance (r : relay) (schedule : list arrival) :
  rx_running r = true ->
  tx_running r = true ->
  truthy (stream_sid (sess r)) = true ->
  mark_queue (sess r) = [] ->
  forallb (fun a => is_audio_delta a || is_mark_ack a) schedule = true ->
  let N := count is_audio_delta schedule in
  let M := count is_mark_ack schedule in
  let len := List.length (mark_queue (sess (run int_of_str r schedule))) in
  (N - M <= len /\ len <= N)%nat /\
  (acks_in_time 0 schedule = true -> (M <= N)%nat /\ len = (N - M)%nat) /\
  (forall st openai_ws_open members,
     assoc "event" members = Some (JStr "mark") ->
     mark_queue st = [] ->
     receive_from_twilio_body int_of_str openai_ws_open
       (Encodes (JObj members)) st = (Return tt, st, [])).
Proof.
  intros Hrx Htx Hsid Hq Hall N M len.
  assert (Hlen : len = balance 0 schedule).
  { unfold len. rewrite (run_balance int_of_str schedule r Hrx Htx Hsid Hall).
    now rewrite Hq. }
  destruct (balance_bounds schedule 0%nat Hall) as (L & U & E).
  fold N in L, U, E. fold M in L, E. rewrite <- Hlen in L, U, E.
  split; [lia|]. split.
  - intros Hin. specialize (E Hin). lia.
  - intros st o members He Hempty.
    rewrite (receive_mark int_of_str st o members He).
    unfold after_mark. now rewrite Hempty.
Qed.

End Claims.

Lemma stream_start_effect_witness :
  exists st',
    receive_from_twilio_body int_of_digits true
      (Encodes (JObj (start_msg (JStr "SD2")))) st_playing =
      (Return tt, st', []) /\
    stream_sid st' = JStr "SD2" /\
    latest_media_timestamp st' = 0 /\
    mark_queue st' = ["responsePart"].
Proof.
  apply (stream_start_effect int_of_digits st_playing true
           (start_msg (JStr "SD2"))
           [("streamSid", JStr "SD2"); ("callSid", JStr "CA1")]
           (JStr "SD2")); reflexivity.
Defined.

(** C2, counterexample.  A response is playing (item1, one mark pending,
    started at 100 ms) when a start event for stream SD2 arrives.
    Afterwards the mark queue still holds its token, and the cells
    [last_assistant_item] and [response_start_timestamp_twilio] that
    [send_to_twilio] and [handle_speech_started_event] read still hold
    item1 and 100: the next speech-started event truncates item1 at
    0 - 100 ms. *)
Lemma stream_start_keeps_response_state :
  receive_from_twilio_body int_of_digits true
    (Encodes (JObj (start_msg (JStr "SD2")))) st_playing =
    (Return tt, st_restarted, []) /\
  ~ (latest_media_timestamp st_restarted = 0 /\
     mark_queue st_restarted = [] /\
     last_assistant_item st_restarted = JNull /\
     response_start_timestamp_twilio st_restarted = None) /\
  send_to_twilio_body (Encodes (JObj speech_started_msg)) st_restarted =
    (Return tt, interrupted st_restarted,
     [ToOpenAI (truncate_event (JStr "item1") (-100));
      ToTwilio (clear_event (JStr "SD2"))]).
Proof.
  split; [reflexivity|]. split; [|reflexivity].
  intros (_ & Hq & _). discriminate Hq.
Qed.

Lemma media_frame_effect_witness :
  (exists st',
     receive_from_twilio_body int_of_digits true
       (Encodes (JObj (media_msg "40" "AAAA"))) st_started =
       (Return tt, st', [ToOpenAI (audio_append (JStr "AAAA"))]) /\
     latest_media_timestamp st' = 40) /\
  receive_from_twilio_body int_of_digits false
    (Encodes (JObj (media_msg "40" "AAAA"))) st_started =
    (Return tt, st_started, []).
Proof.
  apply (media_frame_effect int_of_digits st_started (media_msg "40" "AAAA")
           (media_fields "40" "AAAA") (JStr "40") 40 (JStr "AAAA"));
    reflexivity.
Defined.

(** C5, counterexample.  The clock is at 100 ms and a media frame stamped
    650 arrives while the AI connection is not open: the frame is
    dropped and the clock stays at 100, it is not set to 650. *)
Lemma media_frame_dropped_keeps_timestamp :
  exists st',
    receive_from_twilio_body int_of_digits false
      (Encodes (JObj (media_msg "650" "AAAA"))) st_started =
      (Return tt, st', []) /\
    latest_media_timestamp st' = 100 /\
    latest_media_timestamp st' <> 650.
Proof.
  exists st_started.
  split; [reflexivity|]. split; [reflexivity|]. discriminate.
Qed.

Lemma malformed_message_ends_inbound_relay_witness :
  exists e,
    receive_from_twilio int_of_digits
      [(true, Undecodable); (true, Encodes (JObj (media_msg "650" "AAAA")))]
      st_started = (Raise e, st_started, []) /\
    forall r, rx_running r = true -> sess r = st_started ->
      deliver int_of_digits r (OnTwilio true Undecodable) =
        mkRelay st_started (sent r) false (tx_running r) (Some e).
Proof.
  apply (malformed_message_ends_inbound_relay int_of_digits st_started true
           Undecodable [(true, Encodes (JObj (media_msg "650" "AAAA")))]).
  reflexivity.
Defined.

(** C6, counterexample.  An undecodable frame, or an object without an
    event member, followed by a media frame stamped 650: the inbound loop
    is no longer running, the exception has escaped, and the media frame
    was not handled (the clock is still at 100 and nothing was sent),
    whereas the media frame alone is handled. *)
Lemma malformed_message_stops_processing :
  (let r :=
     run int_of_digits (gather st_started)
       [OnTwilio true Undecodable;
        OnTwilio true (Encodes (JObj (media_msg "650" "AAAA")))] in
   rx_running r = false /\ escaped r = Some JSONDecodeError /\
   latest_media_timestamp (sess r) = 100 /\ sent r = []) /\
  (let r :=
     run int_of_digits (gather st_started)
       [OnTwilio true (Encodes (JObj [("payload", JStr "AAAA")]));
        OnTwilio true (Encodes (JObj (media_msg "650" "AAAA")))] in
   rx_running r = false /\ escaped r = Some (KeyError "event") /\
   latest_media_timestamp (sess r) = 100 /\ sent r = []) /\
  (let r :=
     run int_of_digits (gather st_started)
       [OnTwilio true (Encodes (JObj (media_msg "650" "AAAA")))] in
   rx_running r = true /\ escaped r = None /\
   latest_media_timestamp (sess r) = 650 /\
   sent r = [ToOpenAI (audio_append (JStr "AAAA"))]).
Proof. cbv zeta. repeat split. Qed.

Lemma stop_event_is_ignored_witness :
  receive_from_twilio_body int_of_digits true (Encodes (JObj stop_msg))
    st_started = (Return tt, st_started, []) /\
  receive_from_twilio int_of_digits
    [(true, Encodes (JObj stop_msg));
     (true, Encodes (JObj (media_msg "650" "AAAA")))] st_started =
  receive_from_twilio int_of_digits
    [(true, Encodes (JObj (media_msg "650" "AAAA")))] st_started.
Proof.
  apply (stop_event_is_ignored int_of_digits st_started true stop_msg
           [(true, Encodes (JObj (media_msg "650" "AAAA")))]).
  reflexivity.
Defined.

(** C7, counterexample.  A stop event followed by a media frame stamped
    650: the loop did not end at the stop event, the media frame after it
    is handled and forwarded; and after the stop event alone both loops
    are still running and no exception has escaped. *)
Lemma stop_event_does_not_end_loop :
  receive_from_twilio int_of_digits
    [(true, Encodes (JObj stop_msg));
     (true, Encodes (JObj (media_msg "650" "AAAA")))] st_started =
    (Return tt, set_latest_media_timestamp 650 st_started,
     [ToOpenAI (audio_append (JStr "AAAA"))]) /\
  (let r :=
     run int_of_digits (gather st_started)
       [OnTwilio true (Encodes (JObj stop_msg))] in
   rx_running r = true /\ tx_running r = true /\ escaped r = None /\
   sess r = st_started).
Proof. cbv zeta. repeat split. Qed.

Lemma mark_queue_balance_witness :
  let N := count is_audio_delta forward_ack_forward in
  let M := count is_mark_ack forward_ack_forward in
  let len :=
    List.length
      (mark_queue
         (sess (run int_of_digits (gather st_started) forward_ack_forward))) in
  (N - M <= len /\ len <= N)%nat /\
  (acks_in_time 0 forward_ack_forward = true ->
   (M <= N)%nat /\ len = (N - M)%nat) /\
  (forall st openai_ws_open members,
     assoc "event" members = Some (JStr "mark") ->
     mark_queue st = [] ->
     receive_from_twilio_body int_of_digits openai_ws_open
       (Encodes (JObj members)) st = (Return tt, st, [])).
Proof.
  apply (mark_queue_balance int_of_digits (gather st_started)
           forward_ack_forward); reflexivity.
Defined.

(** C4, counterexample.  One acknowledgment, then one forwarded delta
    (N = 1, M = 1, so M <= N): the acknowledgment finds the queue empty
    and is absorbed, the delta then records its mark, and the queue ends
    with one token, not with N - M = 0. *)
Lemma early_ack_unbalances_queue :
  count is_audio_delta ack_then_forward = 1%nat /\
  count is_mark_ack ack_then_forward = 1%nat /\
  mark_queue (sess (run int_of_digits (gather st_started) ack_then_forward))
  = ["responsePart"] /\
  List.length
    (mark_queue
       (sess (run int_of_digits (gather st_started) ack_then_forward)))
  <> (1 - 1)%nat.
Proof.
  split; [reflexivity|]. split; [reflexivity|]. split; [reflexivity|].
  discriminate.
Qed.

(* ================================================================== *)
(** * The outbound relay                                                *)
(* ================================================================== *)

(** C8, as the code has it.  The recorded item is unset by an
    interruption, that is by a speech-started event handled while an
    item is recorded, the mark queue is non-empty and a response start is
    recorded.  A response-done event changes nothing: the item stays
    recorded. *)
Theorem last_assistant_item_cleared_on_interruption_only
    (st : session) speech done (T0 : Z) :
  assoc "type" speech = Some (JStr "input_audio_buffer.speech_started") ->
  assoc "type" done = Some (JStr "response.done") ->
  truthy (last_assistant_item st) = true ->
  mark_queue st <> [] ->
  response_start_timestamp_twilio st = Some T0 ->
  (exists st' out,
     send_to_twilio_body (Encodes (JObj speech)) st = (Return tt, st', out) /\
     last_assistant_item st' = JNull) /\
  (forall st0,
     send_to_twilio_body (Encodes (JObj done)) st0 = (Return tt, st0, [])).
Proof.
  intros Hs Hd Hty Hq Hr. split.
  - exists (interrupted st). eexists. split; [|reflexivity].
    rewrite (send_to_twilio_body_speech_started st speech Hs), Hty.
    apply (handle_speech_started_event_fires st T0 Hq Hr).
  - intros st0.
    apply (send_to_twilio_body_other st0 done (JStr "response.done") Hd);
      reflexivity.
Qed.

Lemma last_assistant_item_cleared_on_interruption_only_witness :
  (exists st' out,
     send_to_twilio_body (Encodes (JObj speech_started_msg)) st_playing =
       (Return tt, st', out) /\
     last_assistant_item st' = JNull) /\
  (forall st0,
     send_to_twilio_body (Encodes (JObj done_msg)) st0 = (Return tt, st0, [])).
Proof.
  apply (last_assistant_item_cleared_on_interruption_only st_playing
           speech_started_msg done_msg 100); try reflexivity.
  discriminate.
Defined.

(** C8, counterexample.  A delta carrying item1, then response-done:
    afterwards the recorded item is still item1, it is not unset. *)
Lemma response_done_keeps_last_assistant_item :
  exists st' out,
    send_to_twilio
      [Encodes (JObj (delta_msg "AAAA" "item1")); Encodes (JObj done_msg)]
      st_started = (Return tt, st', out) /\
    last_assistant_item st' = JStr "item1" /\
    last_assistant_item st' <> JNull.
Proof.
  eexists. eexists. split; [reflexivity|]. split; [reflexivity|]. discriminate.
Qed.

(** C9. For an audio delta whose [delta] is canonical padded base64 text,
    decoding and encoding again gives the same text, and the media frame
    sent to the telephony connection carries exactly that text as its
    payload and the current [stream_sid] as its stream id. *)
Theorem audio_delta_passthrough (st : session) members (delta : string) :
  assoc "type" members = Some (JStr "response.audio.delta") ->
  assoc "delta" members = Some (JStr delta) ->
  Base64.canonical delta = true ->
  (exists raw, b64decode (JStr delta) = Return raw /\ b64encode raw = delta) /\
  send_to_twilio_body (Encodes (JObj members)) st =
    (Return tt, after_delta members st,
     ToTwilio
       (JObj [("event", JStr "media");
              ("streamSid", stream_sid st);
              ("media", JObj [("payload", JStr delta)])]) ::
     (if truthy (stream_sid st)
      then [ToTwilio (mark_event (stream_sid st))]
      else [])).
Proof.
  intros Ht Hd Hc.
  destruct (Base64Facts.b2a_a2b_canonical delta Hc) as (Ha & raw & Hr & Hb).
  split.
  - exists raw. unfold b64decode, b64encode. rewrite Ha, Hr. auto.
  - rewrite (send_to_twilio_body_delta st members delta raw Ht Hd Ha Hr).
    unfold b64encode. rewrite Hb. reflexivity.
Qed.

Lemma audio_delta_passthrough_witness :
  (exists raw,
     b64decode (JStr "SGVsbG8=") = Return raw /\ b64encode raw = "SGVsbG8=") /\
  send_to_twilio_body (Encodes (JObj (delta_msg "SGVsbG8=" "item1")))
    st_started =
    (Return tt, after_delta (delta_msg "SGVsbG8=" "item1") st_started,
     [ToTwilio
        (JObj [("event", JStr "media");
               ("streamSid", JStr "SD1");
               ("media", JObj [("payload", JStr "SGVsbG8=")])]);
      ToTwilio (mark_event (JStr "SD1"))]).
Proof.
  apply (audio_delta_passthrough st_started (delta_msg "SGVsbG8=" "item1")
           "SGVsbG8="); reflexivity.
Defined.

(** Text that is valid for the decoder but not canonical is not passed
    through unchanged: the unused bits of the last character are lost. *)
Example non_canonical_delta_is_rewritten :
  Base64.canonical "QR==" = false /\
  send_to_twilio_body
    (Encodes (JObj [("type", JStr "response.audio.delta");
                    ("delta", JStr "QR==")])) st_started =
    (Return tt,
     mkSession true (JStr "SD1") 100 JNull ["responsePart"] (Some 100)
       None None,
     [ToTwilio (audio_delta (JStr "SD1") "QQ==");
      ToTwilio (mark_event (JStr "SD1"))]).
Proof. split; reflexivity. Qed.

(** C10. An audio delta that the running outbound loop handles while
    [stream_sid] is [None]: the media frame is sent all the same, with a
    null stream id, and it is the only message sent; no mark is sent and
    the mark queue stays as it was.  The loop runs with [stream_sid]
    still [None] after a first start event that carries no stream id:
    one delta then leaves one media frame sent and an empty mark queue,
    fewer tokens than frames. *)
Theorem audio_delta_without_stream_sid (int_of_str : string -> option Z)
    (r : relay) members (delta : string) (raw : list byte) :
  assoc "type" members = Some (JStr "response.audio.delta") ->
  assoc "delta" members = Some (JStr delta) ->
  b64decode (JStr delta) = Return raw ->
  tx_running r = true ->
  stream_sid (sess r) = JNull ->
  let frame :=
    ToTwilio
      (JObj [("event", JStr "media");
             ("streamSid", JNull);
             ("media", JObj [("payload", JStr (b64encode raw))])]) in
  let r1 := deliver int_of_str r (OnOpenAI (Encodes (JObj members))) in
  (sent r1 = sent r ++ [frame] /\
   mark_queue (sess r1) = mark_queue (sess r) /\
   stream_sid (sess r1) = JNull /\
   tx_running r1 = true) /\
  exists r0,
    handle_media_stream int_of_str (Encodes (JObj (start_msg JNull)))
      [OnOpenAI (Encodes (JObj members))] = Some r0 /\
    sent r0 = [frame] /\
    mark_queue (sess r0) = [] /\
    (List.length (mark_queue (sess r0))
     < List.length (filter is_media_frame (sent r0)))%nat.
Proof.
  intros Ht Hd Hdec Htx Hsid. cbn zeta.
  assert (Hparts : Base64.is_ascii delta = true /\
                   Base64.a2b_base64 delta = Some raw).
  { unfold b64decode in Hdec.
    destruct (Base64.is_ascii delta); [|discriminate].
    destruct (Base64.a2b_base64 delta); [|discriminate].
    injection Hdec as ->. auto. }
  destruct Hparts as [Ha Hr].
  split.
  - unfold deliver. rewrite Htx.
    rewrite (send_to_twilio_body_delta (sess r) members delta raw
               Ht Hd Ha Hr).
    cbn [sess sent tx_running]. unfold after_delta.
    rewrite Hsid. cbn [truthy].
    split; [reflexivity|].
    destruct (response_start_timestamp_twilio (sess r));
      destruct (truthy (dict_get members "item_id"));
      (split; [reflexivity|]); (split; [exact Hsid | reflexivity]).
  - eexists. split; [|split; [|split]].
    + unfold handle_media_stream.
      replace (handle_media_stream_open (Encodes (JObj (start_msg JNull)))
                 initial_session)
        with (Return tt, st_no_sid, @nil out_msg) by reflexivity.
      unfold run, gather.
      cbn [fold_left deliver tx_running rx_running sess sent escaped
           openai_ws_bound st_no_sid].
      rewrite (send_to_twilio_body_delta _ members delta raw Ht Hd Ha Hr).
      reflexivity.
    + reflexivity.
    + cbn. unfold after_delta. cbn.
      destruct (truthy (dict_get members "item_id")); reflexivity.
    + cbn. unfold after_delta. cbn.
      destruct (truthy (dict_get members "item_id")); cbn; lia.
Qed.

Lemma audio_delta_without_stream_sid_witness :
  let frame :=
    ToTwilio
      (JObj [("event", JStr "media");
             ("streamSid", JNull);
             ("media", JObj [("payload", JStr "SGVsbG8=")])]) in
  let r1 :=
    deliver int_of_digits (gather st_no_sid)
      (OnOpenAI (Encodes (JObj (delta_msg "SGVsbG8=" "item1")))) in
  (sent r1 = [frame] /\
   mark_queue (sess r1) = [] /\
   stream_sid (sess r1) = JNull /\
   tx_running r1 = true) /\
  exists r0,
    handle_media_stream int_of_digits (Encodes (JObj (start_msg JNull)))
      [OnOpenAI (Encodes (JObj (delta_msg "SGVsbG8=" "item1")))] = Some r0 /\
    sent r0 = [frame] /\
    mark_queue (sess r0) = [] /\
    (List.length (mark_queue (sess r0))
     < List.length (filter is_media_frame (sent r0)))%nat.
Proof.
  apply (audio_delta_without_stream_sid int_of_digits (gather st_no_sid)
           (delta_msg "SGVsbG8=" "item1") "SGVsbG8="
           (map byte_of_ascii (list_ascii_of_string "Hello")));
    reflexivity.
Defined.

(** C10, counterexample.  No stream start has been handled: the first
    message of the call is a [connected] event, so [stream_sid] is still
    [None].  But [openai_ws] is bound by a first start event only (lines
    155-171), so [send_to_twilio] ends at its first step, inside its own
    handler: the delta that arrives is never handled and no media frame
    reaches the telephony connection, with a null stream id or any
    other.  The same delta after a start event is forwarded. *)
Lemma delta_before_stream_start_is_not_forwarded :
  let delta := OnOpenAI (Encodes (JObj (delta_msg "SGVsbG8=" "item1"))) in
  handle_media_stream int_of_digits
    (Encodes (JObj [("event", JStr "connected")])) [delta; delta] =
  Some (mkRelay initial_session [] true false None) /\
  stream_sid initial_session = JNull /\
  openai_ws_bound initial_session = false /\
  handle_media_stream int_of_digits
    (Encodes (JObj [("event", JStr "start");
                    ("start", JObj [("streamSid", JStr "SD1")])]))
    [delta] =
  Some
    (mkRelay
       (mkSession true (JStr "SD1") 0 (JStr "item1") ["responsePart"]
          (Some 0) None None)
       [ToTwilio
          (JObj [("event", JStr "media"); ("streamSid", JStr "SD1");
                 ("media", JObj [("payload", JStr "SGVsbG8=")])]);
        ToTwilio
          (JObj [("event", JStr "mark"); ("streamSid", JStr "SD1");
                 ("mark", JObj [("name", JStr "responsePart")])])]
       true true None).
Proof. cbn zeta. repeat split. Qed.

(* ================================================================== *)
(** * Further properties of the relay                                   *)
(* ================================================================== *)

(** A predicate that the five effects of a message keep, and that holds
    after the opening, holds in every session [handle_media_stream]
    reaches. *)
Lemma reachable_session_ind (P : session -> Prop) :
  (forall st t, P st -> P (set_latest_media_timestamp t st)) ->
  (forall st sid, P st -> P (after_start sid st)) ->
  (forall st, P st -> P (after_mark st)) ->
  (forall st members, P st -> P (after_delta members st)) ->
  (forall st, P st -> P (interrupted st)) ->
  P initial_session ->
  (forall sid,
     P (set_openai_ws_bound true (set_stream_sid sid initial_session))) ->
  forall int_of_str first schedule r,
    handle_media_stream int_of_str first schedule = Some r -> P (sess r).
Proof.
  intros Hlmt Hstart Hmark Hdelta Hint Hinit Hopen int_of_str first.
  assert (Hdeliver : forall r a, P (sess r) ->
                                 P (sess (deliver int_of_str r a))).
  { intros r a HP. destruct a as [o m|m]; unfold deliver.
    - destruct (rx_running r); [|exact HP].
      pose proof (receive_from_twilio_body_shape int_of_str o m (sess r))
        as Hshape.
      destruct (receive_from_twilio_body int_of_str o m (sess r))
        as [[[u|e] st'] out]; cbn [snd fst] in Hshape; cbn [sess];
        destruct Hshape as [->|[[t ->]|[[sid ->]| ->]]]; auto.
    - destruct (tx_running r); [|exact HP].
      pose proof (send_to_twilio_body_shape m (sess r)) as Hshape.
      destruct (send_to_twilio_body m (sess r)) as [[[u|e] st'] out];
        cbn [snd fst] in Hshape; cbn [sess];
        destruct Hshape as [->|[[members ->]| ->]]; auto. }
  assert (Hrun : forall schedule r, P (sess r) ->
                                    P (sess (run int_of_str r schedule))).
  { induction schedule as [|a rest IH]; intros r HP; [exact HP|].
    unfold run. cbn [fold_left]. apply IH. apply Hdeliver. exact HP. }
  intros schedule r H. unfold handle_media_stream in H.
  destruct (handle_media_stream_open first initial_session)
    as [[[u|e] st] out] eqn:Eopen; [|discriminate].
  injection H as <-. apply Hrun. unfold gather. cbn [sess].
  revert Eopen. unfold handle_media_stream_open. run_M.
  destruct first as [|doc]; cbn; [discriminate|].
  destruct (subscript doc "event") as [event|]; cbn; [|discriminate].
  destruct (is_str event "start"); cbn.
  - destruct (subscript doc "start") as [start|]; cbn; [|discriminate].
    destruct (subscript start "streamSid") as [sid|]; cbn; [|discriminate].
    destruct (hashable _); cbn; [|discriminate].
    intros H. injection H. intros. subst st. apply Hopen.
  - intros H. injection H. intros. subst st. exact Hinit.
Qed.

(** What one message of the AI backend makes the relay send, and the
    audio it carried. *)
Lemma send_to_twilio_body_sends (m : wire) (st : session) :
  let out := snd (send_to_twilio_body m st) in
  (out = [] /\ delta_audio (OnOpenAI m) = []) \/
  (exists raw,
     delta_audio (OnOpenAI m) = [JStr (b64encode raw)] /\
     out = ToTwilio (audio_delta (stream_sid st) (b64encode raw)) ::
           (if truthy (stream_sid st)
            then [ToTwilio (mark_event (stream_sid st))]
            else [])) \/
  (exists elapsed,
     truthy (last_assistant_item st) = true /\
     delta_audio (OnOpenAI m) = [] /\
     out = [ToOpenAI (truncate_event (last_assistant_item st) elapsed);
            ToTwilio (clear_event (stream_sid st))]).
Proof.
  cbn zeta.
  destruct m as [|doc]; [left; split; reflexivity|].
  destruct doc as [ | | | | |members]; try (left; split; reflexivity).
  cbn [delta_audio]. unfold dict_get.
  destruct (assoc "type" members) as [type|] eqn:Et.
  2:{ left. unfold send_to_twilio_body. run_M. rewrite Et. split; reflexivity. }
  destruct (is_str type "response.audio.delta") eqn:Ed.
  - apply is_str_true in Ed. subst type.
    destruct (assoc "delta" members) as [d|] eqn:Edelta.
    + destruct (b64decode d) as [raw|e] eqn:Edec.
      * right. left. exists raw.
        destruct d as [ | | |s| | ]; try discriminate.
        unfold b64decode in Edec.
        destruct (Base64.is_ascii s) eqn:Ea; [|discriminate].
        destruct (Base64.a2b_base64 s) as [raw'|] eqn:Er; [|discriminate].
        injection Edec as <-.
        rewrite (send_to_twilio_body_delta st members s raw' Et Edelta Ea Er).
        split; reflexivity.
      * left. split; [|reflexivity].
        unfold send_to_twilio_body, dict_contains. run_M.
        rewrite Et. cbn. rewrite Edelta. cbn. rewrite Edec. reflexivity.
    + left. split; [|reflexivity].
      unfold send_to_twilio_body, dict_contains. run_M.
      rewrite Et. cbn. rewrite Edelta. reflexivity.
  - destruct (is_str type "input_audio_buffer.speech_started") eqn:Es.
    + apply is_str_true in Es. subst type.
      rewrite (send_to_twilio_body_speech_started st members Et).
      destruct (truthy (last_assistant_item st)) eqn:Ei;
        [|left; split; reflexivity].
      destruct (mark_queue st) as [|mk q] eqn:Eq.
      { left. rewrite handle_speech_started_event_idle; auto. }
      destruct (response_start_timestamp_twilio st) as [t0|] eqn:Er.
      * right. right. exists (latest_media_timestamp st - t0).
        split; [reflexivity|]. split; [reflexivity|].
        rewrite (handle_speech_started_event_fires st t0);
          [| rewrite Eq; discriminate | exact Er].
        rewrite Ei. reflexivity.
      * left. rewrite handle_speech_started_event_idle; auto.
    + left. rewrite (send_to_twilio_body_other st members type Et Ed Es).
      split; reflexivity.
Qed.


Section ReachableSessions.

Variable int_of_str : string -> option Z.

(** X2. In every session [handle_media_stream] reaches, as long as a mark
    is pending or an item is recorded the start of the response is
    recorded: the second half of the guard of
    [handle_speech_started_event] never fails on its own. *)
Theorem start_recorded_while_playing_reachable (first : wire)
    (schedule : list arrival) (r : relay) :
  handle_media_stream int_of_str first schedule = Some r ->
  start_recorded_while_playing (sess r).
Proof.
  apply (reachable_session_ind start_recorded_while_playing);
    unfold start_recorded_while_playing.
  - intros st t H. exact H.
  - intros st sid H. exact H.
  - intros st H. unfold after_mark.
    destruct (mark_queue st) as [|mk q] eqn:Eq.
    + rewrite Eq. exact H.
    + cbn. intros [Hq|Hi]; apply H; [left; discriminate | right; exact Hi].
  - intros st members _ _. rewrite delta_records_response_start.
    destruct (response_start_timestamp_twilio st); discriminate.
  - intros st _ [Hq|Hi]; exfalso; [apply Hq | apply Hi]; reflexivity.
  - intros [Hq|Hi]; exfalso; [apply Hq | apply Hi]; reflexivity.
  - intros sid [Hq|Hi]; exfalso; [apply Hq | apply Hi]; reflexivity.
Qed.

(** X3. In every session [handle_media_stream] reaches, the recorded item
    is [None] or an object that counts as true, so that the test
    [if last_assistant_item:] is the test that an item is recorded; and
    every token of the mark queue is ["responsePart"]. *)
Theorem recorded_item_and_tokens_reachable (first : wire)
    (schedule : list arrival) (r : relay) :
  handle_media_stream int_of_str first schedule = Some r ->
  item_recorded_or_none (sess r) /\
  Forall (fun token => token = "responsePart") (mark_queue (sess r)).
Proof.
  intros H. split.
  - exact (handle_media_stream_item_recorded_or_none int_of_str first
             schedule r H).
  - revert H.
    apply (reachable_session_ind
             (fun st => Forall (fun token => token = "responsePart")
                          (mark_queue st))).
    + intros st t H. exact H.
    + intros st sid H. exact H.
    + intros st H. unfold after_mark.
      destruct (mark_queue st) as [|mk q] eqn:Eq; [now rewrite Eq|].
      cbn. now inversion H.
    + intros st members H. unfold after_delta.
      destruct (response_start_timestamp_twilio st);
        destruct (truthy (dict_get members "item_id"));
        destruct (truthy (stream_sid st)); cbn; try exact H;
        apply Forall_app; split; try exact H; repeat constructor.
    + intros st _. constructor.
    + constructor.
    + intros sid. constructor.
Qed.

End ReachableSessions.

(** An AI message at which [send_to_twilio] raises has changed nothing
    and sent nothing. *)
Lemma send_to_twilio_body_raise (m : wire) (st st' : session) (e : exn)
    (out : list out_msg) :
  send_to_twilio_body m st = (Raise e, st', out) -> st' = st /\ out = [].
Proof.
  destruct m as [|doc]; [intros H; injection H; auto|].
  destruct doc as [ | | | | |members];
    try (intros H; injection H; auto).
  destruct (assoc "type" members) as [type|] eqn:Et.
  2:{ unfold send_to_twilio_body. run_M. rewrite Et. cbn.
      intros H; injection H; auto. }
  destruct (is_str type "response.audio.delta") eqn:Ed.
  - apply is_str_true in Ed. subst type.
    destruct (assoc "delta" members) as [d|] eqn:Edelta.
    + destruct (b64decode d) as [raw|e'] eqn:Edec.
      * destruct d as [ | | |s| | ]; try discriminate.
        unfold b64decode in Edec.
        destruct (Base64.is_ascii s) eqn:Ea; [|discriminate].
        destruct (Base64.a2b_base64 s) as [raw'|] eqn:Er; [|discriminate].
        rewrite (send_to_twilio_body_delta st members s raw' Et Edelta Ea Er).
        discriminate.
      * unfold send_to_twilio_body, dict_contains. run_M.
        rewrite Et. cbn. rewrite Edelta. cbn. rewrite Edec.
        intros H; injection H; auto.
    + unfold send_to_twilio_body, dict_contains. run_M.
      rewrite Et. cbn. rewrite Edelta. cbn. discriminate.
  - destruct (is_str type "input_audio_buffer.speech_started") eqn:Es.
    + apply is_str_true in Es. subst type.
      rewrite (send_to_twilio_body_speech_started st members Et).
      destruct (truthy (last_assistant_item st)); [|discriminate].
      destruct (mark_queue st) as [|mk q] eqn:Eq.
      { rewrite handle_speech_started_event_idle; [discriminate|auto]. }
      destruct (response_start_timestamp_twilio st) as [t0|] eqn:Er.
      * rewrite (handle_speech_started_event_fires st t0);
          [discriminate | rewrite Eq; discriminate | exact Er].
      * rewrite handle_speech_started_event_idle; [discriminate|auto].
    + rewrite (send_to_twilio_body_other st members type Et Ed Es).
      discriminate.
Qed.

Section OutboundFailure.

Variable int_of_str : string -> option Z.

(** What one message of the telephony leg makes the relay send. *)
Lemma receive_from_twilio_body_sends (openai_ws_open : bool) (m : wire)
    (st : session) :
  let out := snd (receive_from_twilio_body int_of_str openai_ws_open m st) in
  out = [] \/
  exists payload,
    out = [ToOpenAI (audio_append payload)] /\
    openai_ws_open = true /\ openai_ws_bound st = true.
Proof.
  cbn zeta.
  destruct m as [|doc]; [left; reflexivity|].
  destruct doc as [ | | | | |members]; try (left; reflexivity).
  destruct (assoc "event" members) as [event|] eqn:Ee.
  2:{ left. unfold receive_from_twilio_body. run_M. rewrite Ee.
      reflexivity. }
  unfold receive_from_twilio_body, openai_ws. run_M. rewrite Ee. cbn.
  destruct (is_str event "media") eqn:Em.
  - cbn. destruct (openai_ws_bound st) eqn:Eb; cbn; [|left; reflexivity].
    destruct openai_ws_open; cbn.
    + destruct (assoc "media" members) as [media|]; cbn;
        [|left; reflexivity].
      destruct (subscript media "timestamp") as [ts|]; cbn;
        [|left; reflexivity].
      destruct (py_int int_of_str ts) as [t|]; cbn; [|left; reflexivity].
      destruct (subscript media "payload") as [payload|]; cbn;
        [|left; reflexivity].
      right. exists payload. auto.
    + apply is_str_true in Em. subst event. left. reflexivity.
  - cbn. destruct (is_str event "start") eqn:Es.
    + destruct (assoc "start" members) as [start|]; cbn;
        [|left; reflexivity].
      destruct (subscript start "streamSid") as [sid|]; cbn;
        left; reflexivity.
    + destruct (is_str event "mark").
      * destruct (mark_queue st); left; reflexivity.
      * left. reflexivity.
Qed.

(** The inbound loop never binds or unbinds the AI connection. *)
Lemma receive_from_twilio_body_keeps_binding (openai_ws_open : bool)
    (m : wire) (st : session) :
  openai_ws_bound
    (snd (fst (receive_from_twilio_body int_of_str openai_ws_open m st)))
  = openai_ws_bound st.
Proof.
  destruct (receive_from_twilio_body_shape int_of_str openai_ws_open m st)
    as [->|[[t ->]|[[sid ->]| ->]]]; try reflexivity.
  unfold after_mark. destruct (mark_queue st); reflexivity.
Qed.

(** X8. Whatever the telephony leg sends, the inbound loop leaves the
    recorded item, the recorded response start and the binding of the AI
    connection as they are and never lengthens the mark queue; it writes
    nothing to the telephony connection, and to the AI connection at most
    one [input_audio_buffer.append]. *)
Theorem inbound_message_frame (openai_ws_open : bool) (m : wire)
    (st : session) :
  let st' :=
    snd (fst (receive_from_twilio_body int_of_str openai_ws_open m st)) in
  let out := snd (receive_from_twilio_body int_of_str openai_ws_open m st) in
  last_assistant_item st' = last_assistant_item st /\
  response_start_timestamp_twilio st' = response_start_timestamp_twilio st /\
  openai_ws_bound st' = openai_ws_bound st /\
  (List.length (mark_queue st') <= List.length (mark_queue st))%nat /\
  (out = [] \/
   exists payload,
     out = [ToOpenAI (audio_append payload)] /\
     openai_ws_open = true /\ openai_ws_bound st = true).
Proof.
  cbn zeta.
  pose proof (receive_from_twilio_body_sends openai_ws_open m st) as Hout.
  cbn zeta in Hout.
  destruct (receive_from_twilio_body_shape int_of_str openai_ws_open m st)
    as [E|[[t E]|[[sid E]|E]]]; rewrite E.
  - repeat split; solve [reflexivity | exact Hout | apply Nat.le_refl].
  - cbn. repeat split; solve [reflexivity | exact Hout | apply Nat.le_refl].
  - cbn. repeat split; solve [reflexivity | exact Hout | apply Nat.le_refl].
  - unfold after_mark. destruct (mark_queue st) as [|mk q] eqn:Eq.
    + repeat split;
        solve [reflexivity | exact Hout | rewrite ?Eq; apply Nat.le_refl].
    + cbn. repeat split;
        solve [reflexivity | exact Hout
              | rewrite ?Eq; cbn; apply Nat.le_succ_diag_r].
Qed.

(** Nothing of what the inbound loop sends goes to the telephony
    connection. *)
Lemma inbound_sends_nothing_to_twilio (openai_ws_open : bool) (m : wire)
    (st : session) :
  filter is_to_twilio
    (snd (receive_from_twilio_body int_of_str openai_ws_open m st)) = [].
Proof.
  destruct (receive_from_twilio_body_sends openai_ws_open m st)
    as [-> | (payload & -> & _)]; reflexivity.
Qed.

Lemma run_tx_ended_twilio_silent (schedule : list arrival) :
  forall r,
    tx_running r = false ->
    filter is_to_twilio (sent (run int_of_str r schedule))
    = filter is_to_twilio (sent r) /\
    tx_running (run int_of_str r schedule) = false.
Proof.
  induction schedule as [|a rest IH]; intros r Htx; [auto|].
  unfold run. cbn [fold_left].
  change (fold_left (deliver int_of_str) rest ?x)
    with (run int_of_str x rest).
  destruct a as [o m|m]; unfold deliver.
  - destruct (rx_running r); [|apply IH; exact Htx].
    pose proof (inbound_sends_nothing_to_twilio o m (sess r)) as Hsilent.
    destruct (receive_from_twilio_body int_of_str o m (sess r))
      as [[[u|e] st'] out]; cbn [snd] in Hsilent.
    + destruct (IH (mkRelay st' (sent r ++ out) true (tx_running r)
                      (escaped r)) Htx) as [Hs Ht].
      rewrite Hs, Ht. cbn [sent].
      rewrite filter_app, Hsilent, app_nil_r. auto.
    + destruct (IH (mkRelay st' (sent r ++ out) false (tx_running r)
                      (Some e)) Htx) as [Hs Ht].
      rewrite Hs, Ht. cbn [sent].
      rewrite filter_app, Hsilent, app_nil_r. auto.
  - rewrite Htx. apply IH. exact Htx.
Qed.

(** X6. An AI message at which [send_to_twilio] raises (a frame that is
    not JSON, a document without a type, a delta that is not base64) ends
    that coroutine inside its own handler: nothing is changed or sent, no
    exception reaches [handle_media_stream], the inbound loop goes on as
    before, and whatever arrives afterwards, nothing more is ever written
    to the telephony connection. *)
Theorem outbound_failure_is_silent_and_final (r : relay) (m : wire)
    (e : exn) (st' : session) (out : list out_msg)
    (schedule : list arrival) :
  tx_running r = true ->
  send_to_twilio_body m (sess r) = (Raise e, st', out) ->
  let r1 := deliver int_of_str r (OnOpenAI m) in
  sess r1 = sess r /\ sent r1 = sent r /\
  tx_running r1 = false /\ rx_running r1 = rx_running r /\
  escaped r1 = escaped r /\
  filter is_to_twilio (sent (run int_of_str r1 schedule))
  = filter is_to_twilio (sent r).
Proof.
  intros Htx Hraise. cbn zeta.
  destruct (send_to_twilio_body_raise m (sess r) st' e out Hraise)
    as [-> ->].
  unfold deliver. rewrite Htx, Hraise. cbn [sess sent tx_running rx_running
                                            escaped].
  rewrite app_nil_r. repeat split; try reflexivity.
  destruct (run_tx_ended_twilio_silent schedule
              (mkRelay (sess r) (sent r) (rx_running r) false (escaped r))
              eq_refl) as [Hs _].
  exact Hs.
Qed.

End OutboundFailure.

Section ResponseStart.

Variable int_of_str : string -> option Z.

Lemma run_unbound_silent (schedule : list arrival) :
  forall r,
    openai_ws_bound (sess r) = false -> tx_running r = false ->
    sent r = [] ->
    let r' := run int_of_str r schedule in
    openai_ws_bound (sess r') = false /\ tx_running r' = false /\
    sent r' = [].
Proof.
  induction schedule as [|a rest IH]; intros r Hb Htx Hs; [cbn; auto|].
  cbn zeta. unfold run. cbn [fold_left].
  change (fold_left (deliver int_of_str) rest ?x)
    with (run int_of_str x rest).
  destruct a as [o m|m]; unfold deliver.
  - destruct (rx_running r); [|apply IH; assumption].
    pose proof (receive_from_twilio_body_keeps_binding int_of_str o m
                  (sess r)) as Hbound.
    pose proof (receive_from_twilio_body_sends int_of_str o m (sess r))
      as Hout.
    cbn zeta in Hout.
    destruct (receive_from_twilio_body int_of_str o m (sess r))
      as [[res st'] out]; cbn [snd fst] in Hbound, Hout.
    assert (Hnil : out = []).
    { destruct Hout as [H|(payload & _ & _ & H)]; [exact H|congruence]. }
    subst out.
    destruct res as [u|e]; apply IH; cbn [sess sent tx_running];
      try assumption; try congruence; now rewrite Hs.
  - rewrite Htx. apply IH; assumption.
Qed.

(** X7. When the first message on the telephony connection decodes but
    is not a start event, [openai_ws] is never bound: [send_to_twilio]
    ends before it handles anything, so whatever arrives afterwards on
    either connection nothing is ever sent, and every media frame raises
    [NameError] in the inbound loop. *)
Theorem no_relay_without_initial_start (doc event : json)
    (schedule : list arrival) :
  subscript doc "event" = Return event ->
  is_str event "start" = false ->
  exists r,
    handle_media_stream int_of_str (Encodes doc) schedule = Some r /\
    sent r = [] /\ tx_running r = false /\
    openai_ws_bound (sess r) = false /\
    forall openai_ws_open members,
      assoc "event" members = Some (JStr "media") ->
      receive_from_twilio_body int_of_str openai_ws_open
        (Encodes (JObj members)) (sess r) =
        (Raise (NameError "openai_ws"), sess r, []).
Proof.
  intros He Hs. unfold handle_media_stream.
  assert (Hopen : handle_media_stream_open (Encodes doc) initial_session =
                  (Return tt, initial_session, [])).
  { unfold handle_media_stream_open. run_M. rewrite He. cbn. rewrite Hs.
    reflexivity. }
  rewrite Hopen. eexists. split; [reflexivity|].
  destruct (run_unbound_silent schedule (gather initial_session)
              eq_refl eq_refl eq_refl) as (Hb & Htx & Hsent).
  split; [exact Hsent|]. split; [exact Htx|]. split; [exact Hb|].
  intros o members Hm. unfold receive_from_twilio_body, openai_ws. run_M.
  rewrite Hm. cbn. rewrite Hb. reflexivity.
Qed.

(** X4. The response start is cleared by an interruption only.  When a
    response has played to its end and left T0 recorded, the first delta
    of the next response records nothing new, whatever the clock is by
    then; if the caller then speaks at T1, the truncate sent for the item
    of that next response carries T1 - T0, the time since the earlier
    response began. *)
Theorem response_start_outlives_uninterrupted_response (st : session)
    delta s raw item frame media ts payload speech (T0 T1 : Z) :
  openai_ws_bound st = true ->
  truthy (stream_sid st) = true ->
  response_start_timestamp_twilio st = Some T0 ->
  assoc "type" delta = Some (JStr "response.audio.delta") ->
  assoc "delta" delta = Some (JStr s) ->
  b64decode (JStr s) = Return raw ->
  assoc "item_id" delta = Some item ->
  truthy item = true ->
  assoc "event" frame = Some (JStr "media") ->
  assoc "media" frame = Some (JObj media) ->
  assoc "timestamp" media = Some ts ->
  py_int int_of_str ts = Return T1 ->
  assoc "payload" media = Some payload ->
  assoc "type" speech = Some (JStr "input_audio_buffer.speech_started") ->
  sent (run int_of_str (gather st)
          [OnOpenAI (Encodes (JObj delta));
           OnTwilio true (Encodes (JObj frame));
           OnOpenAI (Encodes (JObj speech))]) =
    [ToTwilio (audio_delta (stream_sid st) (b64encode raw));
     ToTwilio (mark_event (stream_sid st));
     ToOpenAI (audio_append payload);
     ToOpenAI (truncate_event item (T1 - T0));
     ToTwilio (clear_event (stream_sid st))].
Proof.
  intros Hb Hsid Hrst Ht Hd Hdec Hitem Hty He Hm Hts Hint Hp Hs.
  assert (Hparts : Base64.is_ascii s = true /\
                   Base64.a2b_base64 s = Some raw).
  { unfold b64decode in Hdec.
    destruct (Base64.is_ascii s); [|discriminate].
    destruct (Base64.a2b_base64 s); [|discriminate].
    injection Hdec as ->. auto. }
  destruct Hparts as [Ha Hr].
  assert (Hget : dict_get delta "item_id" = item).
  { unfold dict_get. now rewrite Hitem. }
  set (st1 := after_delta delta st).
  assert (E1 : st1 =
    set_mark_queue (mark_queue st ++ ["responsePart"])
      (set_last_assistant_item item st)).
  { unfold st1, after_delta. rewrite Hrst, Hget, Hty, Hsid. reflexivity. }
  unfold run, gather.
  cbn [fold_left deliver rx_running tx_running sess sent escaped].
  rewrite Hb.
  rewrite (send_to_twilio_body_delta st delta s raw Ht Hd Ha Hr).
  fold st1. rewrite Hsid.
  cbn [rx_running tx_running sess sent escaped].
  rewrite (receive_media_open int_of_str st1 frame media ts T1 payload);
    try assumption; [|rewrite E1; exact Hb].
  cbn [rx_running tx_running sess sent escaped].
  rewrite (send_to_twilio_body_speech_started _ speech Hs).
  assert (Hq : mark_queue (set_latest_media_timestamp T1 st1) <> []).
  { rewrite E1. cbn. destruct (mark_queue st); discriminate. }
  assert (Hstart :
    response_start_timestamp_twilio (set_latest_media_timestamp T1 st1)
    = Some T0).
  { rewrite E1. exact Hrst. }
  rewrite (handle_speech_started_event_fires _ T0 Hq Hstart).
  rewrite E1. cbn. rewrite Hty. reflexivity.
Qed.

End ResponseStart.

(** X5. When every mark has been acknowledged, a speech-started event
    interrupts nothing: no truncate and no clear are sent, and the item
    and the response start stay recorded as they are. *)
Theorem no_interruption_without_pending_marks (st : session) speech :
  assoc "type" speech = Some (JStr "input_audio_buffer.speech_started") ->
  mark_queue st = [] ->
  send_to_twilio_body (Encodes (JObj speech)) st = (Return tt, st, []).
Proof.
  intros Hs Hq. rewrite (send_to_twilio_body_speech_started st speech Hs).
  destruct (truthy (last_assistant_item st)); [|reflexivity].
  apply handle_speech_started_event_idle. left. exact Hq.
Qed.

(** X9. For every audio delta that decodes, canonical or not, the payload
    of the media frame sent to the telephony connection is canonical
    base64 text that decodes to the same bytes: the audio is passed on
    unchanged. *)
Theorem forwarded_audio_is_unchanged (st : session) members (delta : string)
    (raw : list byte) :
  assoc "type" members = Some (JStr "response.audio.delta") ->
  assoc "delta" members = Some (JStr delta) ->
  b64decode (JStr delta) = Return raw ->
  exists payload st' marks,
    send_to_twilio_body (Encodes (JObj members)) st =
      (Return tt, st',
       ToTwilio (audio_delta (stream_sid st) payload) :: marks) /\
    b64decode (JStr payload) = Return raw /\
    Base64.canonical payload = true.
Proof.
  intros Ht Hd Hdec.
  assert (Hparts : Base64.is_ascii delta = true /\
                   Base64.a2b_base64 delta = Some raw).
  { unfold b64decode in Hdec.
    destruct (Base64.is_ascii delta); [|discriminate].
    destruct (Base64.a2b_base64 delta); [|discriminate].
    injection Hdec as ->. auto. }
  destruct Hparts as [Ha Hr].
  exists (b64encode raw). eexists. eexists. split; [|split].
  - exact (send_to_twilio_body_delta st members delta raw Ht Hd Ha Hr).
  - unfold b64decode, b64encode.
    now rewrite Base64Facts.is_ascii_b2a, Base64Facts.a2b_b2a.
  - apply Base64Facts.canonical_b2a.
Qed.

(* ================================================================== *)
(** * The registry of calls                                             *)
(* ================================================================== *)

Module CallsFacts.
Import Calls.

Lemma lookup_remove_same (sid : string) (calls : registry) :
  lookup sid (remove sid calls) = None.
Proof.
  induction calls as [|[k entry] rest IH]; [reflexivity|].
  cbn [remove]. destruct (String.eqb k sid) eqn:E; [exact IH|].
  cbn [lookup]. now rewrite E.
Qed.

Lemma lookup_remove_other (sid other : string) (calls : registry) :
  other <> sid ->
  lookup other (remove sid calls) = lookup other calls.
Proof.
  intros Hne. induction calls as [|[k entry] rest IH]; [reflexivity|].
  cbn [remove lookup]. destruct (String.eqb k sid) eqn:E.
  - apply String.eqb_eq in E. subst k.
    destruct (String.eqb sid other) eqn:E'; [|exact IH].
    apply String.eqb_eq in E'. congruence.
  - cbn [lookup]. destruct (String.eqb k other); [reflexivity|exact IH].
Qed.

Lemma remove_absent (sid : string) (calls : registry) :
  lookup sid calls = None -> remove sid calls = calls.
Proof.
  induction calls as [|[k entry] rest IH]; [reflexivity|].
  cbn [lookup remove]. destruct (String.eqb k sid); [discriminate|].
  intros H. now rewrite IH.
Qed.

Lemma lookup_store_same (sid : string) (entry : call_entry)
    (calls : registry) :
  lookup sid (store sid entry calls) = Some entry.
Proof. unfold store. cbn [lookup]. now rewrite String.eqb_refl. Qed.

Lemma lookup_store_other (sid other : string) (entry : call_entry)
    (calls : registry) :
  other <> sid ->
  lookup other (store sid entry calls) = lookup other calls.
Proof.
  intros Hne. unfold store. cbn [lookup].
  destruct (String.eqb sid other) eqn:E.
  - apply String.eqb_eq in E. congruence.
  - now apply lookup_remove_other.
Qed.

Lemma distinct_keys_remove (sid : string) (calls : registry) :
  distinct_keys calls -> distinct_keys (remove sid calls).
Proof.
  induction calls as [|[k entry] rest IH]; [auto|].
  cbn [distinct_keys remove]. intros [Hk Hrest].
  destruct (String.eqb k sid) eqn:E; [auto|].
  cbn [distinct_keys]. split; [|auto].
  rewrite lookup_remove_other; [exact Hk|].
  intros Heq. subst sid. now rewrite String.eqb_refl in E.
Qed.

Lemma distinct_keys_store (sid : string) (entry : call_entry)
    (calls : registry) :
  distinct_keys calls -> distinct_keys (store sid entry calls).
Proof.
  intros H. unfold store. cbn [distinct_keys]. split.
  - apply lookup_remove_same.
  - now apply distinct_keys_remove.
Qed.

(** X10. A status callback with a final status for a registered call
    asks for the connection of that call to be closed and removes the
    call from the registry; every other call stays registered as it was,
    and the same callback delivered once more changes nothing. *)
Theorem final_status_unregisters_call (sid : string)
    (call_status : option string) (entry : call_entry) (w : world) :
  lookup sid (active_calls w) = Some entry ->
  is_final_status call_status = true ->
  exists w',
    call_status_callback (Some sid) call_status w = (StatusSuccess, w') /\
    lookup sid (active_calls w') = None /\
    close_requests w' = close_requests w ++ [entry_openai_ws entry] /\
    (forall other, other <> sid ->
       lookup other (active_calls w') = lookup other (active_calls w)) /\
    session_updates w' = session_updates w /\
    call_status_callback (Some sid) call_status w' = (StatusSuccess, w').
Proof.
  intros Hl Hf. eexists. unfold call_status_callback at 1.
  rewrite Hl, Hf. split; [reflexivity|]. cbn [active_calls close_requests
                                              session_updates].
  split; [apply lookup_remove_same|]. split; [reflexivity|].
  split; [intros other Hne; now apply lookup_remove_other|].
  split; [reflexivity|].
  unfold call_status_callback. cbn [active_calls].
  now rewrite lookup_remove_same.
Qed.

(** X11. A status callback without a call sid, for a call that is not
    registered, or with a status that is not final changes nothing: no
    call is removed and no connection is closed. *)
Theorem other_status_callbacks_change_nothing
    (call_sid call_status : option string) (w : world) :
  match call_sid with
  | Some sid => lookup sid (active_calls w) = None
  | None => True
  end \/ is_final_status call_status = false ->
  call_status_callback call_sid call_status w = (StatusSuccess, w).
Proof.
  intros H. unfold call_status_callback.
  destruct call_sid as [sid|]; [|reflexivity].
  destruct (lookup sid (active_calls w)) as [entry|] eqn:El; [|reflexivity].
  destruct H as [H|H]; [discriminate|]. now rewrite H.
Qed.

(** X12. When [make_outbound_call] fails, at the connection, at the
    session update or at the creation of the call, the reply is the 500
    reply and the registry is as before.  No close is asked for either:
    a connection that was opened before the failure stays open and
    belongs to no call. *)
Theorem failed_outbound_call_registers_nothing (host : string)
    (twilio_phone_number : option string) (request : call_request)
    (connect : connect_result) (send_ok : bool) (create : create_result)
    (w : world) :
  connect = ConnectRaises \/ send_ok = false \/ create = CreateRaises ->
  exists w',
    make_outbound_call host twilio_phone_number request connect send_ok
      create w = (FailedToInitiate, w') /\
    active_calls w' = active_calls w /\
    close_requests w' = close_requests w.
Proof.
  intros H. unfold make_outbound_call, initialize_session.
  destruct connect as [ws|]; [|eexists; repeat split; reflexivity].
  destruct send_ok; [|eexists; repeat split; reflexivity].
  destruct create as [sid|]; [|eexists; repeat split; reflexivity].
  destruct H as [H|[H|H]]; discriminate.
Qed.

(** X13. A call placed with success is registered under its sid with the
    connection that was opened and initialised for it; a final status
    callback for that sid then closes that connection and, when the sid
    was new, leaves the registry exactly as it was before the call. *)
Theorem outbound_call_round_trip (host : string)
    (twilio_phone_number : option string) (request : call_request)
    (openai_ws : conn) (sid : string) (call_status : option string)
    (w : world) :
  lookup sid (active_calls w) = None ->
  is_final_status call_status = true ->
  exists w1 w2,
    make_outbound_call host twilio_phone_number request
      (Connects openai_ws) true (Creates sid) w = (CallInitiated sid, w1) /\
    lookup sid (active_calls w1) = Some (mkEntry openai_ws "initiating") /\
    session_updates w1 = session_updates w ++ [openai_ws] /\
    call_status_callback (Some sid) call_status w1 = (StatusSuccess, w2) /\
    active_calls w2 = active_calls w /\
    close_requests w2 = close_requests w ++ [openai_ws].
Proof.
  intros Hfresh Hf.
  set (w1 :=
    mkWorld (store sid (mkEntry openai_ws "initiating") (active_calls w))
      (session_updates w ++ [openai_ws]) (close_requests w)
      (call_requests w ++
       [mkParams (phone_number request) twilio_phone_number
          (outbound_handler_url host request) true
          ("https://" ++ host ++ "/call-status")])).
  exists w1.
  exists (mkWorld (remove sid (active_calls w1)) (session_updates w1)
            (close_requests w1 ++ [openai_ws]) (call_requests w1)).
  split; [reflexivity|].
  split; [apply lookup_store_same|].
  split; [reflexivity|].
  split.
  - unfold call_status_callback.
    replace (lookup sid (active_calls w1))
      with (Some (mkEntry openai_ws "initiating"))
      by (symmetry; apply lookup_store_same).
    rewrite Hf. reflexivity.
  - split; [|reflexivity].
    cbn [active_calls w1]. unfold store. cbn [remove].
    rewrite String.eqb_refl.
    rewrite (remove_absent sid (active_calls w) Hfresh).
    exact (remove_absent sid (active_calls w) Hfresh).
Qed.

(** The opening with the registry gives the session of
    [handle_media_stream_open]. *)
Lemma handle_media_stream_connect_session (first : wire)
    (connect : connect_result) (send_ok : bool) (w w' : world)
    (st : session) (ws : option conn) :
  handle_media_stream_connect first connect send_ok w = Opened st ws w' ->
  handle_media_stream_open first initial_session = (Return tt, st, []).
Proof.
  unfold handle_media_stream_connect, handle_media_stream_open. run_M.
  destruct (json_loads first) as [data|]; cbn; [|discriminate].
  destruct (subscript data "event") as [event|]; cbn; [|discriminate].
  destruct (is_str event "start"); cbn.
  - destruct (subscript data "start") as [start|]; cbn; [|discriminate].
    destruct (subscript start "streamSid") as [sid|]; cbn; [|discriminate].
    destruct (hashable _); cbn; [|discriminate].
    destruct (match _ with JStr s => lookup s (active_calls w) | _ => None end)
      as [entry|].
    + intros H. injection H as <- _ _. reflexivity.
    + destruct connect as [c|]; [|discriminate].
      unfold initialize_session. destruct send_ok; [|discriminate].
      intros H. injection H as <- _ _. reflexivity.
  - intros H. injection H as <- _ _. reflexivity.
Qed.

(** A media stream whose start event names a registered call takes the
    connection registered for that call: no new connection is opened and
    no [session.update] is written. *)
Lemma media_stream_takes_registered_connection
    (members start : list (string * json))
    (sid : json) (call_sid : string) (entry : call_entry)
    (connect : connect_result) (send_ok : bool) (w : world) :
  assoc "event" members = Some (JStr "start") ->
  assoc "start" members = Some (JObj start) ->
  assoc "streamSid" start = Some sid ->
  assoc "callSid" start = Some (JStr call_sid) ->
  lookup call_sid (active_calls w) = Some entry ->
  handle_media_stream_connect (Encodes (JObj members)) connect send_ok w =
    Opened (set_openai_ws_bound true (set_stream_sid sid initial_session))
      (Some (entry_openai_ws entry)) w.
Proof.
  intros He Hs Hsid Hc Hl. unfold handle_media_stream_connect.
  cbn. rewrite He. cbn. rewrite Hs. cbn. rewrite Hsid.
  unfold dict_get. rewrite Hc. cbn. rewrite Hl. reflexivity.
Qed.

(** X14. After a call was placed with success, the media stream whose
    start event carries the sid of that call runs on the connection that
    was opened when the call was placed: it opens no connection of its
    own, whatever the backend would answer, and writes no second
    [session.update], so that the connection has been initialised exactly
    once. *)
Theorem placed_call_streams_on_its_connection (host : string)
    (twilio_phone_number : option string) (request : call_request)
    (openai_ws : conn) (call_sid : string)
    (members start : list (string * json)) (sid : json)
    (connect : connect_result) (send_ok : bool) (w : world) :
  assoc "event" members = Some (JStr "start") ->
  assoc "start" members = Some (JObj start) ->
  assoc "streamSid" start = Some sid ->
  assoc "callSid" start = Some (JStr call_sid) ->
  exists w1,
    make_outbound_call host twilio_phone_number request
      (Connects openai_ws) true (Creates call_sid) w =
      (CallInitiated call_sid, w1) /\
    handle_media_stream_connect (Encodes (JObj members)) connect send_ok w1 =
      Opened (set_openai_ws_bound true (set_stream_sid sid initial_session))
        (Some openai_ws) w1 /\
    session_updates w1 = session_updates w ++ [openai_ws].
Proof.
  intros He Hs Hsid Hc. eexists. split; [reflexivity|]. split; [|reflexivity].
  apply (media_stream_takes_registered_connection members start sid call_sid
           (mkEntry openai_ws "initiating")); try assumption.
  cbn [active_calls]. apply lookup_store_same.
Qed.

(** X15. A media stream whose start event names no registered call opens
    its own connection and writes one [session.update] to it before the
    relay starts; the registry is not touched.  When the connection or
    the write fails the handler raises and nothing was changed. *)
Theorem media_stream_initialises_new_connection
    (members start : list (string * json)) (sid : json)
    (connect : connect_result) (send_ok : bool) (w : world) :
  assoc "event" members = Some (JStr "start") ->
  assoc "start" members = Some (JObj start) ->
  assoc "streamSid" start = Some sid ->
  hashable (dict_get start "callSid") = true ->
  match dict_get start "callSid" with
  | JStr s => lookup s (active_calls w) = None
  | _ => True
  end ->
  handle_media_stream_connect (Encodes (JObj members)) connect send_ok w =
    match connect, send_ok with
    | Connects openai_ws, true =>
        Opened (set_openai_ws_bound true (set_stream_sid sid initial_session))
          (Some openai_ws)
          (mkWorld (active_calls w) (session_updates w ++ [openai_ws])
             (close_requests w) (call_requests w))
    | _, _ => OpeningRaises w
    end.
Proof.
  intros He Hs Hsid Hh Hl. unfold handle_media_stream_connect.
  cbn. rewrite He. cbn. rewrite Hs. cbn. rewrite Hsid, Hh.
  assert (Hnone :
    match dict_get start "callSid" with
    | JStr s => lookup s (active_calls w)
    | _ => None
    end = None).
  { destruct (dict_get start "callSid"); auto. }
  rewrite Hnone. unfold initialize_session.
  destruct connect as [ws|]; [|reflexivity].
  destruct send_ok; reflexivity.
Qed.

End CallsFacts.

(* ================================================================== *)
(** * The ElevenLabs variant                                            *)
(* ================================================================== *)

Module ElevenLabsFacts.
Import ElevenLabs.

(** The loop over a list of messages followed by another. *)
Lemma message_loop_app (first rest : list (http_result * wire))
    (stream_sid : json) :
  message_loop (first ++ rest) stream_sid =
  match message_loop first stream_sid with
  | (Return _, sid, out) =>
      match message_loop rest sid with
      | (r, sid', out') => (r, sid', out ++ out')
      end
  | (Raise e, sid, out) => (Raise e, sid, out)
  end.
Proof.
  revert stream_sid.
  induction first as [|[answer message] more IH]; intros stream_sid.
  - cbn. destruct (message_loop rest stream_sid) as [[r sid] out].
    reflexivity.
  - cbn [app message_loop].
    destruct (handle_message answer message stream_sid) as [[[u|e] sid] out];
      [|reflexivity].
    rewrite IH.
    destruct (message_loop more sid) as [[[u'|e'] sid1] out1];
      [|reflexivity].
    destruct (message_loop rest sid1) as [[r sid2] out2].
    now rewrite app_assoc.
Qed.

(** A fatal message raises before anything is changed or sent. *)
Lemma handle_message_fatal (answer : http_result) (message : wire)
    (stream_sid : json) :
  is_fatal message = true ->
  exists e, handle_message answer message stream_sid = (Raise e, stream_sid, []).
Proof.
  unfold is_fatal, handle_message.
  destruct (json_loads message) as [data|e]; [|eauto].
  destruct (subscript data "event") as [event|e]; [|eauto].
  destruct (is_str event "start"); [|discriminate].
  destruct (subscript data "start") as [start|e]; [|eauto].
  destruct (subscript start "streamSid") as [sid|e]; [discriminate|eauto].
Qed.

(** X16. For a start event, when the synthesis succeeds, exactly one
    media frame is sent; it is tagged with the stream id of that very
    event, and its payload is base64 text that decodes to the bytes the
    API returned. *)
Theorem start_event_sends_synthesised_audio (answer : http_result)
    (members start : list (string * json)) (sid stream_sid : json)
    (audio_content : list byte) :
  assoc "event" members = Some (JStr "start") ->
  assoc "start" members = Some (JObj start) ->
  assoc "streamSid" start = Some sid ->
  text_to_speech answer = inr audio_content ->
  exists payload,
    handle_message answer (Encodes (JObj members)) stream_sid =
      (Return tt, sid,
       [JObj [("streamSid", sid); ("event", JStr "media");
              ("media", JObj [("payload", JStr payload)])]]) /\
    b64decode (JStr payload) = Return audio_content.
Proof.
  intros He Hs Hsid Htts. exists (b64encode audio_content). split.
  - unfold handle_message. cbn. rewrite He. cbn. rewrite Hs. cbn.
    rewrite Hsid, Htts. reflexivity.
  - unfold b64decode, b64encode.
    now rewrite Base64Facts.is_ascii_b2a, Base64Facts.a2b_b2a.
Qed.

(** X17. A synthesis that fails, by an exception of the transport or by a
    status code from 400 to 599, is swallowed: no frame is sent for that
    start event, [stream_sid] is the stream id of the event all the same,
    and the loop goes on with the messages that follow. *)
Theorem failed_synthesis_is_swallowed (answer : http_result)
    (members start : list (string * json)) (sid stream_sid : json)
    (rest : list (http_result * wire)) :
  assoc "event" members = Some (JStr "start") ->
  assoc "start" members = Some (JObj start) ->
  assoc "streamSid" start = Some sid ->
  answer = RequestRaises \/
  (exists status_code content,
     answer = Response status_code content /\
     400 <= status_code < 600) ->
  handle_message answer (Encodes (JObj members)) stream_sid =
    (Return tt, sid, []) /\
  message_loop ((answer, Encodes (JObj members)) :: rest) stream_sid =
  message_loop rest sid.
Proof.
  intros He Hs Hsid Hfail.
  assert (Htts : exists err, text_to_speech answer = inl err).
  { destruct Hfail as [->|(status_code & content & -> & Hlo & Hhi)].
    - eexists. reflexivity.
    - exists (HTTPError status_code). unfold text_to_speech.
      apply Z.leb_le in Hlo. apply Z.ltb_lt in Hhi. now rewrite Hlo, Hhi. }
  destruct Htts as [err Htts].
  assert (Hbody :
    handle_message answer (Encodes (JObj members)) stream_sid =
      (Return tt, sid, [])).
  { unfold handle_message. cbn. rewrite He. cbn. rewrite Hs. cbn.
    rewrite Hsid, Htts. reflexivity. }
  split; [exact Hbody|].
  cbn [message_loop]. rewrite Hbody.
  destruct (message_loop rest sid) as [[r sid'] out]. reflexivity.
Qed.

(** X18. A message that is not JSON, has no event member, or is a start
    event without its stream id ends the handler without an exception
    leaving it: what was sent before stays sent, and no message after it
    is handled, whatever it is. *)
Theorem fatal_message_ends_handler_quietly
    (before rest : list (http_result * wire)) (answer : http_result)
    (message : wire) :
  is_fatal message = true ->
  handle_media_stream (before ++ (answer, message) :: rest) =
  handle_media_stream before.
Proof.
  intros Hfatal. unfold handle_media_stream. rewrite message_loop_app.
  destruct (message_loop before JNull) as [[[u|e] sid] out]; [|reflexivity].
  cbn [message_loop].
  destruct (handle_message_fatal answer message sid Hfatal) as [e ->].
  now rewrite app_nil_r.
Qed.

End ElevenLabsFacts.

(* ================================================================== *)
(** * The further properties at sample inputs                           *)
(* ================================================================== *)

Lemma start_recorded_while_playing_reachable_witness :
  start_recorded_while_playing (sess relay_playing).
Proof.
  apply (start_recorded_while_playing_reachable int_of_digits
           (Encodes (JObj (start_msg (JStr "SD1")))) playing_schedule
           relay_playing).
  reflexivity.
Defined.

Lemma recorded_item_and_tokens_reachable_witness :
  item_recorded_or_none (sess relay_playing) /\
  Forall (fun token => token = "responsePart")
    (mark_queue (sess relay_playing)).
Proof.
  apply (recorded_item_and_tokens_reachable int_of_digits
           (Encodes (JObj (start_msg (JStr "SD1")))) playing_schedule
           relay_playing).
  reflexivity.
Defined.

Lemma response_start_outlives_uninterrupted_response_witness :
  sent (run int_of_digits (gather st_played_out)
          [OnOpenAI (Encodes (JObj (delta_msg "AAAA" "item2")));
           OnTwilio true (Encodes (JObj (media_msg "5650" "AAAA")));
           OnOpenAI (Encodes (JObj speech_started_msg))]) =
    [ToTwilio (audio_delta (JStr "SD1") "AAAA");
     ToTwilio (mark_event (JStr "SD1"));
     ToOpenAI (audio_append (JStr "AAAA"));
     ToOpenAI (truncate_event (JStr "item2") (5650 - 100));
     ToTwilio (clear_event (JStr "SD1"))].
Proof.
  apply (response_start_outlives_uninterrupted_response int_of_digits
           st_played_out (delta_msg "AAAA" "item2") "AAAA"
           (map Base64.byte_of_N [0%N; 0%N; 0%N]) (JStr "item2")
           (media_msg "5650" "AAAA") (media_fields "5650" "AAAA")
           (JStr "5650") (JStr "AAAA") speech_started_msg 100 5650);
    reflexivity.
Defined.

(** The same from the first message on: item2 is truncated at 5550 ms,
    though only 650 ms passed since its first delta. *)
Example second_response_is_truncated_from_first_start :
  option_map sent
    (handle_media_stream int_of_digits
       (Encodes (JObj (start_msg (JStr "SD1")))) second_response_scenario) =
  Some
    [ToOpenAI (audio_append (JStr "AAAA"));
     ToTwilio (audio_delta (JStr "SD1") "AAAA");
     ToTwilio (mark_event (JStr "SD1"));
     ToOpenAI (audio_append (JStr "AAAA"));
     ToTwilio (audio_delta (JStr "SD1") "AAAA");
     ToTwilio (mark_event (JStr "SD1"));
     ToOpenAI (audio_append (JStr "AAAA"));
     ToOpenAI (truncate_event (JStr "item2") 5550);
     ToTwilio (clear_event (JStr "SD1"))].
Proof. reflexivity. Qed.

Lemma no_interruption_without_pending_marks_witness :
  send_to_twilio_body (Encodes (JObj speech_started_msg)) st_played_out =
    (Return tt, st_played_out, []).
Proof.
  apply (no_interruption_without_pending_marks st_played_out
           speech_started_msg); reflexivity.
Defined.

Lemma outbound_failure_is_silent_and_final_witness :
  let r1 := deliver int_of_digits (gather st_started) (OnOpenAI bad_delta) in
  sess r1 = st_started /\ sent r1 = [] /\
  tx_running r1 = false /\ rx_running r1 = true /\
  escaped r1 = None /\
  filter is_to_twilio (sent (run int_of_digits r1 after_bad_delta)) = [].
Proof.
  apply (outbound_failure_is_silent_and_final int_of_digits
           (gather st_started) bad_delta BinasciiError st_started []
           after_bad_delta); reflexivity.
Defined.

Lemma no_relay_without_initial_start_witness :
  exists r,
    handle_media_stream int_of_digits (Encodes connected_msg)
      barge_in_scenario = Some r /\
    sent r = [] /\ tx_running r = false /\
    openai_ws_bound (sess r) = false /\
    forall openai_ws_open members,
      assoc "event" members = Some (JStr "media") ->
      receive_from_twilio_body int_of_digits openai_ws_open
        (Encodes (JObj members)) (sess r) =
        (Raise (NameError "openai_ws"), sess r, []).
Proof.
  apply (no_relay_without_initial_start int_of_digits connected_msg
           (JStr "connected") barge_in_scenario); reflexivity.
Defined.

Lemma forwarded_audio_is_unchanged_witness :
  exists payload st' marks,
    send_to_twilio_body
      (Encodes (JObj (delta_msg "QR==" "item1"))) st_started =
      (Return tt, st', ToTwilio (audio_delta (JStr "SD1") payload) :: marks) /\
    b64decode (JStr payload) = Return [Base64.byte_of_N 65%N] /\
    Base64.canonical payload = true.
Proof.
  apply (forwarded_audio_is_unchanged st_started (delta_msg "QR==" "item1")
           "QR==" [Base64.byte_of_N 65%N]); reflexivity.
Defined.

Lemma final_status_unregisters_call_witness :
  exists w',
    Calls.call_status_callback (Some "CA1") (Some "completed")
      world_one_call = (Calls.StatusSuccess, w') /\
    Calls.lookup "CA1" (Calls.active_calls w') = None /\
    Calls.close_requests w' = [7%nat] /\
    (forall other, other <> "CA1" ->
       Calls.lookup other (Calls.active_calls w') =
       Calls.lookup other (Calls.active_calls world_one_call)) /\
    Calls.session_updates w' = [7%nat] /\
    Calls.call_status_callback (Some "CA1") (Some "completed") w' =
      (Calls.StatusSuccess, w').
Proof.
  apply (CallsFacts.final_status_unregisters_call "CA1" (Some "completed")
           (Calls.mkEntry 7%nat "initiating") world_one_call); reflexivity.
Defined.

Lemma other_status_callbacks_change_nothing_witness :
  Calls.call_status_callback (Some "CA1") (Some "ringing") world_one_call =
    (Calls.StatusSuccess, world_one_call).
Proof.
  apply (CallsFacts.other_status_callbacks_change_nothing (Some "CA1")
           (Some "ringing") world_one_call).
  right. reflexivity.
Defined.

Lemma failed_outbound_call_registers_nothing_witness :
  exists w',
    Calls.make_outbound_call "relay.example" (Some "+15550199")
      sample_request (Calls.Connects 8%nat) true Calls.CreateRaises
      world_one_call = (Calls.FailedToInitiate, w') /\
    Calls.active_calls w' = Calls.active_calls world_one_call /\
    Calls.close_requests w' = Calls.close_requests world_one_call.
Proof.
  apply (CallsFacts.failed_outbound_call_registers_nothing "relay.example"
           (Some "+15550199") sample_request (Calls.Connects 8%nat) true
           Calls.CreateRaises world_one_call).
  right. right. reflexivity.
Defined.

Lemma outbound_call_round_trip_witness :
  exists w1 w2,
    Calls.make_outbound_call "relay.example" (Some "+15550199")
      sample_request (Calls.Connects 8%nat) true (Calls.Creates "CA2")
      world_one_call = (Calls.CallInitiated "CA2", w1) /\
    Calls.lookup "CA2" (Calls.active_calls w1) =
      Some (Calls.mkEntry 8%nat "initiating") /\
    Calls.session_updates w1 = [7%nat; 8%nat] /\
    Calls.call_status_callback (Some "CA2") (Some "failed") w1 =
      (Calls.StatusSuccess, w2) /\
    Calls.active_calls w2 = Calls.active_calls world_one_call /\
    Calls.close_requests w2 = [8%nat].
Proof.
  apply (CallsFacts.outbound_call_round_trip "relay.example"
           (Some "+15550199") sample_request 8%nat "CA2" (Some "failed")
           world_one_call); reflexivity.
Defined.

Lemma placed_call_streams_on_its_connection_witness :
  exists w1,
    Calls.make_outbound_call "relay.example" (Some "+15550199")
      sample_request (Calls.Connects 8%nat) true (Calls.Creates "CA2")
      world_no_call = (Calls.CallInitiated "CA2", w1) /\
    Calls.handle_media_stream_connect
      (Encodes (JObj (start_of_call "SD1" "CA2"))) Calls.ConnectRaises false
      w1 =
      Calls.Opened
        (set_openai_ws_bound true (set_stream_sid (JStr "SD1") initial_session))
        (Some 8%nat) w1 /\
    Calls.session_updates w1 = [8%nat].
Proof.
  apply (CallsFacts.placed_call_streams_on_its_connection "relay.example"
           (Some "+15550199") sample_request 8%nat "CA2"
           (start_of_call "SD1" "CA2") (start_fields "SD1" "CA2")
           (JStr "SD1") Calls.ConnectRaises false world_no_call);
    reflexivity.
Defined.

Lemma media_stream_initialises_new_connection_witness :
  Calls.handle_media_stream_connect
    (Encodes (JObj (start_of_call "SD1" "CA9"))) (Calls.Connects 9%nat) true
    world_one_call =
    Calls.Opened
      (set_openai_ws_bound true (set_stream_sid (JStr "SD1") initial_session))
      (Some 9%nat)
      (Calls.mkWorld (Calls.active_calls world_one_call) [7%nat; 9%nat] [] []).
Proof.
  apply (CallsFacts.media_stream_initialises_new_connection
           (start_of_call "SD1" "CA9") (start_fields "SD1" "CA9")
           (JStr "SD1") (Calls.Connects 9%nat) true world_one_call);
    reflexivity.
Defined.

Lemma start_event_sends_synthesised_audio_witness :
  exists payload,
    ElevenLabs.handle_message (ElevenLabs.Response 200 hello_bytes)
      (Encodes (JObj (start_msg (JStr "SD1")))) JNull =
      (Return tt, JStr "SD1",
       [JObj [("streamSid", JStr "SD1"); ("event", JStr "media");
              ("media", JObj [("payload", JStr payload)])]]) /\
    b64decode (JStr payload) = Return hello_bytes.
Proof.
  apply (ElevenLabsFacts.start_event_sends_synthesised_audio
           (ElevenLabs.Response 200 hello_bytes) (start_msg (JStr "SD1"))
           [("streamSid", JStr "SD1"); ("callSid", JStr "CA1")]
           (JStr "SD1") JNull hello_bytes); reflexivity.
Defined.

Lemma failed_synthesis_is_swallowed_witness :
  ElevenLabs.handle_message (ElevenLabs.Response 401 [])
    (Encodes (JObj (start_msg (JStr "SD1")))) JNull =
    (Return tt, JStr "SD1", []) /\
  ElevenLabs.message_loop
    [(ElevenLabs.Response 401 [], Encodes (JObj (start_msg (JStr "SD1"))));
     (ElevenLabs.Response 200 hello_bytes,
      Encodes (JObj (start_msg (JStr "SD2"))))] JNull =
  ElevenLabs.message_loop
    [(ElevenLabs.Response 200 hello_bytes,
      Encodes (JObj (start_msg (JStr "SD2"))))] (JStr "SD1").
Proof.
  apply (ElevenLabsFacts.failed_synthesis_is_swallowed
           (ElevenLabs.Response 401 []) (start_msg (JStr "SD1"))
           [("streamSid", JStr "SD1"); ("callSid", JStr "CA1")]
           (JStr "SD1") JNull
           [(ElevenLabs.Response 200 hello_bytes,
             Encodes (JObj (start_msg (JStr "SD2"))))]);
    try reflexivity.
  right. exists 401, []. split; [reflexivity|lia].
Defined.

Lemma fatal_message_ends_handler_quietly_witness :
  ElevenLabs.handle_media_stream
    ([(ElevenLabs.Response 200 hello_bytes,
       Encodes (JObj (start_msg (JStr "SD1"))))] ++
     (ElevenLabs.RequestRaises, Undecodable) ::
     [(ElevenLabs.Response 200 hello_bytes,
       Encodes (JObj (start_msg (JStr "SD2"))))]) =
  ElevenLabs.handle_media_stream
    [(ElevenLabs.Response 200 hello_bytes,
      Encodes (JObj (start_msg (JStr "SD1"))))].
Proof.
  apply (ElevenLabsFacts.fatal_message_ends_handler_quietly
           [(ElevenLabs.Response 200 hello_bytes,
             Encodes (JObj (start_msg (JStr "SD1"))))]
           [(ElevenLabs.Response 200 hello_bytes,
             Encodes (JObj (start_msg (JStr "SD2"))))]
           ElevenLabs.RequestRaises Undecodable).
  reflexivity.
Defined.

Section Rearming.

Variable int_of_str : string -> option Z.

(** X19. An interruption re-arms the response start: after it, the first
    delta of the next response records the clock of that moment, and a
    second interruption reports the time since that delta, not since the
    response that was interrupted first. *)
Theorem interruption_rearms_response_start (st : session)
    speech delta s raw item frame2 media2 ts2 payload2
    frame3 media3 ts3 payload3 (T0 T2 T3 : Z) :
  openai_ws_bound st = true ->
  truthy (stream_sid st) = true ->
  truthy (last_assistant_item st) = true ->
  mark_queue st <> [] ->
  response_start_timestamp_twilio st = Some T0 ->
  assoc "type" speech = Some (JStr "input_audio_buffer.speech_started") ->
  assoc "type" delta = Some (JStr "response.audio.delta") ->
  assoc "delta" delta = Some (JStr s) ->
  b64decode (JStr s) = Return raw ->
  assoc "item_id" delta = Some item ->
  truthy item = true ->
  assoc "event" frame2 = Some (JStr "media") ->
  assoc "media" frame2 = Some (JObj media2) ->
  assoc "timestamp" media2 = Some ts2 ->
  py_int int_of_str ts2 = Return T2 ->
  assoc "payload" media2 = Some payload2 ->
  assoc "event" frame3 = Some (JStr "media") ->
  assoc "media" frame3 = Some (JObj media3) ->
  assoc "timestamp" media3 = Some ts3 ->
  py_int int_of_str ts3 = Return T3 ->
  assoc "payload" media3 = Some payload3 ->
  sent (run int_of_str (gather st)
          [OnOpenAI (Encodes (JObj speech));
           OnTwilio true (Encodes (JObj frame2));
           OnOpenAI (Encodes (JObj delta));
           OnTwilio true (Encodes (JObj frame3));
           OnOpenAI (Encodes (JObj speech))]) =
    [ToOpenAI (truncate_event (last_assistant_item st)
                 (latest_media_timestamp st - T0));
     ToTwilio (clear_event (stream_sid st));
     ToOpenAI (audio_append payload2);
     ToTwilio (audio_delta (stream_sid st) (b64encode raw));
     ToTwilio (mark_event (stream_sid st));
     ToOpenAI (audio_append payload3);
     ToOpenAI (truncate_event item (T3 - T2));
     ToTwilio (clear_event (stream_sid st))].
Proof.
  intros Hb Hsid Hlai Hq Hrst Hs Ht Hd Hdec Hitem Hty
         He2 Hm2 Hts2 Hint2 Hp2 He3 Hm3 Hts3 Hint3 Hp3.
  assert (Hparts : Base64.is_ascii s = true /\
                   Base64.a2b_base64 s = Some raw).
  { unfold b64decode in Hdec.
    destruct (Base64.is_ascii s); [|discriminate].
    destruct (Base64.a2b_base64 s); [|discriminate].
    injection Hdec as ->. auto. }
  destruct Hparts as [Ha Hr].
  assert (Hget : dict_get delta "item_id" = item).
  { unfold dict_get. now rewrite Hitem. }
  set (st2 := set_latest_media_timestamp T2 (interrupted st)).
  set (st3 := after_delta delta st2).
  assert (E3 : st3 =
    set_mark_queue ["responsePart"]
      (set_last_assistant_item item
         (set_response_start_timestamp_twilio (Some T2) st2))).
  { unfold st3, after_delta. cbn [response_start_timestamp_twilio st2
      set_latest_media_timestamp interrupted
      set_response_start_timestamp_twilio].
    rewrite Hget, Hty.
    cbn [stream_sid st2 set_latest_media_timestamp interrupted
         set_response_start_timestamp_twilio set_last_assistant_item
         set_mark_queue].
    rewrite Hsid. reflexivity. }
  unfold run, gather.
  cbn [fold_left deliver rx_running tx_running sess sent escaped].
  rewrite Hb.
  rewrite (send_to_twilio_body_speech_started st speech Hs), Hlai.
  rewrite (handle_speech_started_event_fires st T0 Hq Hrst), Hlai.
  cbn [rx_running tx_running sess sent escaped].
  rewrite (receive_media_open int_of_str (interrupted st) frame2 media2 ts2
             T2 payload2); try assumption.
  fold st2. cbn [rx_running tx_running sess sent escaped].
  rewrite (send_to_twilio_body_delta st2 delta s raw Ht Hd Ha Hr).
  fold st3.
  cbn [rx_running tx_running sess sent escaped].
  rewrite (receive_media_open int_of_str st3 frame3 media3 ts3 T3 payload3);
    try assumption; [|rewrite E3; exact Hb].
  cbn [rx_running tx_running sess sent escaped].
  rewrite (send_to_twilio_body_speech_started _ speech Hs).
  assert (Hq4 : mark_queue (set_latest_media_timestamp T3 st3) <> []).
  { rewrite E3. discriminate. }
  assert (Hstart4 :
    response_start_timestamp_twilio (set_latest_media_timestamp T3 st3)
    = Some T2).
  { rewrite E3. reflexivity. }
  rewrite (handle_speech_started_event_fires _ T2 Hq4 Hstart4).
  rewrite E3. cbn. rewrite Hty, Hsid. reflexivity.
Qed.

(** X20. An event of the AI backend that is neither an audio delta with
    its payload nor a speech-started event is only looked at: an error
    event, a response-done event or a delta without its [delta] member
    changes nothing and sends nothing, and the loop of [send_to_twilio]
    goes on. *)
Theorem unhandled_ai_event_changes_nothing (r : relay) members type :
  tx_running r = true ->
  assoc "type" members = Some type ->
  is_str type "response.audio.delta" = false \/
  assoc "delta" members = None ->
  is_str type "input_audio_buffer.speech_started" = false ->
  send_to_twilio_body (Encodes (JObj members)) (sess r) =
    (Return tt, sess r, []) /\
  deliver int_of_str r (OnOpenAI (Encodes (JObj members))) = r.
Proof.
  intros Htx Ht Hd Hs.
  assert (Hbody : send_to_twilio_body (Encodes (JObj members)) (sess r) =
                  (Return tt, sess r, [])).
  { unfold send_to_twilio_body, dict_contains. run_M. rewrite Ht. cbn.
    rewrite Hs.
    destruct Hd as [Hd|Hd]; rewrite Hd; [reflexivity|].
    now rewrite andb_false_r. }
  split; [exact Hbody|].
  unfold deliver. rewrite Htx, Hbody, app_nil_r. destruct r. cbn in *.
  now subst.
Qed.

End Rearming.

Lemma interruption_rearms_response_start_witness :
  sent (run int_of_digits (gather st_playing)
          [OnOpenAI (Encodes (JObj speech_started_msg));
           OnTwilio true (Encodes (JObj (media_msg "5000" "AAAA")));
           OnOpenAI (Encodes (JObj (delta_msg "AAAA" "item2")));
           OnTwilio true (Encodes (JObj (media_msg "5650" "AAAA")));
           OnOpenAI (Encodes (JObj speech_started_msg))]) =
    [ToOpenAI (truncate_event (JStr "item1") (650 - 100));
     ToTwilio (clear_event (JStr "SD1"));
     ToOpenAI (audio_append (JStr "AAAA"));
     ToTwilio (audio_delta (JStr "SD1") "AAAA");
     ToTwilio (mark_event (JStr "SD1"));
     ToOpenAI (audio_append (JStr "AAAA"));
     ToOpenAI (truncate_event (JStr "item2") (5650 - 5000));
     ToTwilio (clear_event (JStr "SD1"))].
Proof.
  apply (interruption_rearms_response_start int_of_digits st_playing
           speech_started_msg (delta_msg "AAAA" "item2") "AAAA"
           (map Base64.byte_of_N [0%N; 0%N; 0%N]) (JStr "item2")
           (media_msg "5000" "AAAA") (media_fields "5000" "AAAA")
           (JStr "5000") (JStr "AAAA")
           (media_msg "5650" "AAAA") (media_fields "5650" "AAAA")
           (JStr "5650") (JStr "AAAA") 100 5000 5650);
    try reflexivity.
  discriminate.
Defined.

Lemma unhandled_ai_event_changes_nothing_witness :
  send_to_twilio_body (Encodes (JObj [("type", JStr "error")]))
    (sess relay_playing) = (Return tt, sess relay_playing, []) /\
  deliver int_of_digits relay_playing
    (OnOpenAI (Encodes (JObj [("type", JStr "error")]))) = relay_playing.
Proof.
  apply (unhandled_ai_event_changes_nothing int_of_digits relay_playing
           [("type", JStr "error")] (JStr "error")); try reflexivity.
  left. reflexivity.
Defined.

(* ================================================================== *)
(** * The audio that crosses the relay, over a whole call               *)

Section AudioOrder.

Variable int_of_str : string -> option Z.

(** The media frames one AI message produces carry the audio of that
    message, and nothing else does. *)
Lemma send_to_twilio_body_media (m : wire) (st : session) :
  flat_map media_payload (snd (send_to_twilio_body m st))
  = delta_audio (OnOpenAI m).
Proof.
  destruct (send_to_twilio_body_sends m st)
    as [[-> ->] | [(raw & -> & ->) | (elapsed & _ & -> & ->)]].
  - reflexivity.
  - destruct (truthy (stream_sid st)); reflexivity.
  - reflexivity.
Qed.

Lemma send_to_twilio_body_appends_nothing (m : wire) (st : session) :
  flat_map appended_audio (snd (send_to_twilio_body m st)) = [].
Proof.
  destruct (send_to_twilio_body_sends m st)
    as [[-> _] | [(raw & _ & ->) | (elapsed & _ & _ & ->)]].
  - reflexivity.
  - destruct (truthy (stream_sid st)); reflexivity.
  - reflexivity.
Qed.

Lemma receive_from_twilio_body_no_media (openai_ws_open : bool) (m : wire)
    (st : session) :
  flat_map media_payload
    (snd (receive_from_twilio_body int_of_str openai_ws_open m st)) = [].
Proof.
  destruct (receive_from_twilio_body_sends int_of_str openai_ws_open m st)
    as [-> | (payload & -> & _)]; reflexivity.
Qed.

(** An iteration of the inbound loop that does not raise hands the AI
    connection the payload of its frame, when it is a media frame received
    while that connection is open, and nothing otherwise. *)
Lemma receive_from_twilio_body_appends (openai_ws_open : bool) (m : wire)
    (st st' : session) (u : unit) (out : list out_msg) :
  receive_from_twilio_body int_of_str openai_ws_open m st
  = (Return u, st', out) ->
  flat_map appended_audio out = frame_audio (OnTwilio openai_ws_open m).
Proof.
  destruct m as [|doc]; [discriminate|].
  destruct doc as [ | | | | |members]; try discriminate.
  unfold frame_audio, dict_get.
  destruct (assoc "event" members) as [event|] eqn:Ee.
  2:{ unfold receive_from_twilio_body. run_M. rewrite Ee. discriminate. }
  unfold receive_from_twilio_body, openai_ws. run_M. rewrite Ee. cbn.
  destruct (is_str event "media") eqn:Em.
  - cbn. destruct (openai_ws_bound st) eqn:Eb; cbn; [|discriminate].
    destruct openai_ws_open; cbn.
    + destruct (assoc "media" members) as [media|]; cbn; [|discriminate].
      destruct media as [ | | | | |fields]; cbn; try discriminate.
      destruct (assoc "timestamp" fields) as [ts|]; cbn; [|discriminate].
      destruct (py_int int_of_str ts) as [t|]; cbn; [|discriminate].
      destruct (assoc "payload" fields) as [payload|]; cbn; [|discriminate].
      intros H. injection H as _ _ <-. reflexivity.
    + apply is_str_true in Em. subst event. cbn.
      intros H. injection H as _ _ <-. reflexivity.
  - cbn. destruct (is_str event "start") eqn:Es.
    + destruct (assoc "start" members) as [start|]; cbn; [|discriminate].
      destruct (subscript start "streamSid") as [sid|]; cbn;
        [|discriminate].
      intros H. injection H as _ _ <-.
      destruct openai_ws_open; reflexivity.
    + destruct (is_str event "mark").
      * destruct (mark_queue st); intros H; injection H as _ _ <-;
          destruct openai_ws_open; reflexivity.
      * intros H. injection H as _ _ <-.
        destruct openai_ws_open; reflexivity.
Qed.

Lemma rx_stays_ended (schedule : list arrival) :
  forall r,
    rx_running r = false ->
    rx_running (run int_of_str r schedule) = false.
Proof.
  induction schedule as [|a rest IH]; intros r Hrx; [exact Hrx|].
  unfold run. cbn [fold_left].
  change (fold_left (deliver int_of_str) rest ?x)
    with (run int_of_str x rest).
  apply IH. destruct a as [o m|m]; unfold deliver.
  - rewrite Hrx. exact Hrx.
  - destruct (tx_running r); [|exact Hrx].
    destruct (send_to_twilio_body m (sess r)) as [[[u|e] st'] out];
      exact Hrx.
Qed.

Lemma tx_stays_ended (schedule : list arrival) (r : relay) :
  tx_running r = false ->
  tx_running (run int_of_str r schedule) = false.
Proof.
  intros Htx.
  destruct (run_tx_ended_twilio_silent int_of_str schedule r Htx)
    as [_ H].
  exact H.
Qed.

(** X21. In a call whose outbound loop is still running at the end, the
    media frames written to the telephony connection carry exactly the
    audio of the deltas the AI backend sent, each decoded and encoded
    again, one frame per delta and in the order of arrival: stream
    restarts, marks and interruptions in between drop, repeat or reorder
    none of them. *)
Theorem outbound_audio_in_order (schedule : list arrival) :
  forall r : relay,
    tx_running (run int_of_str r schedule) = true ->
    flat_map media_payload (sent (run int_of_str r schedule))
    = flat_map media_payload (sent r) ++ flat_map delta_audio schedule.
Proof.
  induction schedule as [|a rest IH]; intros r Hend.
  - cbn. rewrite app_nil_r. reflexivity.
  - unfold run in Hend |- *. cbn [fold_left] in Hend |- *.
    change (fold_left (deliver int_of_str) rest ?x)
      with (run int_of_str x rest) in Hend |- *.
    rewrite (IH _ Hend). cbn [flat_map]. rewrite app_assoc. f_equal.
    destruct (tx_running (deliver int_of_str r a)) eqn:Hstep.
    2:{ rewrite (tx_stays_ended rest _ Hstep) in Hend. discriminate. }
    destruct a as [o m|m]; unfold deliver in Hstep |- *.
    + destruct (rx_running r).
      * pose proof (receive_from_twilio_body_no_media o m (sess r)) as Hn.
        destruct (receive_from_twilio_body int_of_str o m (sess r))
          as [[[u|e] st'] out]; cbn [snd] in Hn; cbn [sent];
          rewrite flat_map_app, Hn; reflexivity.
      * rewrite app_nil_r. reflexivity.
    + destruct (tx_running r) eqn:Htx.
      * pose proof (send_to_twilio_body_media m (sess r)) as Hm.
        destruct (send_to_twilio_body m (sess r))
          as [[[u|e] st'] out]; cbn [snd] in Hm; cbn [sent];
          rewrite flat_map_app, Hm; reflexivity.
      * cbn in Hstep. congruence.
Qed.

(** X22. In a call whose inbound loop is still running at the end, the
    audio handed to the AI connection is exactly the payloads of the media
    frames that arrived while that connection was open, unchanged, one
    [input_audio_buffer.append] per frame and in the order of arrival;
    frames that arrive while it is closed are dropped. *)
Theorem inbound_audio_in_order (schedule : list arrival) :
  forall r : relay,
    rx_running (run int_of_str r schedule) = true ->
    flat_map appended_audio (sent (run int_of_str r schedule))
    = flat_map appended_audio (sent r) ++ flat_map frame_audio schedule.
Proof.
  induction schedule as [|a rest IH]; intros r Hend.
  - cbn. rewrite app_nil_r. reflexivity.
  - unfold run in Hend |- *. cbn [fold_left] in Hend |- *.
    change (fold_left (deliver int_of_str) rest ?x)
      with (run int_of_str x rest) in Hend |- *.
    rewrite (IH _ Hend). cbn [flat_map]. rewrite app_assoc. f_equal.
    destruct (rx_running (deliver int_of_str r a)) eqn:Hstep.
    2:{ rewrite (rx_stays_ended rest _ Hstep) in Hend. discriminate. }
    destruct a as [o m|m]; unfold deliver in Hstep |- *.
    + destruct (rx_running r) eqn:Hrx.
      * destruct (receive_from_twilio_body int_of_str o m (sess r))
          as [[[u|e] st'] out] eqn:Hbody; [|discriminate].
        cbn [sent]. rewrite flat_map_app.
        rewrite (receive_from_twilio_body_appends o m (sess r) st' u out
                   Hbody).
        reflexivity.
      * cbn in Hstep. congruence.
    + destruct (tx_running r).
      * pose proof (send_to_twilio_body_appends_nothing m (sess r)) as Hn.
        destruct (send_to_twilio_body m (sess r))
          as [[[u|e] st'] out]; cbn [snd] in Hn; cbn [sent];
          rewrite flat_map_app, Hn; reflexivity.
      * rewrite app_nil_r. reflexivity.
Qed.

(** X23. A media frame with a timestamp but no payload, received while
    the AI connection is open: the clock is set from the frame before the
    payload is looked up, so the lookup's [KeyError] leaves the new
    timestamp behind; nothing is sent, the inbound loop ends and the
    exception reaches [handle_media_stream]. *)
Theorem media_frame_without_payload_sets_clock (r : relay)
    (members media : list (string * json)) (timestamp : json) (t : Z) :
  rx_running r = true ->
  openai_ws_bound (sess r) = true ->
  assoc "event" members = Some (JStr "media") ->
  assoc "media" members = Some (JObj media) ->
  assoc "timestamp" media = Some timestamp ->
  py_int int_of_str timestamp = Return t ->
  assoc "payload" media = None ->
  deliver int_of_str r (OnTwilio true (Encodes (JObj members)))
  = mkRelay (set_latest_media_timestamp t (sess r)) (sent r) false
      (tx_running r) (Some (KeyError "payload")).
Proof.
  intros Hrx Hbound He Hm Hts Hint Hp.
  unfold deliver. rewrite Hrx.
  unfold receive_from_twilio_body, openai_ws. run_M.
  rewrite He. cbn. rewrite Hbound. cbn. rewrite Hm. cbn.
  rewrite Hts. cbn. rewrite Hint. cbn. rewrite Hp. cbn.
  rewrite app_nil_r. reflexivity.
Qed.

End AudioOrder.

Lemma outbound_audio_in_order_witness :
  flat_map media_payload
    (sent (run int_of_digits (gather st_started) second_response_scenario))
  = flat_map delta_audio second_response_scenario.
Proof.
  apply (outbound_audio_in_order int_of_digits second_response_scenario
           (gather st_started)).
  reflexivity.
Defined.

Lemma inbound_audio_in_order_witness :
  flat_map appended_audio
    (sent (run int_of_digits (gather st_started) second_response_scenario))
  = flat_map frame_audio second_response_scenario.
Proof.
  apply (inbound_audio_in_order int_of_digits second_response_scenario
           (gather st_started)).
  reflexivity.
Defined.

Lemma media_frame_without_payload_sets_clock_witness :
  deliver int_of_digits (gather st_started)
    (OnTwilio true
       (Encodes (JObj [("event", JStr "media");
                       ("media", JObj [("timestamp", JStr "1500")])])))
  = mkRelay (set_latest_media_timestamp 1500 st_started) [] false true
      (Some (KeyError "payload")).
Proof.
  apply (media_frame_without_payload_sets_clock int_of_digits
           (gather st_started)
           [("event", JStr "media");
            ("media", JObj [("timestamp", JStr "1500")])]
           [("timestamp", JStr "1500")] (JStr "1500") 1500);
    reflexivity.
Defined.
